(** * Binarized layers of tiny-cnn / tiny-dnn: a shallow embedding

    The three inference-only layers

    - [tiny_cnn/layers/binarized_fc_layer.h]  (signed XNOR accumulation),
    - [tiny_dnn/layers/binarynet_layer.h]     (popcount against a folded
      batch-norm threshold, text persistence, offload hook),
    - [tiny_dnn/layers/bnn_conv_layer.h]      (valid, stride-1 convolution
      over bit vectors, binary weight file)

    are transcribed function by function.  Member state is threaded through a
    small state-and-exception monad; [std::vector] is a list whose
    [operator[]] is undefined out of range; unsigned integers are [Z] with the
    reduction modulo [2^bits] written at every operation; [float_t] is the
    IEEE-754 specification type [spec_float] of the standard library. *)

From Stdlib Require Import ZArith Bool Ascii String Lia.
From Stdlib Require Import Floats.SpecFloat.
From stdpp Require Import base list.

Local Open Scope Z_scope.

(** ** Machine integers *)

(** Value of [x] after conversion to an unsigned type of [bits] bits. *)
Definition wrap (bits x : Z) : Z := x mod 2 ^ bits.

(** Unsigned arithmetic on [bits] bits. *)
Definition uadd (bits a b : Z) : Z := wrap bits (a + b).
Definition usub (bits a b : Z) : Z := wrap bits (a - b).
Definition umul (bits a b : Z) : Z := wrap bits (a * b).

(** Widths fixed by the C++ implementation (LP64): [std::size_t] and
    [unsigned long long] have 64 bits, [int] and [unsigned int] have 32. *)
Definition size_t_bits : Z := 64.
Definition ullong_bits : Z := 64.
Definition int_bits : Z := 32.
Definition uint_bits : Z := 32.

Definition INT_MIN : Z := - 2 ^ (int_bits - 1).
Definition INT_MAX : Z := 2 ^ (int_bits - 1) - 1.
Definition LONG_MIN : Z := - 2 ^ 63.
Definition LONG_MAX : Z := 2 ^ 63 - 1.
Definition ULONG_MAX : Z := 2 ^ 64 - 1.

Definition in_int (x : Z) : bool := (INT_MIN <=? x) && (x <=? INT_MAX).

(** ** Outcome of a member function

    A call either returns a value and leaves a state, throws (the layers
    throw string literals) and leaves a state, or has undefined behaviour
    (out-of-range [operator[]], signed overflow, reading an uninitialised
    local, an unrepresentable float-to-int conversion). *)

Inductive result (St A : Type) : Type :=
| Ok (a : A) (s : St)
| Throw (msg : string) (s : St)
| Undefined.
Arguments Ok {St A} a s.
Arguments Throw {St A} msg s.
Arguments Undefined {St A}.

Definition M (St A : Type) : Type := St -> result St A.

Definition ret {St A} (a : A) : M St A := fun s => Ok a s.

Definition bind {St A B} (m : M St A) (k : A -> M St B) : M St B :=
  fun s =>
    match m s with
    | Ok a s' => k a s'
    | Throw msg s' => Throw msg s'
    | Undefined => Undefined
    end.

Definition throw {St A} (msg : string) : M St A := fun s => Throw msg s.
Definition undefined {St A} : M St A := fun _ => Undefined.
Definition gets {St A} (f : St -> A) : M St A := fun s => Ok (f s) s.
Definition modify {St} (f : St -> St) : M St unit := fun s => Ok tt (f s).

Declare Scope cxx_scope.
Delimit Scope cxx_scope with cxx.
Notation "x <- c1 ;; c2" := (bind c1 (fun x => c2))
  (at level 100, c1 at next level, right associativity) : cxx_scope.
Notation "c1 ;;; c2" := (bind c1 (fun _ => c2))
  (at level 100, right associativity) : cxx_scope.
Local Open Scope cxx_scope.

(** [for (T i = lo; i < lo + n; i++) body], with the locals the body
    updates passed from one iteration to the next. *)
Fixpoint for_from {St A} (n : nat) (i : Z) (body : Z -> A -> M St A) (a : A)
  : M St A :=
  match n with
  | O => ret a
  | S n' => a' <- body i a ;; for_from n' (i + 1) body a'
  end.

(** [for (T i = 0; i < hi; i++) body] *)
Definition for_ {St A} (hi : Z) (body : Z -> A -> M St A) (a : A) : M St A :=
  for_from (Z.to_nat hi) 0 body a.

(** A loop whose body only changes members.  It is also the model of
    [for_i(parallelize_, hi, body)] of the utility headers: the iterations
    of the layers write disjoint elements, so that running them in
    sequence gives the result of any schedule. *)
Definition for_each {St} (hi : Z) (body : Z -> M St unit) : M St unit :=
  for_ hi (fun i _ => body i) tt.

(** ** Vectors *)

(** [v[i]] as an rvalue. *)
Definition vread {St A} (v : list A) (i : Z) : M St A :=
  match v !! Z.to_nat i with
  | Some x => ret x
  | None => undefined
  end.

(** [v[i] = x]: the updated vector. *)
Definition vwrite {St A} (v : list A) (i : Z) (x : A) : M St (list A) :=
  if decide (Z.to_nat i < length v)%nat then ret (<[Z.to_nat i := x]> v)
  else undefined.

(** ** Floating point *)

Abbreviation float_t := spec_float (only parsing).
Abbreviation vec_t := (list spec_float) (only parsing).

Section FloatFormat.
(** [float_t] is [float] or [double] depending on the build
    configuration: [prec] mantissa bits, infinities at exponent [emax]. *)
Variables prec emax : Z.

(** Integer to [float_t] conversion (round to nearest even). *)
Definition float_of_Z (z : Z) : float_t := binary_normalize prec emax z 0 false.

Definition fadd : float_t -> float_t -> float_t := SFadd prec emax.
Definition fsub : float_t -> float_t -> float_t := SFsub prec emax.
Definition fmul : float_t -> float_t -> float_t := SFmul prec emax.
Definition fdiv : float_t -> float_t -> float_t := SFdiv prec emax.

(** [x >= y] and [x < y]; both are false when an operand is NaN. *)
Definition fge (x y : float_t) : bool := SFleb y x.
Definition flt (x y : float_t) : bool := SFltb x y.

(** [float_t] to [int] conversion: truncation toward zero, undefined when
    the truncated value is not representable. *)
Definition trunc (x : float_t) : option Z :=
  match x with
  | S754_zero _ => Some 0
  | S754_finite s m e =>
      let mag := Z.shiftl (Z.pos m) e in
      Some (if s then - mag else mag)
  | _ => None
  end.

Definition float_to_int {St} (x : float_t) : M St Z :=
  match trunc x with
  | Some z => if in_int z then ret z else undefined
  | None => undefined
  end.

(** The utility every layer carries:
    [for (i = 0; i < in.size(); i++) out[i] = in[i] >= 0;] *)
Definition float2bipolar {St} (in_ : vec_t) (out : list bool)
  : M St (list bool) :=
  for_ (Z.of_nat (length in_))
    (fun i out =>
       x <- vread in_ i ;;
       vwrite out i (fge x (float_of_Z 0)))
    out.
End FloatFormat.

Definition binary32 : Z * Z := (24, 128).
Definition binary64 : Z * Z := (53, 1024).

(** ** The base class

    Members of [layer] (tiny-dnn) / [layer<Activation>] (tiny-cnn) that the
    three layers use.  [a_] and [output_] hold one scratch vector per
    worker; [next_] is the downstream layer, represented by the function its
    [forward_propagation] computes. *)
Record base : Type := {
  in_size_ : Z;
  out_size_ : Z;
  W_ : vec_t;
  a_ : list vec_t;
  output_ : list vec_t;
  next_ : option (vec_t -> Z -> vec_t);
  parallelize_ : bool
}.

Definition set_a_ (f : list vec_t -> list vec_t) (b : base) : base :=
  {| in_size_ := in_size_ b; out_size_ := out_size_ b; W_ := W_ b;
     a_ := f (a_ b); output_ := output_ b; next_ := next_ b;
     parallelize_ := parallelize_ b |}.

Definition set_output_ (f : list vec_t -> list vec_t) (b : base) : base :=
  {| in_size_ := in_size_ b; out_size_ := out_size_ b; W_ := W_ b;
     a_ := a_ b; output_ := f (output_ b); next_ := next_ b;
     parallelize_ := parallelize_ b |}.

Definition set_parallelize (p : bool) (b : base) : base :=
  {| in_size_ := in_size_ b; out_size_ := out_size_ b; W_ := W_ b;
     a_ := a_ b; output_ := output_ b; next_ := next_ b;
     parallelize_ := p |}.

(** Element [i] of the scratch vector of worker [index]
    ([vec_t& a = a_[index]; ... a[i] ...]). *)
Definition a_read (index i : Z) : M base float_t :=
  l <- gets a_ ;; a <- vread l index ;; vread a i.

Definition a_write (index i : Z) (x : float_t) : M base unit :=
  l <- gets a_ ;;
  a <- vread l index ;;
  a' <- vwrite a i x ;;
  l' <- vwrite l index a' ;;
  modify (set_a_ (fun _ => l')).

Definition out_write (index i : Z) (x : float_t) : M base unit :=
  l <- gets output_ ;;
  out <- vread l index ;;
  out' <- vwrite out i x ;;
  l' <- vwrite l index out' ;;
  modify (set_output_ (fun _ => l')).

(** Run a computation on a sub-object. *)
Definition lift {S T A} (get : T -> S) (set : S -> T -> T) (m : M S A)
  : M T A :=
  fun t =>
    match m (get t) with
    | Ok a s => Ok a (set s t)
    | Throw msg s => Throw msg (set s t)
    | Undefined => Undefined
    end.

(** ** Text streams

    [std::ostream] is the sequence of characters written so far;
    [std::istream] is the unread characters and the fail bit.  Formatting
    flags are the defaults (decimal, no [boolalpha], classic locale). *)

Definition ostream : Type := list ascii.

Record istream : Type := { unread : list ascii; failbit : bool }.

Definition digit_char (d : Z) : ascii := ascii_of_nat (48 + Z.to_nat d).

Definition is_digit (c : ascii) : bool :=
  let n := nat_of_ascii c in (48 <=? n)%nat && (n <=? 57)%nat.

Definition digit_val (c : ascii) : Z := Z.of_nat (nat_of_ascii c) - 48.

(** [isspace] in the classic locale: space, and the controls 9 to 13. *)
Definition is_space (c : ascii) : bool :=
  let n := nat_of_ascii c in
  (n =? 32)%nat || ((9 <=? n)%nat && (n <=? 13)%nat).

Fixpoint digits_fuel (fuel : nat) (n : Z) (acc : list ascii) : list ascii :=
  match fuel with
  | O => acc
  | S f =>
      let acc' := digit_char (n mod 10) :: acc in
      if n <? 10 then acc' else digits_fuel f (n / 10) acc'
  end.

(** [os << n] for a non-negative integer [n]. *)
Definition print_unsigned (n : Z) : list ascii :=
  digits_fuel (S (Z.to_nat (Z.log2 n))) n [].

Definition newline : ascii := ascii_of_nat 10.

Fixpoint skip_ws (s : list ascii) : list ascii :=
  match s with
  | c :: s' => if is_space c then skip_ws s' else s
  | [] => []
  end.

Fixpoint take_digits (s : list ascii) : list ascii * list ascii :=
  match s with
  | c :: s' =>
      if is_digit c then let '(ds, r) := take_digits s' in (c :: ds, r)
      else ([], s)
  | [] => ([], [])
  end.

Definition digits_value (ds : list ascii) : Z :=
  fold_left (fun a c => 10 * a + digit_val c) ds 0.

(** The integer field [num_get] accumulates: an optional sign, then decimal
    digits.  Returns whether the sign was [-], the digits, and the rest. *)
Definition scan_integer (s : list ascii) : bool * list ascii * list ascii :=
  match s with
  | c :: s' =>
      if Ascii.eqb c "-"%char then let '(ds, r) := take_digits s' in (true, ds, r)
      else if Ascii.eqb c "+"%char then let '(ds, r) := take_digits s' in (false, ds, r)
      else let '(ds, r) := take_digits s in (false, ds, r)
  | [] => (false, [], [])
  end.

Definition failed (s : list ascii) : istream := {| unread := s; failbit := true |}.
Definition good (s : list ascii) : istream := {| unread := s; failbit := false |}.

(** The sentry of a formatted extraction: does nothing on a failed stream,
    else skips white space and fails at end of input. *)
Definition sentry (is_ : istream) : option (list ascii) * istream :=
  if failbit is_ then (None, is_)
  else match skip_ws (unread is_) with
       | [] => (None, failed [])
       | s => (Some s, good s)
       end.

(** [is >> v] for [unsigned long v]: [None] when [v] is left as it was. *)
Definition extract_ulong (is_ : istream) : option Z * istream :=
  match sentry is_ with
  | (None, is') => (None, is')
  | (Some s, _) =>
      let '(neg, ds, r) := scan_integer s in
      match ds with
      | [] => (Some 0, failed r)
      | _ =>
          let v := digits_value ds in
          if ULONG_MAX <? v then (Some ULONG_MAX, failed r)
          else (Some (if neg then wrap 64 (- v) else v), good r)
      end
  end.

(** [num_get] for [long]. *)
Definition extract_long (is_ : istream) : option Z * istream :=
  match sentry is_ with
  | (None, is') => (None, is')
  | (Some s, _) =>
      let '(neg, ds, r) := scan_integer s in
      match ds with
      | [] => (Some 0, failed r)
      | _ =>
          let v := if neg then - digits_value ds else digits_value ds in
          if LONG_MAX <? v then (Some LONG_MAX, failed r)
          else if v <? LONG_MIN then (Some LONG_MIN, failed r)
          else (Some v, good r)
      end
  end.

(** [is >> w] for [bool w]: the field is read as a [long]; 0 and 1 are
    stored as such, any other value stores [true] and sets the fail bit. *)
Definition extract_bool (is_ : istream) : option bool * istream :=
  match extract_long is_ with
  | (None, is') => (None, is')
  | (Some l, is') =>
      if l =? 0 then (Some false, is')
      else if l =? 1 then (Some true, is')
      else (Some true, failed (unread is'))
  end.

(** ** [tiny_dnn::binarynet_layer] *)
Module binarynet_layer.

(** The offload hook, a pointer to a function returning void on
    [vector<bool>&, vector<size_t>&, vector<bool>&, vector<bool>&]: all
    four arguments are passed by non-const reference, so the hook returns
    what it leaves in them. *)
Definition BinMatVecMult : Type :=
  list bool -> list Z -> list bool -> list bool ->
  list bool * list Z * list bool * list bool.

Record t : Type := {
  base_ : base;
  Wbin_ : list bool;
  Threshold_ : list Z;
  Offload_ : option BinMatVecMult
}.

Definition set_base_ (b : base) (l : t) : t :=
  {| base_ := b; Wbin_ := Wbin_ l; Threshold_ := Threshold_ l;
     Offload_ := Offload_ l |}.
Definition set_Wbin_ (w : list bool) (l : t) : t :=
  {| base_ := base_ l; Wbin_ := w; Threshold_ := Threshold_ l;
     Offload_ := Offload_ l |}.
Definition set_Threshold_ (th : list Z) (l : t) : t :=
  {| base_ := base_ l; Wbin_ := Wbin_ l; Threshold_ := th;
     Offload_ := Offload_ l |}.

Definition in_base {A} (m : M base A) : M t A := lift base_ set_base_ m.

Section Config.
(** [serial_size_t] has [sbits] bits (32 in tiny-dnn's configuration;
    the arithmetic below is written for 32 <= sbits <= 64, where no
    operand is promoted to [int]); [float_t] has format [prec], [emax]. *)
Variables sbits prec emax : Z.

(** Constructor, given the [Base(in_dim, out_dim, ...)] sub-object:
    [in_size_ * out_size_] times [Wbin_.push_back(false)], then
    [out_size_] times [Threshold_.push_back(0)]. *)
Definition binarynet_layer (b : base) (offload : option BinMatVecMult) : t :=
  {| base_ := b;
     Wbin_ := Nat.iter (Z.to_nat (wrap sbits (in_size_ b * out_size_ b)))
                (fun v => v ++ [false]) [];
     Threshold_ := Nat.iter (Z.to_nat (out_size_ b)) (fun v => v ++ [0]) [];
     Offload_ := offload |}.

Definition save (l : t) (os : ostream) : ostream :=
  let os :=
    fold_left (fun os (w : bool) =>
                 os ++ print_unsigned (if w then 1 else 0) ++ [newline])
      (Wbin_ l) os in
  fold_left (fun os thr => os ++ print_unsigned thr ++ [newline])
    (Threshold_ l) os.

(** [for (auto& thr : Threshold_) is >> thr;] *)
Fixpoint load_thresholds (thrs : list Z) (is_ : istream)
  : list Z * istream :=
  match thrs with
  | [] => ([], is_)
  | thr :: rest =>
      let '(v, is') := extract_ulong is_ in
      let '(rest', is'') := load_thresholds rest is' in
      (match v with Some x => x | None => thr end :: rest', is'')
  end.

(** The local [bool w] starts uninitialised ([None]). *)
Definition load (is_ : istream) : M t istream :=
  n <- gets (fun l => wrap sbits (in_size_ (base_ l) * out_size_ (base_ l))) ;;
  r <-
    for_ n
      (fun i '(w, is_) =>
         let '(v, is_) := extract_bool is_ in
         let w := match v with Some x => Some x | None => w end in
         match w with
         | None => undefined
         | Some x =>
             wb <- gets Wbin_ ;;
             wb' <- vwrite wb i x ;;
             modify (set_Wbin_ wb') ;;;
             ret (w, is_)
         end)
      (None, is_) ;;
  thrs <- gets Threshold_ ;;
  let '(thrs', is_) := load_thresholds thrs (snd r) in
  modify (set_Threshold_ thrs') ;;;
  ret is_.

Definition connection_size (l : t) : Z :=
  wrap size_t_bits
    (wrap size_t_bits (in_size_ (base_ l) * out_size_ (base_ l))
     + wrap sbits (2 * out_size_ (base_ l))).

Definition fan_in_size (l : t) : Z := in_size_ (base_ l).
Definition fan_out_size (l : t) : Z := out_size_ (base_ l).

Definition post_update : M t unit :=
  w <- gets (fun l => W_ (base_ l)) ;;
  wb <- gets Wbin_ ;;
  wb' <- float2bipolar prec emax w wb ;;
  modify (set_Wbin_ wb').

Definition set_threshold_from_batchnorm
  (index : Z) (mean gamma invstd beta : float_t) : M t unit :=
  thres <- float_to_int (fsub prec emax mean
                           (fdiv prec emax beta (fmul prec emax gamma invstd))) ;;
  thres <-
    (if flt (fmul prec emax gamma invstd) (float_of_Z prec emax 0) then
       thres <- (if in_int (- thres) then ret (- thres) else undefined) ;;
       n <- gets (fun l => in_size_ (base_ l)) ;;
       for_each n
         (fun c =>
            osz <- gets (fun l => out_size_ (base_ l)) ;;
            let k := wrap size_t_bits (wrap sbits (c * osz) + index) in
            wb <- gets Wbin_ ;;
            b <- vread wb k ;;
            wb' <- vwrite wb k (negb b) ;;
            modify (set_Wbin_ wb')) ;;;
       ret thres
     else ret thres) ;;
  fan_in <- gets fan_in_size ;;
  thrs <- gets Threshold_ ;;
  thrs' <- vwrite thrs index
             (wrap size_t_bits (wrap size_t_bits thres + fan_in) / 2) ;;
  modify (set_Threshold_ thrs').

Definition forward_propagation (in_ : vec_t) (index : Z) : M t vec_t :=
  isz <- gets (fun l => in_size_ (base_ l)) ;;
  osz <- gets (fun l => out_size_ (base_ l)) ;;
  in_bin <- float2bipolar prec emax in_ (replicate (Z.to_nat isz) false) ;;
  hook <- gets Offload_ ;;
  match hook with
  | Some offload =>
      thrs <- gets Threshold_ ;;
      wb <- gets Wbin_ ;;
      let '(_, thrs', wb', res) :=
        offload in_bin thrs wb (replicate (Z.to_nat osz) false) in
      modify (set_Threshold_ thrs') ;;;
      modify (set_Wbin_ wb') ;;;
      for_each osz
        (fun i =>
           r <- vread res i ;;
           in_base (out_write index i
                      (float_of_Z prec emax (if r then 1 else -1))))
  | None =>
      for_each osz
        (fun i =>
           in_base (a_write index i (float_of_Z prec emax 0)) ;;;
           for_each isz
             (fun c =>
                wb <- gets Wbin_ ;;
                w <- vread wb (wrap size_t_bits (wrap sbits (wrap sbits (c * osz) + i))) ;;
                x <- vread in_bin c ;;
                ai <- in_base (a_read index i) ;;
                in_base (a_write index i
                           (fadd prec emax ai
                              (float_of_Z prec emax
                                 (if Bool.eqb w x then 1 else 0))))) ;;;
           ai <- in_base (a_read index i) ;;
           thrs <- gets Threshold_ ;;
           thr <- vread thrs i ;;
           in_base (out_write index i
                      (float_of_Z prec emax
                         (if fge ai (float_of_Z prec emax thr) then 1 else -1))))
  end ;;;
  outs <- gets (fun l => output_ (base_ l)) ;;
  out <- vread outs index ;;
  nx <- gets (fun l => next_ (base_ l)) ;;
  ret (match nx with Some f => f out index | None => out end).

Definition back_propagation (curr_delta : vec_t) (index : Z) : M t vec_t :=
  throw (A := unit) "Not yet implemented" ;;;
  ret curr_delta.

Definition back_propagation_2nd (current_delta2 : vec_t) : M t vec_t :=
  throw (A := unit) "Not yet implemented" ;;;
  ret current_delta2.

Definition layer_type : string := "binarynet-fully-connected".
End Config.
End binarynet_layer.

(** ** [tiny_cnn::binarized_fc_layer<Activation>] *)
Module binarized_fc_layer.

(** [h_] is the [Activation] object of the base class; [h_.f(a, i)] is a
    function of the accumulator vector and the index. *)
Record t : Type := {
  base_ : base;
  h_ : vec_t -> Z -> float_t;
  Wbin_ : list bool
}.

Definition set_base_ (b : base) (l : t) : t :=
  {| base_ := b; h_ := h_ l; Wbin_ := Wbin_ l |}.
Definition set_Wbin_ (w : list bool) (l : t) : t :=
  {| base_ := base_ l; h_ := h_ l; Wbin_ := w |}.

Definition in_base {A} (m : M base A) : M t A := lift base_ set_base_ m.

Section Config.
(** [cnn_size_t] has [cbits] bits (32 <= cbits <= 64); [float_t] has
    format [prec], [emax]. *)
Variables cbits prec emax : Z.

Definition connection_size (l : t) : Z :=
  umul size_t_bits (in_size_ (base_ l)) (out_size_ (base_ l)).

Definition fan_in_size (l : t) : Z := in_size_ (base_ l).
Definition fan_out_size (l : t) : Z := out_size_ (base_ l).

(** Constructor, given the base sub-object and the activation.  The
    counter of the [push_back] loop is an [unsigned int]: when
    [connection_size()] does not fit, the counter wraps below the bound
    for ever and no object is constructed ([None]). *)
Definition binarized_fc_layer (b : base) (h : vec_t -> Z -> float_t)
  : option t :=
  let l0 := {| base_ := b; h_ := h; Wbin_ := [] |} in
  if connection_size l0 <? 2 ^ uint_bits then
    Some (set_Wbin_
            (Nat.iter (Z.to_nat (connection_size l0))
               (fun v => v ++ [false]) [])
            l0)
  else None.

Definition post_update : M t unit :=
  w <- gets (fun l => W_ (base_ l)) ;;
  wb <- gets Wbin_ ;;
  wb' <- float2bipolar prec emax w wb ;;
  modify (set_Wbin_ wb').

Definition forward_propagation (in_ : vec_t) (index : Z) : M t vec_t :=
  isz <- gets (fun l => in_size_ (base_ l)) ;;
  osz <- gets (fun l => out_size_ (base_ l)) ;;
  in_bin <- float2bipolar prec emax in_ (replicate (Z.to_nat isz) false) ;;
  for_each osz
    (fun i =>
       in_base (a_write index i (float_of_Z prec emax 0)) ;;;
       for_each isz
         (fun c =>
            wb <- gets Wbin_ ;;
            w <- vread wb (wrap size_t_bits (uadd cbits (umul cbits c osz) i)) ;;
            x <- vread in_bin c ;;
            ai <- in_base (a_read index i) ;;
            in_base (a_write index i
                       (fadd prec emax ai
                          (float_of_Z prec emax
                             (if Bool.eqb w x then 1 else -1)))))) ;;;
  for_each osz
    (fun i =>
       h <- gets h_ ;;
       as_ <- gets (fun l => a_ (base_ l)) ;;
       a <- vread as_ index ;;
       in_base (out_write index i (h a i))) ;;;
  outs <- gets (fun l => output_ (base_ l)) ;;
  out <- vread outs index ;;
  nx <- gets (fun l => next_ (base_ l)) ;;
  ret (match nx with Some f => f out index | None => out end).

Definition back_propagation (curr_delta : vec_t) (index : Z) : M t vec_t :=
  throw (A := unit) "Not yet implemented" ;;;
  ret curr_delta.

Definition back_propagation_2nd (current_delta2 : vec_t) : M t vec_t :=
  throw (A := unit) "Not yet implemented" ;;;
  ret current_delta2.

Definition layer_type : string := "binarized-fully-connected".
End Config.
End binarized_fc_layer.

(** ** Binary files

    An [std::ifstream] opened in binary mode: the unread bytes and the fail
    bit.  The file system maps a name to the content of the file, if it can
    be opened. *)
Record ifstream : Type := { bytes : list Byte.byte; bad : bool }.

(** [wf.read(buf, n)] on a buffer holding [buf]: the bytes that are
    available, up to [n], overwrite the front of the buffer; fewer than [n]
    set the fail bit; a failed stream is left alone. *)
Definition read (wf : ifstream) (buf : list Byte.byte) (n : nat)
  : list Byte.byte * ifstream :=
  if bad wf then (buf, wf)
  else
    let got := take n (bytes wf) in
    (got ++ drop (length got) buf,
     {| bytes := drop n (bytes wf);
        bad := negb (length got =? n)%nat |}).

Definition byte_val (b : Byte.byte) : Z := Z.of_N (Byte.to_N b).

(** Value of an unsigned integer from its bytes, least significant first. *)
Fixpoint decode_le (bs : list Byte.byte) : Z :=
  match bs with
  | [] => 0
  | b :: bs' => byte_val b + 256 * decode_le bs'
  end.

(** Value of the object representation [bs] on the host. *)
Definition decode (big_endian : bool) (bs : list Byte.byte) : Z :=
  if big_endian then decode_le (rev bs) else decode_le bs.

(** ** [tiny_dnn::bnn_conv_layer] *)
Module bnn_conv_layer.

Record t : Type := {
  base_ : base;
  use_popcount_ : bool;
  Wbin_ : list bool;
  in_width_ : Z;
  in_height_ : Z;
  window_size_ : Z;
  in_channels_ : Z;
  out_channels_ : Z;
  out_width_ : Z;
  out_height_ : Z
}.

Definition set_base_ (b : base) (l : t) : t :=
  {| base_ := b; use_popcount_ := use_popcount_ l; Wbin_ := Wbin_ l;
     in_width_ := in_width_ l; in_height_ := in_height_ l;
     window_size_ := window_size_ l; in_channels_ := in_channels_ l;
     out_channels_ := out_channels_ l; out_width_ := out_width_ l;
     out_height_ := out_height_ l |}.
Definition set_Wbin_ (w : list bool) (l : t) : t :=
  {| base_ := base_ l; use_popcount_ := use_popcount_ l; Wbin_ := w;
     in_width_ := in_width_ l; in_height_ := in_height_ l;
     window_size_ := window_size_ l; in_channels_ := in_channels_ l;
     out_channels_ := out_channels_ l; out_width_ := out_width_ l;
     out_height_ := out_height_ l |}.

Definition in_base {A} (m : M base A) : M t A := lift base_ set_base_ m.

Section Config.
(** [serial_size_t] has [sbits] bits (32 <= sbits <= 64); [float_t] has
    format [prec], [emax]; [big_endian] is the byte order of the host;
    [fs] is the file system. *)
Variables sbits prec emax : Z.
Variable big_endian : bool.
Variable fs : string -> option (list Byte.byte).

Definition loadFromBinaryFile (fileName : string) : M t unit :=
  match fs fileName with
  | None => throw "Could not open file"
  | Some content =>
      n <- gets (fun l => Z.of_nat (length (Wbin_ l))) ;;
      for_ n
        (fun line wf =>
           let e := replicate 8 Byte.x00 in
           let '(e, wf) := read wf e 8 in
           wb <- gets Wbin_ ;;
           wb' <- vwrite wb line (decode big_endian e =? 1) ;;
           modify (set_Wbin_ wb') ;;;
           ret wf)
        {| bytes := content; bad := false |} ;;;
      ret tt
  end.

(** Constructor, given the [Base(...)] sub-object. *)
Definition bnn_conv_layer (b : base)
  (in_width in_height window_size in_channels out_channels : Z)
  (use_popcount : bool) (binaryParamFile : string) : result t unit :=
  let l0 :=
    {| base_ := set_parallelize false b;
       use_popcount_ := use_popcount;
       Wbin_ := replicate
                  (Z.to_nat
                     (umul sbits
                        (umul sbits (umul sbits out_channels in_channels)
                           window_size)
                        window_size))
                  false;
       in_width_ := in_width; in_height_ := in_height;
       window_size_ := window_size; in_channels_ := in_channels;
       out_channels_ := out_channels;
       out_width_ := uadd sbits (usub sbits in_width window_size) 1;
       out_height_ := uadd sbits (usub sbits in_height window_size) 1 |} in
  if String.eqb binaryParamFile EmptyString then Ok tt l0
  else loadFromBinaryFile binaryParamFile l0.

Definition fan_in_size (l : t) : Z :=
  umul sbits (umul sbits (in_channels_ l) (window_size_ l)) (window_size_ l).

Definition fan_out_size (l : t) : Z :=
  umul sbits (umul sbits (out_channels_ l) (window_size_ l)) (window_size_ l).

Definition connection_size (l : t) : Z :=
  umul size_t_bits (umul sbits (out_height_ l) (out_width_ l)) (fan_in_size l).

Definition layer_type : string := "bnn_conv_layer".

Definition post_update : M t unit :=
  w <- gets (fun l => W_ (base_ l)) ;;
  wb <- gets Wbin_ ;;
  wb' <- float2bipolar prec emax w wb ;;
  modify (set_Wbin_ wb').

Definition back_propagation_2nd (current_delta2 : vec_t) : M t vec_t :=
  throw "Not implemented".

(** [acc += d] on the [int] accumulator; signed overflow is undefined. *)
Definition int_add {St} (acc d : Z) : M St Z :=
  if in_int (acc + d) then ret (acc + d) else undefined.

(** The accumulation statement of the kernel:
    [if (use_popcount_) acc += w == x ? +1 : 0;
     else               acc += w == x ? +1 : -1;] *)
Definition accumulate {St} (use_popcount w x : bool) (acc : Z) : M St Z :=
  if use_popcount then int_add acc (if Bool.eqb w x then 1 else 0)
  else int_add acc (if Bool.eqb w x then 1 else -1).

Definition forward_propagation (in_raw : vec_t) (worker_index : Z)
  : M t vec_t :=
  in_bin <- float2bipolar prec emax in_raw
              (replicate (length in_raw) false) ;;
  l <- gets id ;;
  let ws := window_size_ l in
  for_each (out_channels_ l)
    (fun oc =>
       let output_base :=
         umul sbits (umul sbits oc (out_height_ l)) (out_width_ l) in
       for_each (out_height_ l)
         (fun oy =>
            for_each (out_width_ l)
              (fun ox =>
                 acc <-
                   for_ (in_channels_ l)
                     (fun ic acc =>
                        let weight_base :=
                          uadd sbits
                            (umul sbits oc
                               (umul sbits (umul sbits ws ws) (in_channels_ l)))
                            (umul sbits (umul sbits ws ws) ic) in
                        let input_base :=
                          uadd sbits
                            (uadd sbits
                               (umul sbits ic
                                  (umul sbits (in_width_ l) (in_height_ l)))
                               (umul sbits oy (in_width_ l)))
                            ox in
                        for_ ws
                          (fun ky acc =>
                             for_ ws
                               (fun kx acc =>
                                  let weight_ind :=
                                    uadd size_t_bits
                                      (uadd size_t_bits weight_base
                                         (umul sbits ky ws))
                                      kx in
                                  let input_ind :=
                                    uadd size_t_bits
                                      (uadd size_t_bits input_base
                                         (umul sbits ky (in_width_ l)))
                                      kx in
                                  wb <- gets Wbin_ ;;
                                  w <- vread wb weight_ind ;;
                                  x <- vread in_bin input_ind ;;
                                  accumulate (use_popcount_ l) w x acc)
                               acc)
                          acc)
                     0 ;;
                 let output_ind :=
                   uadd size_t_bits
                     (uadd size_t_bits output_base
                        (umul sbits oy (out_width_ l)))
                     ox in
                 in_base (out_write worker_index output_ind
                            (float_of_Z prec emax acc))))) ;;;
  outs <- gets (fun l => output_ (base_ l)) ;;
  out <- vread outs worker_index ;;
  nx <- gets (fun l => next_ (base_ l)) ;;
  ret (match nx with Some f => f out worker_index | None => out end).

Definition back_propagation (curr_delta : vec_t) (index : Z) : M t vec_t :=
  throw "Not implemented".
End Config.
End bnn_conv_layer.

(** * Specification-level definitions and example states *)

Definition example_base (isz osz : Z) : base :=
  {| in_size_ := isz; out_size_ := osz; W_ := [];
     a_ := [replicate (Z.to_nat osz) (S754_zero false)];
     output_ := [replicate (Z.to_nat osz) (S754_zero false)];
     next_ := None; parallelize_ := true |}.

Definition no_files : string -> option (list Byte.byte) := fun _ => None.

Definition is_float_format (prec emax : Z) : Prop :=
  (prec, emax) = binary32 \/ (prec, emax) = binary64.

(** The last statement of [set_threshold_from_batchnorm], run with the
    value [thres] of its local:
    [Threshold_[index] = (thres + fan_in_size()) / 2;] *)
Definition store_threshold (index thres : Z) : M binarynet_layer.t unit :=
  fan_in <- gets binarynet_layer.fan_in_size ;;
  thrs <- gets binarynet_layer.Threshold_ ;;
  thrs' <- vwrite thrs index
             (wrap size_t_bits (wrap size_t_bits thres + fan_in) / 2) ;;
  modify (binarynet_layer.set_Threshold_ thrs').

Definition example_binarynet : binarynet_layer.t :=
  binarynet_layer.set_Wbin_
    [true; false; false; false; true; true; false; true]
    (binarynet_layer.binarynet_layer 32 (example_base 4 2) None).

(** [x >= 0] on [float_t], by cases on the value: zeros of either sign,
    positive numbers and plus infinity are encoded as [true]; negative
    numbers, minus infinity and NaN as [false]. *)
Definition non_negative (x : float_t) : bool :=
  match x with
  | S754_zero _ => true
  | S754_infinity s => negb s
  | S754_nan => false
  | S754_finite s _ _ => negb s
  end.

Definition with_W (w : vec_t) (b : base) : base :=
  {| in_size_ := in_size_ b; out_size_ := out_size_ b; W_ := w;
     a_ := a_ b; output_ := output_ b; next_ := next_ b;
     parallelize_ := parallelize_ b |}.

Definition example_weights : vec_t :=
  [float_of_Z 24 128 3; float_of_Z 24 128 (-3); S754_zero true; S754_nan].

Definition example_fc_synced : binarized_fc_layer.t :=
  {| binarized_fc_layer.base_ := with_W example_weights (example_base 2 2);
     binarized_fc_layer.h_ := fun a i => S754_zero false;
     binarized_fc_layer.Wbin_ := replicate 4 false |}.

Definition example_binarynet_synced : binarynet_layer.t :=
  binarynet_layer.binarynet_layer 32
    (with_W example_weights (example_base 2 2)) None.

Definition example_conv_synced : bnn_conv_layer.t :=
  {| bnn_conv_layer.base_ := with_W example_weights (example_base 4 1);
     bnn_conv_layer.use_popcount_ := false;
     bnn_conv_layer.Wbin_ := replicate 4 false;
     bnn_conv_layer.in_width_ := 2; bnn_conv_layer.in_height_ := 2;
     bnn_conv_layer.window_size_ := 2; bnn_conv_layer.in_channels_ := 1;
     bnn_conv_layer.out_channels_ := 1; bnn_conv_layer.out_width_ := 1;
     bnn_conv_layer.out_height_ := 1 |}.

Definition example_binarynet_overlong : binarynet_layer.t :=
  binarynet_layer.binarynet_layer 32
    (with_W [float_of_Z 24 128 1; float_of_Z 24 128 1] (example_base 1 1)) None.

Definition pad8 (bs : list Byte.byte) : list Byte.byte :=
  bs ++ replicate (8 - length bs) Byte.x00.

(** The [line]-th group of 8 bytes of the file, zero-filled where the file
    ends early. *)
Definition stored_word (content : list Byte.byte) (line : nat)
  : list Byte.byte :=
  pad8 (take 8 (drop (8 * line) content)).

Definition example_file : list Byte.byte :=
  [Byte.x01; Byte.x00; Byte.x00; Byte.x00; Byte.x00; Byte.x00; Byte.x00; Byte.x00;
   Byte.x02; Byte.x00; Byte.x00; Byte.x00; Byte.x00; Byte.x00; Byte.x00; Byte.x00;
   Byte.x00; Byte.x00; Byte.x00; Byte.x00; Byte.x00; Byte.x00; Byte.x00; Byte.x00;
   Byte.x01; Byte.x01; Byte.x00; Byte.x00; Byte.x00; Byte.x00; Byte.x00; Byte.x00].

Definition example_fs : string -> option (list Byte.byte) :=
  fun name => if String.eqb name "weights.bin" then Some example_file else None.

(** The accumulation statement run over a sequence of weight-bit/input-bit
    pairs, as the kernel loops do over the pairs of one output element. *)
Fixpoint accumulate_all {St} (use_popcount : bool) (ps : list (bool * bool))
  (acc : Z) : M St Z :=
  match ps with
  | [] => ret acc
  | (w, x) :: ps' =>
      acc' <- bnn_conv_layer.accumulate use_popcount w x acc ;;
      accumulate_all use_popcount ps' acc'
  end.

(** Number of pairs whose two bits are equal. *)
Definition matches (ps : list (bool * bool)) : Z :=
  Z.of_nat (length (filter (fun p => Bool.eqb (fst p) (snd p) = true) ps)).

(** What [save] writes for the weight bits and for the thresholds. *)
Definition bits_text (ws : list bool) : list ascii :=
  flat_map (fun w : bool => print_unsigned (if w then 1 else 0) ++ [newline]) ws.

Definition thrs_text (thrs : list Z) : list ascii :=
  flat_map (fun thr => print_unsigned thr ++ [newline]) thrs.

Definition example_binarynet_1x2 : binarynet_layer.t :=
  binarynet_layer.set_Threshold_ [7; 9]
    (binarynet_layer.set_Wbin_ [true; true]
       (binarynet_layer.binarynet_layer 32 (example_base 1 2) None)).

Definition short_stream : istream := good ["0"%char; newline].

Definition long_stream : istream :=
  good ["1"; " "; "0"; " "; "3"; " "; "4"; " "; "5"; "5"]%char.

(** The value of an element of an output vector: the [float_t] of [+1] or
    of [-1]. *)
Definition plus_or_minus_one (prec emax : Z) (x : spec_float) : Prop :=
  x = float_of_Z prec emax 1 \/ x = float_of_Z prec emax (-1).

(** What the members of the base class must satisfy for a fully-connected
    forward pass of worker [index] to stay in range: non-negative sizes and
    scratch vectors of [out_size_] elements. *)
Definition scratch_ready (b : base) (index : Z) : Prop :=
  0 <= in_size_ b /\ 0 <= out_size_ b /\ 0 <= index /\
  (exists abuf, a_ b !! Z.to_nat index = Some abuf /\
                Z.of_nat (length abuf) = out_size_ b) /\
  (exists obuf, output_ b !! Z.to_nat index = Some obuf /\
                Z.of_nat (length obuf) = out_size_ b).

(** [b'] is [b] with other contents in the scratch vectors. *)
Definition same_shape (b b' : base) : Prop :=
  in_size_ b' = in_size_ b /\ out_size_ b' = out_size_ b /\
  W_ b' = W_ b /\ next_ b' = next_ b /\
  length <$> a_ b' = length <$> a_ b /\
  length <$> output_ b' = length <$> output_ b.

(** State of the output vector of worker [index] after the first [i]
    elements have been written. *)
Definition written (prec emax : Z) (b : base) (index i : Z) : Prop :=
  forall obuf, output_ b !! Z.to_nat index = Some obuf ->
    forall j, 0 <= j < i ->
      exists y, obuf !! Z.to_nat j = Some y /\ plus_or_minus_one prec emax y.

(** The hook, when there is one, leaves at least [out_size_] result bits. *)
Definition hook_fills (l : binarynet_layer.t) : Prop :=
  match binarynet_layer.Offload_ l with
  | Some hook =>
      forall inb thrs wb res,
        out_size_ (binarynet_layer.base_ l)
        <= Z.of_nat (length (snd (hook inb thrs wb res)))
  | None => True
  end.

(** An activation with values in [{-1, +1}]: the sign of the accumulator. *)
Definition sign_activation (a : vec_t) (i : Z) : float_t :=
  match a !! Z.to_nat i with
  | Some x => if non_negative x then float_of_Z 24 128 1 else float_of_Z 24 128 (-1)
  | None => float_of_Z 24 128 1
  end.

(** tiny-cnn's [activation::identity]: [f(v, i) = v[i]]. *)
Definition identity_activation (a : vec_t) (i : Z) : float_t :=
  match a !! Z.to_nat i with
  | Some x => x
  | None => S754_zero false
  end.

Definition example_fc (h : vec_t -> Z -> float_t) : binarized_fc_layer.t :=
  {| binarized_fc_layer.base_ := example_base 2 1;
     binarized_fc_layer.h_ := h;
     binarized_fc_layer.Wbin_ := [false; false] |}.

Definition example_binarynet_2x1 : binarynet_layer.t :=
  binarynet_layer.binarynet_layer 32 (example_base 2 1) None.

Definition example_input : vec_t := [float_of_Z 24 128 1; float_of_Z 24 128 (-1)].

(** [[lo, lo + n)] in loop order. *)
Fixpoint range_from (n : nat) (lo : Z) : list Z :=
  match n with
  | O => []
  | S n' => lo :: range_from n' (lo + 1)
  end.

Definition range (hi : Z) : list Z := range_from (Z.to_nat hi) 0.

Definition bit (v : list bool) (i : Z) : bool := default false (v !! Z.to_nat i).

(** The match rule of the layer: [+1] for equal bits, else [0] in popcount
    mode and [-1] in signed mode. *)
Definition match_rule (use_popcount : bool) (p : bool * bool) : Z :=
  if Bool.eqb (fst p) (snd p) then 1 else if use_popcount then 0 else -1.

(** The weight-bit/input-bit pairs of output element [(oc, oy, ox)], with
    the index formulas of the specification, in the order [ic], [ky], [kx]. *)
Definition window_pairs (l : bnn_conv_layer.t) (in_bin : list bool)
  (oc oy ox : Z) : list (bool * bool) :=
  let k := bnn_conv_layer.window_size_ l in
  flat_map (fun ic =>
    let weight_base := oc * (k * k * bnn_conv_layer.in_channels_ l) + ic * (k * k) in
    let input_base :=
      ic * (bnn_conv_layer.in_width_ l * bnn_conv_layer.in_height_ l)
      + oy * bnn_conv_layer.in_width_ l + ox in
    flat_map (fun ky =>
      map (fun kx =>
             (bit (bnn_conv_layer.Wbin_ l) (weight_base + ky * k + kx),
              bit in_bin (input_base + ky * bnn_conv_layer.in_width_ l + kx)))
        (range k))
      (range k))
    (range (bnn_conv_layer.in_channels_ l)).

(** The accumulator of output element [(oc, oy, ox)] as the specification
    defines it: the sum of the match rule over the pairs. *)
Definition spec_conv_acc (l : bnn_conv_layer.t) (in_bin : list bool)
  (oc oy ox : Z) : Z :=
  foldr Z.add 0
    (map (match_rule (bnn_conv_layer.use_popcount_ l))
       (window_pairs l in_bin oc oy ox)).

(** Geometry of a constructed layer, within the range where the unsigned
    index arithmetic does not wrap and the fan-in fits the [int]
    accumulator. *)
Definition conv_geometry (sbits : Z) (l : bnn_conv_layer.t) : Prop :=
  let k := bnn_conv_layer.window_size_ l in
  let W := bnn_conv_layer.in_width_ l in
  let H := bnn_conv_layer.in_height_ l in
  let I := bnn_conv_layer.in_channels_ l in
  let O := bnn_conv_layer.out_channels_ l in
  sbits <= 64 /\ 0 < k <= W /\ k <= H /\ 0 <= I /\ 0 <= O /\
  bnn_conv_layer.out_width_ l = W - k + 1 /\
  bnn_conv_layer.out_height_ l = H - k + 1 /\
  W * H * I < 2 ^ sbits /\
  O * I * k * k < 2 ^ sbits /\
  O * (H - k + 1) * (W - k + 1) < 2 ^ sbits /\
  I * k * k <= INT_MAX /\
  Z.of_nat (length (bnn_conv_layer.Wbin_ l)) = O * I * k * k.

(** The statements of [forward_propagation] that compute and store one
    output element. *)
Definition conv_element (sbits prec emax : Z) (l : bnn_conv_layer.t)
  (in_bin : list bool) (worker_index oc oy ox : Z) : M bnn_conv_layer.t unit :=
  let ws := bnn_conv_layer.window_size_ l in
  let output_base :=
    umul sbits (umul sbits oc (bnn_conv_layer.out_height_ l))
      (bnn_conv_layer.out_width_ l) in
  acc <-
    for_ (bnn_conv_layer.in_channels_ l)
      (fun ic acc =>
         let weight_base :=
           uadd sbits
             (umul sbits oc
                (umul sbits (umul sbits ws ws) (bnn_conv_layer.in_channels_ l)))
             (umul sbits (umul sbits ws ws) ic) in
         let input_base :=
           uadd sbits
             (uadd sbits
                (umul sbits ic
                   (umul sbits (bnn_conv_layer.in_width_ l)
                      (bnn_conv_layer.in_height_ l)))
                (umul sbits oy (bnn_conv_layer.in_width_ l)))
             ox in
         for_ ws
           (fun ky acc =>
              for_ ws
                (fun kx acc =>
                   let weight_ind :=
                     uadd size_t_bits
                       (uadd size_t_bits weight_base (umul sbits ky ws)) kx in
                   let input_ind :=
                     uadd size_t_bits
                       (uadd size_t_bits input_base
                          (umul sbits ky (bnn_conv_layer.in_width_ l)))
                       kx in
                   wb <- gets bnn_conv_layer.Wbin_ ;;
                   w <- vread wb weight_ind ;;
                   x <- vread in_bin input_ind ;;
                   bnn_conv_layer.accumulate (bnn_conv_layer.use_popcount_ l) w x acc)
                acc)
           acc)
      0 ;;
  let output_ind :=
    uadd size_t_bits
      (uadd size_t_bits output_base (umul sbits oy (bnn_conv_layer.out_width_ l)))
      ox in
  bnn_conv_layer.in_base
    (out_write worker_index output_ind (float_of_Z prec emax acc)).

(** Linear index of output element [(oc, oy, ox)]. *)
Definition out_index (l : bnn_conv_layer.t) (oc oy ox : Z) : Z :=
  oc * bnn_conv_layer.out_height_ l * bnn_conv_layer.out_width_ l
  + oy * bnn_conv_layer.out_width_ l + ox.

Definition in_out_range (l : bnn_conv_layer.t) (oc oy ox : Z) : Prop :=
  0 <= oc < bnn_conv_layer.out_channels_ l /\
  0 <= oy < bnn_conv_layer.out_height_ l /\
  0 <= ox < bnn_conv_layer.out_width_ l.

(** The output elements of linear index below [N] hold their accumulator. *)
Definition conv_written (prec emax : Z) (l : bnn_conv_layer.t)
  (in_bin : list bool) (b : base) (worker_index N : Z) : Prop :=
  forall obuf, output_ b !! Z.to_nat worker_index = Some obuf ->
    forall oc oy ox, in_out_range l oc oy ox -> out_index l oc oy ox < N ->
      obuf !! Z.to_nat (out_index l oc oy ox)
      = Some (float_of_Z prec emax (spec_conv_acc l in_bin oc oy ox)).

Definition conv_ready (l : bnn_conv_layer.t) (b : base) (worker_index : Z) : Prop :=
  0 <= worker_index /\
  exists obuf, output_ b !! Z.to_nat worker_index = Some obuf /\
               Z.of_nat (length obuf)
               = bnn_conv_layer.out_channels_ l * bnn_conv_layer.out_height_ l
                 * bnn_conv_layer.out_width_ l.

Definition conv_inv (prec emax : Z) (l : bnn_conv_layer.t) (in_bin : list bool)
  (worker_index N : Z) (s : bnn_conv_layer.t) : Prop :=
  bnn_conv_layer.Wbin_ s = bnn_conv_layer.Wbin_ l /\
  same_shape (bnn_conv_layer.base_ l) (bnn_conv_layer.base_ s) /\
  conv_written prec emax l in_bin (bnn_conv_layer.base_ s) worker_index N.

Definition example_conv_base : base :=
  {| in_size_ := 9; out_size_ := 4; W_ := [];
     a_ := [replicate 4 (S754_zero false)];
     output_ := [replicate 4 (S754_zero false)];
     next_ := None; parallelize_ := true |}.

Definition example_conv_constructed : bnn_conv_layer.t :=
  {| bnn_conv_layer.base_ := set_parallelize false example_conv_base;
     bnn_conv_layer.use_popcount_ := false;
     bnn_conv_layer.Wbin_ := replicate 4 false;
     bnn_conv_layer.in_width_ := 3; bnn_conv_layer.in_height_ := 3;
     bnn_conv_layer.window_size_ := 2; bnn_conv_layer.in_channels_ := 1;
     bnn_conv_layer.out_channels_ := 1; bnn_conv_layer.out_width_ := 2;
     bnn_conv_layer.out_height_ := 2 |}.

Definition example_conv : bnn_conv_layer.t :=
  bnn_conv_layer.set_base_ example_conv_base
    (bnn_conv_layer.set_Wbin_ [true; false; true; true] example_conv_constructed).

Definition example_image : vec_t :=
  float_of_Z 24 128 <$> [1; -1; 1; -1; 1; -1; 1; -1; 1].

(** ** Definitions for the further properties *)

(** The store after [float2bipolar(in, out)] when [in] is not longer than
    [out]: the signs of [in], then what [out] held from there on. *)
Definition refreshed (in_ : vec_t) (out : list bool) : list bool :=
  (non_negative <$> in_) ++ drop (length in_) out.

Definition example_fc_short : binarized_fc_layer.t :=
  {| binarized_fc_layer.base_ :=
       with_W [float_of_Z 24 128 3; S754_nan] (example_base 2 2);
     binarized_fc_layer.h_ := fun a i => S754_zero false;
     binarized_fc_layer.Wbin_ := [false; true; true; false] |}.

Definition example_binarynet_short : binarynet_layer.t :=
  binarynet_layer.set_Wbin_ [false; true; true; false]
    (binarynet_layer.binarynet_layer 32
       (with_W [float_of_Z 24 128 3; S754_nan] (example_base 2 2)) None).

Definition example_conv_short : bnn_conv_layer.t :=
  bnn_conv_layer.set_Wbin_ [false; true; true; false]
    (bnn_conv_layer.set_base_
       (with_W [float_of_Z 24 128 3; S754_nan] example_conv_base)
       example_conv_constructed).

Definition example_fc_overlong : binarized_fc_layer.t :=
  {| binarized_fc_layer.base_ :=
       with_W [float_of_Z 24 128 1; float_of_Z 24 128 1] (example_base 1 1);
     binarized_fc_layer.h_ := fun a i => S754_zero false;
     binarized_fc_layer.Wbin_ := [false] |}.

Definition example_conv_overlong : bnn_conv_layer.t :=
  bnn_conv_layer.set_Wbin_ [false]
    (bnn_conv_layer.set_base_
       (with_W [float_of_Z 24 128 1; float_of_Z 24 128 1] example_conv_base)
       example_conv_constructed).

Definition example_input_scaled : vec_t :=
  [float_of_Z 24 128 7; S754_infinity true].

Definition example_image_scaled : vec_t :=
  float_of_Z 24 128 <$> [5; -2; 3; -9; 1; -1; 8; -4; 2].

(** [m] leaves a state related by [R] to the one it starts from, whether
    it returns or throws. *)
Definition preserves {St A} (R : St -> St -> Prop) (m : M St A) : Prop :=
  forall s,
    match m s with
    | Ok _ s' => R s s'
    | Throw _ s' => R s s'
    | Undefined => True
    end.

(** A binarynet layer that differs from another in its scratch vectors
    only. *)
Definition binarynet_scratch_only (l l' : binarynet_layer.t) : Prop :=
  binarynet_layer.Wbin_ l' = binarynet_layer.Wbin_ l /\
  binarynet_layer.Threshold_ l' = binarynet_layer.Threshold_ l /\
  binarynet_layer.Offload_ l' = binarynet_layer.Offload_ l /\
  same_shape (binarynet_layer.base_ l) (binarynet_layer.base_ l').

Definition fc_scratch_only (l l' : binarized_fc_layer.t) : Prop :=
  binarized_fc_layer.Wbin_ l' = binarized_fc_layer.Wbin_ l /\
  binarized_fc_layer.h_ l' = binarized_fc_layer.h_ l /\
  same_shape (binarized_fc_layer.base_ l) (binarized_fc_layer.base_ l').

Definition conv_scratch_only (l l' : bnn_conv_layer.t) : Prop :=
  bnn_conv_layer.set_base_ (bnn_conv_layer.base_ l) l' = l /\
  same_shape (bnn_conv_layer.base_ l) (bnn_conv_layer.base_ l').

(** The [float_t] image of result bits: [+1] for [true], [-1] for [false]. *)
Definition bits_to_floats (prec emax : Z) (res : list bool) : vec_t :=
  (fun r : bool => float_of_Z prec emax (if r then 1 else -1)) <$> res.

(** An offload hook that computes nothing: it reports every second unit
    as firing and clears the thresholds. *)
Definition example_hook : binarynet_layer.BinMatVecMult :=
  fun inb thrs wb res =>
    (inb, (fun _ => 0) <$> thrs, wb, (fun i => Nat.even i) <$> seq 0 (length res)).

Definition example_binarynet_hooked : binarynet_layer.t :=
  binarynet_layer.set_Threshold_ [3; 4]
    (binarynet_layer.binarynet_layer 32 (example_base 2 2) (Some example_hook)).

(** A file that ends inside its second word. *)
Definition example_short_file : list Byte.byte :=
  [Byte.x01; Byte.x00; Byte.x00; Byte.x00; Byte.x00; Byte.x00; Byte.x00; Byte.x00;
   Byte.x01; Byte.x00; Byte.x00].

Definition example_short_fs : string -> option (list Byte.byte) :=
  fun name =>
    if String.eqb name "short.bin" then Some example_short_file else None.

(** The accumulator of column [i] of a fully-connected layer after [n]
    rows, as the kernels compute it: [float_t] additions, in row order and
    from [0], of [+1] where weight bit [c * out_size + i] equals input bit
    [c] and of [miss] elsewhere ([0] in the binarynet layer, [-1] in the
    binarized FC layer). *)
Definition column_acc (prec emax miss : Z) (wb in_bin : list bool)
  (osz i : Z) (n : nat) : float_t :=
  fold_left
    (fun acc c =>
       fadd prec emax acc
         (float_of_Z prec emax
            (if Bool.eqb (bit wb (c * osz + i)) (bit in_bin c) then 1 else miss)))
    (range_from n 0) (float_of_Z prec emax 0).

(** The layer [s] with [x] stored in [a_[index][i]], [abuf] being the
    vector [a_[index]] of [s]. *)
Definition binarynet_with_acc (s : binarynet_layer.t) (index i : Z)
  (abuf : vec_t) (x : float_t) : binarynet_layer.t :=
  binarynet_layer.set_base_
    (set_a_ (fun _ => <[Z.to_nat index := <[Z.to_nat i := x]> abuf]>
                        (a_ (binarynet_layer.base_ s)))
       (binarynet_layer.base_ s)) s.

Definition fc_with_acc (s : binarized_fc_layer.t) (index i : Z)
  (abuf : vec_t) (x : float_t) : binarized_fc_layer.t :=
  binarized_fc_layer.set_base_
    (set_a_ (fun _ => <[Z.to_nat index := <[Z.to_nat i := x]> abuf]>
                        (a_ (binarized_fc_layer.base_ s)))
       (binarized_fc_layer.base_ s)) s.

(** * Properties *)

(** ** The monad and its loops *)

Lemma bind_Ok {St A B} (m : M St A) (k : A -> M St B) s a s' :
  m s = Ok a s' -> bind m k s = k a s'.
Proof. intros H. unfold bind. now rewrite H. Qed.

(** Total-correctness rule for counted loops: an invariant that every
    iteration re-establishes while returning normally holds at exit. *)
Lemma for_from_inv {St A} (P : Z -> A -> St -> Prop) (body : Z -> A -> M St A) :
  forall n i a s,
    P i a s ->
    (forall j a s, i <= j < i + Z.of_nat n -> P j a s ->
                   exists a' s', body j a s = Ok a' s' /\ P (j + 1) a' s') ->
    exists a' s', for_from n i body a s = Ok a' s' /\ P (i + Z.of_nat n) a' s'.
Proof.
  induction n as [|n IH]; intros i a s HP Hstep.
  - exists a, s. split; [reflexivity|]. now replace (i + Z.of_nat 0) with i by lia.
  - destruct (Hstep i a s) as (a1 & s1 & Hb & HP1); [lia|assumption|].
    destruct (IH (i + 1) a1 s1 HP1) as (a2 & s2 & Hl & HP2).
    + intros j a' s' Hj. apply Hstep. lia.
    + exists a2, s2. split.
      * cbn [for_from]. now rewrite (bind_Ok _ _ _ _ _ Hb).
      * now replace (i + Z.of_nat (S n)) with (i + 1 + Z.of_nat n) by lia.
Qed.

Lemma for_inv {St A} (P : Z -> A -> St -> Prop) (body : Z -> A -> M St A)
  hi a s :
  0 <= hi ->
  P 0 a s ->
  (forall j a s, 0 <= j < hi -> P j a s ->
                 exists a' s', body j a s = Ok a' s' /\ P (j + 1) a' s') ->
  exists a' s', for_ hi body a s = Ok a' s' /\ P hi a' s'.
Proof.
  intros Hhi HP Hstep. unfold for_.
  destruct (for_from_inv P body (Z.to_nat hi) 0 a s HP) as (a' & s' & H1 & H2).
  - intros j a0 s0 Hj. apply Hstep. lia.
  - exists a', s'. split; [assumption|]. now replace hi with (0 + Z.of_nat (Z.to_nat hi)) by lia.
Qed.

Lemma for_each_inv {St} (P : Z -> St -> Prop) (body : Z -> M St unit) hi s :
  0 <= hi ->
  P 0 s ->
  (forall j s, 0 <= j < hi -> P j s ->
               exists s', body j s = Ok tt s' /\ P (j + 1) s') ->
  exists s', for_each hi body s = Ok tt s' /\ P hi s'.
Proof.
  intros Hhi HP Hstep. unfold for_each.
  destruct (for_inv (fun j _ s => P j s) (fun i _ => body i) hi tt s Hhi HP)
    as ([] & s' & H1 & H2).
  - intros j [] s0 Hj HPj. destruct (Hstep j s0 Hj HPj) as (s1 & Hb & HP1).
    now exists tt, s1.
  - now exists s'.
Qed.

Lemma vread_Ok {St A} (v : list A) (i : Z) (x : A) (s : St) :
  v !! Z.to_nat i = Some x -> vread v i s = Ok x s.
Proof. intros H. unfold vread. now rewrite H. Qed.

Lemma vwrite_Ok {St A} (v : list A) (i : Z) (x : A) (s : St) :
  (Z.to_nat i < length v)%nat -> vwrite v i x s = Ok (<[Z.to_nat i := x]> v) s.
Proof. intros H. unfold vwrite. now rewrite decide_True. Qed.

Lemma wrap_small bits x : 0 <= x < 2 ^ bits -> wrap bits x = x.
Proof. intros H. unfold wrap. now apply Z.mod_small. Qed.

Lemma length_push_iter {A} (x : A) n :
  length (Nat.iter n (fun v => v ++ [x]) []) = n.
Proof.
  induction n as [|n IH]; [reflexivity|].
  change (Nat.iter (S n) (fun v => v ++ [x]) [])
    with (Nat.iter n (fun v => v ++ [x]) [] ++ [x]).
  rewrite length_app, IH. cbn. lia.
Qed.

Lemma umul_small bits a b : 0 <= a * b < 2 ^ bits -> umul bits a b = a * b.
Proof. apply wrap_small. Qed.

Lemma uadd_small bits a b : 0 <= a + b < 2 ^ bits -> uadd bits a b = a + b.
Proof. apply wrap_small. Qed.

Lemma usub_small bits a b : 0 <= a - b < 2 ^ bits -> usub bits a b = a - b.
Proof. apply wrap_small. Qed.

(** ** Training path *)

(** C9: in each of the three layers, [back_propagation] and
    [back_propagation_2nd] throw at once, whatever the layer state and the
    arguments, and the state at the throw is the state at the call. *)
Theorem back_propagation_throws :
  forall (lf : binarized_fc_layer.t) (lb : binarynet_layer.t)
         (lc : bnn_conv_layer.t) (delta : vec_t) (index : Z),
    binarized_fc_layer.back_propagation delta index lf
      = Throw "Not yet implemented" lf /\
    binarized_fc_layer.back_propagation_2nd delta lf
      = Throw "Not yet implemented" lf /\
    binarynet_layer.back_propagation delta index lb
      = Throw "Not yet implemented" lb /\
    binarynet_layer.back_propagation_2nd delta lb
      = Throw "Not yet implemented" lb /\
    bnn_conv_layer.back_propagation delta index lc
      = Throw "Not implemented" lc /\
    bnn_conv_layer.back_propagation_2nd delta lc
      = Throw "Not implemented" lc.
Proof. intros. repeat split. Qed.

(** ** Topology queries *)

(** C10: with sizes in the range where the unsigned products do not wrap,
    [connection_size()] of a constructed binarized FC layer is
    [in_size * out_size], the length of its weight store; of a binarynet
    layer it is [in_size * out_size + 2 * out_size], which is the length of
    the store plus [2 * out_size]; of a convolution layer it is
    [out_height * out_width * fan_in_size()] while the store has
    [out_channels * in_channels * k * k] bits. *)
Theorem connection_size_vs_store :
  forall (sbits : Z) (b : base) (h : vec_t -> Z -> float_t)
         (lf : binarized_fc_layer.t) (off : option binarynet_layer.BinMatVecMult)
         (be : bool) (fs : string -> option (list Byte.byte))
         (iw ih k ic oc : Z) (pop : bool) (lc : bnn_conv_layer.t),
    0 <= in_size_ b -> 0 <= out_size_ b ->
    in_size_ b * out_size_ b < 2 ^ sbits ->
    2 * out_size_ b < 2 ^ sbits ->
    in_size_ b * out_size_ b + 2 * out_size_ b < 2 ^ 64 ->
    sbits <= 64 ->
    binarized_fc_layer.binarized_fc_layer b h = Some lf ->
    0 < k <= iw -> k <= ih -> 0 <= ic -> 0 <= oc ->
    iw < 2 ^ sbits -> ih < 2 ^ sbits ->
    oc * ic * k * k < 2 ^ sbits ->
    ic * k * k < 2 ^ sbits ->
    (ih - k + 1) * (iw - k + 1) < 2 ^ sbits ->
    (ih - k + 1) * (iw - k + 1) * (ic * k * k) < 2 ^ 64 ->
    bnn_conv_layer.bnn_conv_layer sbits be fs b iw ih k ic oc pop EmptyString
      = Ok tt lc ->
    let lb := binarynet_layer.binarynet_layer sbits b off in
    (binarized_fc_layer.connection_size lf = in_size_ b * out_size_ b /\
     Z.of_nat (length (binarized_fc_layer.Wbin_ lf))
       = binarized_fc_layer.connection_size lf) /\
    (binarynet_layer.connection_size sbits lb
       = in_size_ b * out_size_ b + 2 * out_size_ b /\
     Z.of_nat (length (binarynet_layer.Wbin_ lb)) = in_size_ b * out_size_ b) /\
    (bnn_conv_layer.connection_size sbits lc
       = bnn_conv_layer.out_height_ lc * bnn_conv_layer.out_width_ lc
         * bnn_conv_layer.fan_in_size sbits lc /\
     bnn_conv_layer.out_height_ lc = ih - k + 1 /\
     bnn_conv_layer.out_width_ lc = iw - k + 1 /\
     bnn_conv_layer.fan_in_size sbits lc = ic * k * k /\
     Z.of_nat (length (bnn_conv_layer.Wbin_ lc)) = oc * ic * k * k).
Proof.
  intros sbits b h lf off be fs iw ih k ic oc pop lc
    Hi Ho Hio H2o Hsum Hsb Hfc Hk Hkh Hic Hoc Hiw Hih Hw Hfan Hout Hconn Hc lb.
  assert (Hp : 2 ^ sbits <= 2 ^ 64) by (apply Z.pow_le_mono_r; lia).
  assert (Hio0 : 0 <= in_size_ b * out_size_ b) by nia.
  split; [|split].
  - unfold binarized_fc_layer.binarized_fc_layer in Hfc.
    destruct (_ <? _) eqn:E in Hfc; [|discriminate].
    injection Hfc as <-.
    unfold binarized_fc_layer.connection_size in *. cbn in *.
    rewrite length_push_iter.
    rewrite umul_small by (unfold size_t_bits; lia). split; lia.
  - subst lb. unfold binarynet_layer.connection_size. cbn.
    rewrite length_push_iter.
    rewrite (wrap_small sbits (in_size_ b * out_size_ b)) by lia.
    rewrite (wrap_small sbits (2 * out_size_ b)) by lia.
    rewrite (wrap_small size_t_bits (in_size_ b * out_size_ b))
      by (unfold size_t_bits; lia).
    rewrite wrap_small by (unfold size_t_bits; lia).
    split; lia.
  - cbn in Hc. injection Hc as <-.
    assert (Hkk : 0 < k * k) by nia.
    assert (Hick : 0 <= ic * k) by nia.
    assert (Hickk : 0 <= ic * k * k) by nia.
    assert (Hoci : 0 <= oc * ic) by nia.
    assert (Hocik : 0 <= oc * ic * k) by nia.
    assert (Hocikk : 0 <= oc * ic * k * k) by nia.
    assert (Hfan1 : ic * k < 2 ^ sbits) by nia.
    assert (Hw1 : oc * ic * k < 2 ^ sbits) by nia.
    assert (Hw2 : oc * ic < 2 ^ sbits) by nia.
    unfold bnn_conv_layer.connection_size, bnn_conv_layer.fan_in_size. cbn.
    rewrite (usub_small sbits iw k), (usub_small sbits ih k) by lia.
    rewrite !uadd_small by lia.
    rewrite (umul_small sbits ic k) by lia.
    rewrite (umul_small sbits (ic * k) k) by lia.
    assert (Hoo : 0 <= (ih - k + 1) * (iw - k + 1))
      by (apply Z.mul_nonneg_nonneg; lia).
    rewrite (umul_small sbits (ih - k + 1)) by lia.
    rewrite (umul_small size_t_bits)
      by (unfold size_t_bits; split; [apply Z.mul_nonneg_nonneg|]; lia).
    rewrite (umul_small sbits oc ic) by lia.
    rewrite (umul_small sbits (oc * ic) k) by lia.
    rewrite (umul_small sbits (oc * ic * k) k) by lia.
    rewrite length_replicate. repeat split; lia.
Qed.

Lemma connection_size_vs_store_witness :
  let lb := binarynet_layer.binarynet_layer 32 (example_base 4 2) None in
  binarynet_layer.connection_size 32 lb = 4 * 2 + 2 * 2 /\
  Z.of_nat (length (binarynet_layer.Wbin_ lb)) = 4 * 2.
Proof.
  pose proof (connection_size_vs_store 32 (example_base 4 2)
                (fun a i => S754_zero false)
                {| binarized_fc_layer.base_ := example_base 4 2;
                   binarized_fc_layer.h_ := (fun a i => S754_zero false);
                   binarized_fc_layer.Wbin_ := replicate 8 false |}
                None false no_files 5 5 3 1 1 false
                {| bnn_conv_layer.base_ := set_parallelize false (example_base 4 2);
                   bnn_conv_layer.use_popcount_ := false;
                   bnn_conv_layer.Wbin_ := replicate 9 false;
                   bnn_conv_layer.in_width_ := 5;
                   bnn_conv_layer.in_height_ := 5;
                   bnn_conv_layer.window_size_ := 3;
                   bnn_conv_layer.in_channels_ := 1;
                   bnn_conv_layer.out_channels_ := 1;
                   bnn_conv_layer.out_width_ := 3;
                   bnn_conv_layer.out_height_ := 3 |}) as H.
  cbv zeta in H.
  apply H; cbn; try lia; reflexivity.
Defined.

(** ** Threshold folding *)

(** The flip loop of [set_threshold_from_batchnorm] negates the bits of
    column [index] in rows [0 .. n) and nothing else. *)
Lemma flip_column (sbits : Z) (l : binarynet_layer.t) (index n : Z) :
  let osz := out_size_ (binarynet_layer.base_ l) in
  sbits <= 64 ->
  0 <= index < osz ->
  0 <= n ->
  n * osz <= Z.of_nat (length (binarynet_layer.Wbin_ l)) ->
  n * osz <= 2 ^ sbits ->
  exists l',
    for_each n
      (fun c =>
         osz <- gets (fun l => out_size_ (binarynet_layer.base_ l)) ;;
         let k := wrap size_t_bits (wrap sbits (c * osz) + index) in
         wb <- gets binarynet_layer.Wbin_ ;;
         b <- vread wb k ;;
         wb' <- vwrite wb k (negb b) ;;
         modify (binarynet_layer.set_Wbin_ wb')) l = Ok tt l' /\
    binarynet_layer.base_ l' = binarynet_layer.base_ l /\
    binarynet_layer.Threshold_ l' = binarynet_layer.Threshold_ l /\
    binarynet_layer.Offload_ l' = binarynet_layer.Offload_ l /\
    length (binarynet_layer.Wbin_ l') = length (binarynet_layer.Wbin_ l) /\
    (forall c, 0 <= c < n ->
       binarynet_layer.Wbin_ l' !! Z.to_nat (c * osz + index)
       = negb <$> binarynet_layer.Wbin_ l !! Z.to_nat (c * osz + index)) /\
    (forall j : nat,
       (forall c, 0 <= c < n -> j <> Z.to_nat (c * osz + index)) ->
       binarynet_layer.Wbin_ l' !! j = binarynet_layer.Wbin_ l !! j).
Proof.
  intros osz Hsb Hidx Hn Hlen Hfit.
  assert (Hp : 2 ^ sbits <= 2 ^ 64) by (apply Z.pow_le_mono_r; lia).
  pose (P := fun (c : Z) (s : binarynet_layer.t) =>
    binarynet_layer.base_ s = binarynet_layer.base_ l /\
    binarynet_layer.Threshold_ s = binarynet_layer.Threshold_ l /\
    binarynet_layer.Offload_ s = binarynet_layer.Offload_ l /\
    length (binarynet_layer.Wbin_ s) = length (binarynet_layer.Wbin_ l) /\
    (forall c', 0 <= c' < c ->
       binarynet_layer.Wbin_ s !! Z.to_nat (c' * osz + index)
       = negb <$> binarynet_layer.Wbin_ l !! Z.to_nat (c' * osz + index)) /\
    (forall j : nat,
       (forall c', 0 <= c' < c -> j <> Z.to_nat (c' * osz + index)) ->
       binarynet_layer.Wbin_ s !! j = binarynet_layer.Wbin_ l !! j)).
  apply (for_each_inv P); [assumption| |].
  - repeat split; try reflexivity. intros c' Hc'. lia.
  - intros c s Hc (Hb & Ht & Ho & Hl & Hflip & Hrest).
    assert (Hco : 0 <= c * osz) by nia.
    assert (Hco' : c * osz + osz <= n * osz) by nia.
    set (k := c * osz + index).
    assert (Hk : (Z.to_nat k < length (binarynet_layer.Wbin_ s))%nat)
      by (rewrite Hl; subst k; lia).
    destruct (lookup_lt_is_Some_2 _ _ Hk) as [b Hb0].
    eexists. split.
    + unfold bind, gets, modify. rewrite Hb. fold osz.
      rewrite (wrap_small sbits) by lia.
      rewrite (wrap_small size_t_bits) by (unfold size_t_bits; lia).
      fold k. rewrite (vread_Ok _ _ _ _ Hb0), vwrite_Ok by assumption.
      reflexivity.
    + unfold P. cbn. rewrite length_insert.
      repeat split; try assumption.
      * intros c' Hc'. destruct (decide (c' = c)) as [->|Hne].
        -- fold k. rewrite list_lookup_insert_eq by assumption.
           rewrite <- (Hrest (Z.to_nat k)), Hb0; [reflexivity|].
           intros c' Hc'0. subst k. nia.
        -- rewrite list_lookup_insert_ne by (subst k; nia).
           apply Hflip. lia.
      * intros j Hj. rewrite list_lookup_insert_ne.
        -- apply Hrest. intros c' Hc'. apply Hj. lia.
        -- intros <-. apply (Hj c); [lia|reflexivity].
Qed.

Lemma fold_example (prec emax : Z) :
  is_float_format prec emax ->
  let F := float_of_Z prec emax in
  trunc (fsub prec emax (F 10) (fdiv prec emax (F 4) (fmul prec emax (F (-2)) (F 1))))
    = Some 12 /\
  flt (fmul prec emax (F (-2)) (F 1)) (F 0) = true.
Proof.
  intros [H|H]; injection H as -> ->; split; vm_compute; reflexivity.
Qed.

(** C1 (as amended): with [fan_in_size() = 4], folding [mean = 10],
    [gamma = -2], [invstd = 1], [beta = 4] computes the [int] threshold
    [10 - 4 / (-2) = 12] and, because [gamma * invstd < 0], negates it to
    [-12] and negates every weight bit of column [index], leaving the other
    weight bits alone; the call returns, and it is the final store run
    with [thres = -12] on the layer with the column negated. *)
Theorem threshold_fold_flip_case :
  forall (sbits prec emax : Z) (l : binarynet_layer.t) (index : Z),
    let osz := out_size_ (binarynet_layer.base_ l) in
    let F := float_of_Z prec emax in
    is_float_format prec emax ->
    sbits <= 64 ->
    binarynet_layer.fan_in_size l = 4 ->
    0 <= index < osz ->
    Z.of_nat (length (binarynet_layer.Wbin_ l)) = 4 * osz ->
    4 * osz <= 2 ^ sbits ->
    Z.of_nat (length (binarynet_layer.Threshold_ l)) = osz ->
    trunc (fsub prec emax (F 10)
             (fdiv prec emax (F 4) (fmul prec emax (F (-2)) (F 1)))) = Some 12 /\
    flt (fmul prec emax (F (-2)) (F 1)) (F 0) = true /\
    exists l1 l',
      binarynet_layer.set_threshold_from_batchnorm sbits prec emax
        index (F 10) (F (-2)) (F 1) (F 4) l = store_threshold index (-12) l1 /\
      binarynet_layer.base_ l1 = binarynet_layer.base_ l /\
      binarynet_layer.Threshold_ l1 = binarynet_layer.Threshold_ l /\
      binarynet_layer.set_threshold_from_batchnorm sbits prec emax
        index (F 10) (F (-2)) (F 1) (F 4) l = Ok tt l' /\
      binarynet_layer.Wbin_ l' = binarynet_layer.Wbin_ l1 /\
      (forall c, 0 <= c < 4 ->
         binarynet_layer.Wbin_ l' !! Z.to_nat (c * osz + index)
         = negb <$> binarynet_layer.Wbin_ l !! Z.to_nat (c * osz + index)) /\
      (forall j : nat,
         (forall c, 0 <= c < 4 -> j <> Z.to_nat (c * osz + index)) ->
         binarynet_layer.Wbin_ l' !! j = binarynet_layer.Wbin_ l !! j).
Proof.
  intros sbits prec emax l index osz F Hfmt Hsb Hfan Hidx Hlen Hfit Hthr.
  destruct (fold_example prec emax Hfmt) as [Htr Hneg].
  cbv zeta in Htr, Hneg. subst F.
  refine (conj Htr (conj Hneg _)).
  destruct (flip_column sbits l index 4) as
    (l1 & Hloop & Hb1 & Ht1 & Ho1 & Hl1 & Hflip & Hrest);
    try (fold osz; lia).
  unfold binarynet_layer.fan_in_size in Hfan.
  assert (Hcall :
    binarynet_layer.set_threshold_from_batchnorm sbits prec emax index
      (float_of_Z prec emax 10) (float_of_Z prec emax (-2))
      (float_of_Z prec emax 1) (float_of_Z prec emax 4) l
    = store_threshold index (-12) l1).
  { unfold binarynet_layer.set_threshold_from_batchnorm, store_threshold.
    cbv [bind ret gets modify float_to_int] in Hloop |- *.
    rewrite Htr. cbv beta iota.
    change (in_int 12) with true. cbv beta iota.
    rewrite Hneg.
    change (in_int (Z.opp 12)) with true. cbv beta iota.
    rewrite Hfan, Hloop. reflexivity. }
  exists l1. eexists.
  refine (conj Hcall (conj Hb1 (conj Ht1 (conj _ (conj _ (conj _ _)))))).
  - rewrite Hcall. unfold store_threshold, bind, gets, modify.
    rewrite vwrite_Ok by (rewrite Ht1; lia). reflexivity.
  - reflexivity.
  - intros c Hc. cbn. apply Hflip. assumption.
  - intros j Hj. cbn. apply Hrest. assumption.
Qed.

Lemma threshold_fold_flip_case_witness :
  trunc (fsub 24 128 (float_of_Z 24 128 10)
           (fdiv 24 128 (float_of_Z 24 128 4)
              (fmul 24 128 (float_of_Z 24 128 (-2)) (float_of_Z 24 128 1))))
    = Some 12 /\
  flt (fmul 24 128 (float_of_Z 24 128 (-2)) (float_of_Z 24 128 1))
    (float_of_Z 24 128 0) = true /\
  exists l1 l',
    binarynet_layer.set_threshold_from_batchnorm 32 24 128 1
      (float_of_Z 24 128 10) (float_of_Z 24 128 (-2))
      (float_of_Z 24 128 1) (float_of_Z 24 128 4) example_binarynet
    = store_threshold 1 (-12) l1 /\
    binarynet_layer.base_ l1 = binarynet_layer.base_ example_binarynet /\
    binarynet_layer.Threshold_ l1 = binarynet_layer.Threshold_ example_binarynet /\
    binarynet_layer.set_threshold_from_batchnorm 32 24 128 1
      (float_of_Z 24 128 10) (float_of_Z 24 128 (-2))
      (float_of_Z 24 128 1) (float_of_Z 24 128 4) example_binarynet
    = Ok tt l' /\
    binarynet_layer.Wbin_ l' = binarynet_layer.Wbin_ l1 /\
    (forall c, 0 <= c < 4 ->
       binarynet_layer.Wbin_ l' !! Z.to_nat (c * 2 + 1)
       = negb <$> binarynet_layer.Wbin_ example_binarynet !! Z.to_nat (c * 2 + 1)) /\
    (forall j : nat,
       (forall c, 0 <= c < 4 -> j <> Z.to_nat (c * 2 + 1)) ->
       binarynet_layer.Wbin_ l' !! j
       = binarynet_layer.Wbin_ example_binarynet !! j).
Proof.
  apply (threshold_fold_flip_case 32 24 128 example_binarynet 1).
  - left. reflexivity.
  - lia.
  - reflexivity.
  - cbn. lia.
  - reflexivity.
  - cbn. lia.
  - reflexivity.
Defined.

(** C1 as stated fails: on the example layer the stored threshold is not
    [-2]. *)
Lemma threshold_fold_flip_case_not_minus_two :
  ~ exists l',
      binarynet_layer.set_threshold_from_batchnorm 32 24 128 1
        (float_of_Z 24 128 10) (float_of_Z 24 128 (-2))
        (float_of_Z 24 128 1) (float_of_Z 24 128 4) example_binarynet
      = Ok tt l' /\
      binarynet_layer.Threshold_ l' !! 1%nat = Some (-2).
Proof.
  intros (l' & H & Ht). vm_compute in H. injection H as <-.
  cbn in Ht. discriminate Ht.
Qed.

(** The case without flip of the specification: [gamma = 2] gives the
    threshold [(8 + 4) / 2 = 6] and leaves the weight bits alone. *)
Example threshold_fold_sign_case :
  binarynet_layer.set_threshold_from_batchnorm 32 24 128 1
    (float_of_Z 24 128 10) (float_of_Z 24 128 2)
    (float_of_Z 24 128 1) (float_of_Z 24 128 4) example_binarynet
  = Ok tt (binarynet_layer.set_Threshold_ [0; 6] example_binarynet).
Proof. vm_compute. reflexivity. Qed.

(** ** The bipolar encoder and [post_update] *)

Lemma fge_zero prec emax x : fge x (float_of_Z prec emax 0) = non_negative x.
Proof. destruct x as [s|s| |s m e]; try destruct s; reflexivity. Qed.

Lemma float2bipolar_spec {St} prec emax (in_ : vec_t) (out : list bool) (s : St) :
  (length in_ <= length out)%nat ->
  exists out',
    float2bipolar prec emax in_ out s = Ok out' s /\
    length out' = length out /\
    (forall i x, in_ !! i = Some x -> out' !! i = Some (non_negative x)) /\
    (forall i, (length in_ <= i)%nat -> out' !! i = out !! i).
Proof.
  intros Hlen.
  pose (P := fun (j : Z) (o : list bool) (s' : St) =>
    s' = s /\ length o = length out /\
    (forall i x, (Z.of_nat i < j) -> in_ !! i = Some x ->
                 o !! i = Some (non_negative x)) /\
    (forall i, (j <= Z.of_nat i) -> o !! i = out !! i)).
  destruct (for_inv P
              (fun i out => x <- vread in_ i ;;
                            vwrite out i (fge x (float_of_Z prec emax 0)))
              (Z.of_nat (length in_)) out s) as (o & s' & Hrun & HP).
  - lia.
  - repeat split; try reflexivity. intros i x Hi. lia.
  - intros j o s0 Hj (-> & Hl & Hlo & Hhi).
    assert (Hjn : (Z.to_nat j < length in_)%nat) by lia.
    destruct (lookup_lt_is_Some_2 _ _ Hjn) as [x Hx].
    eexists _, _. split.
    + unfold bind. rewrite (vread_Ok _ _ _ _ Hx).
      rewrite vwrite_Ok by lia. reflexivity.
    + unfold P. rewrite length_insert. repeat split; try assumption.
      * intros i y Hi Hy. destruct (decide (i = Z.to_nat j)) as [->|Hne].
        -- rewrite list_lookup_insert_eq by lia.
           rewrite Hx in Hy. injection Hy as <-. now rewrite fge_zero.
        -- rewrite list_lookup_insert_ne by lia. apply Hlo; [lia|assumption].
      * intros i Hi. rewrite list_lookup_insert_ne by lia. apply Hhi. lia.
  - destruct HP as (-> & Hl & Hlo & Hhi).
    exists o. unfold float2bipolar. repeat split; try assumption.
    + intros i x Hx. apply Hlo; [|assumption].
      apply lookup_lt_Some in Hx. lia.
    + intros i Hi. apply Hhi. lia.
Qed.

(** When the float tensor is as long as the store, the encoder rewrites
    the whole store. *)
Lemma float2bipolar_same_length {St} prec emax (in_ : vec_t) (out : list bool)
  (s : St) :
  length in_ = length out ->
  float2bipolar prec emax in_ out s = Ok (non_negative <$> in_) s.
Proof.
  intros Hlen.
  destruct (float2bipolar_spec prec emax in_ out s) as (o & Hrun & Hl & Hlo & _);
    [lia|].
  rewrite Hrun. f_equal. apply list_eq. intros i.
  rewrite list_lookup_fmap.
  destruct (in_ !! i) as [x|] eqn:E.
  - now apply Hlo.
  - apply lookup_ge_None. apply lookup_ge_None in E. lia.
Qed.

(** C8 (as amended): in each of the three layers, when the float tensor
    [W_] has exactly as many elements as the store, [post_update()]
    returns, leaves every other member alone, keeps the length of the
    store, and sets bit [j] to [true] iff float weight [j] is [>= 0]. *)
Theorem post_update_sign_encodes :
  forall (prec emax : Z) (lf : binarized_fc_layer.t) (lb : binarynet_layer.t)
         (lc : bnn_conv_layer.t),
    length (W_ (binarized_fc_layer.base_ lf))
      = length (binarized_fc_layer.Wbin_ lf) ->
    length (W_ (binarynet_layer.base_ lb))
      = length (binarynet_layer.Wbin_ lb) ->
    length (W_ (bnn_conv_layer.base_ lc))
      = length (bnn_conv_layer.Wbin_ lc) ->
    let enc (w : vec_t) := non_negative <$> w in
    (binarized_fc_layer.post_update prec emax lf
       = Ok tt (binarized_fc_layer.set_Wbin_
                  (enc (W_ (binarized_fc_layer.base_ lf))) lf) /\
     binarynet_layer.post_update prec emax lb
       = Ok tt (binarynet_layer.set_Wbin_
                  (enc (W_ (binarynet_layer.base_ lb))) lb) /\
     bnn_conv_layer.post_update prec emax lc
       = Ok tt (bnn_conv_layer.set_Wbin_
                  (enc (W_ (bnn_conv_layer.base_ lc))) lc)) /\
    (forall w : vec_t,
       length (enc w) = length w /\
       forall (j : nat) (x : float_t),
         w !! j = Some x ->
         exists b, enc w !! j = Some b /\
                   (b = true <-> fge x (float_of_Z prec emax 0) = true)).
Proof.
  intros prec emax lf lb lc Hf Hb Hc enc. split; [repeat split|].
  - unfold binarized_fc_layer.post_update, bind, gets, modify.
    now rewrite float2bipolar_same_length.
  - unfold binarynet_layer.post_update, bind, gets, modify.
    now rewrite float2bipolar_same_length.
  - unfold bnn_conv_layer.post_update, bind, gets, modify.
    now rewrite float2bipolar_same_length.
  - intros w. split; [apply length_fmap|].
    intros j x Hx. exists (non_negative x). split.
    + unfold enc. now rewrite list_lookup_fmap, Hx.
    + now rewrite fge_zero.
Qed.

Lemma post_update_sign_encodes_witness :
  binarynet_layer.post_update 24 128 example_binarynet_synced
  = Ok tt (binarynet_layer.set_Wbin_ [true; false; true; false]
             example_binarynet_synced).
Proof.
  apply (post_update_sign_encodes 24 128 example_fc_synced
           example_binarynet_synced example_conv_synced);
    reflexivity.
Defined.

(** C8 as stated fails: a float tensor with more elements than the store
    satisfies "at least as many", and [post_update] then writes past the
    end of the store. *)
Lemma post_update_longer_tensor :
  (length (binarynet_layer.Wbin_ example_binarynet_overlong)
   <= length (W_ (binarynet_layer.base_ example_binarynet_overlong)))%nat /\
  ~ exists l',
      binarynet_layer.post_update 24 128 example_binarynet_overlong = Ok tt l'.
Proof.
  split; [vm_compute; lia|]. intros (l' & H). vm_compute in H. discriminate H.
Qed.

(** ** Binary weight file *)

Lemma read_word (content : list Byte.byte) (line : nat) (wf : ifstream) :
  bytes wf = drop (8 * line) content ->
  (bad wf = true -> drop (8 * line) content = []) ->
  let '(e, wf') := read wf (replicate 8 Byte.x00) 8 in
  e = stored_word content line /\
  bytes wf' = drop (8 * S line) content /\
  (bad wf' = true -> drop (8 * S line) content = []).
Proof.
  intros Hb Hbad. unfold read.
  replace (drop (8 * S line) content) with (drop 8 (drop (8 * line) content))
    by (rewrite drop_drop; f_equal; lia).
  destruct (bad wf) eqn:E.
  - rewrite (Hbad eq_refl). unfold stored_word. rewrite (Hbad eq_refl).
    repeat split.
    rewrite Hb, (Hbad eq_refl). reflexivity.
  - cbn [bytes bad]. rewrite Hb. unfold stored_word, pad8.
    set (rest := drop (8 * line) content).
    assert (Hd : drop (length (take 8 rest)) (replicate 8 Byte.x00)
                 = replicate (8 - length (take 8 rest)) Byte.x00)
      by apply drop_replicate.
    rewrite Hd. repeat split.
    intros Hshort. apply negb_true_iff, Nat.eqb_neq in Hshort.
    rewrite length_take in Hshort.
    apply drop_ge. lia.
Qed.

Lemma loadFromBinaryFile_returns (big_endian : bool)
  (fs : string -> option (list Byte.byte)) (fileName : string)
  (content : list Byte.byte) (l : bnn_conv_layer.t) :
  fs fileName = Some content ->
  exists wb',
    bnn_conv_layer.loadFromBinaryFile big_endian fs fileName l
    = Ok tt (bnn_conv_layer.set_Wbin_ wb' l) /\
    length wb' = length (bnn_conv_layer.Wbin_ l) /\
    forall line : nat,
      (line < length (bnn_conv_layer.Wbin_ l))%nat ->
      wb' !! line = Some (decode big_endian (stored_word content line) =? 1).
Proof.
  intros Hopen.
  unfold bnn_conv_layer.loadFromBinaryFile. rewrite Hopen.
  pose (P := fun (j : Z) (wf : ifstream) (s : bnn_conv_layer.t) =>
    exists wb,
      s = bnn_conv_layer.set_Wbin_ wb l /\
      length wb = length (bnn_conv_layer.Wbin_ l) /\
      bytes wf = drop (8 * Z.to_nat j) content /\
      (bad wf = true -> drop (8 * Z.to_nat j) content = []) /\
      forall line : nat,
        Z.of_nat line < j ->
        wb !! line = Some (decode big_endian (stored_word content line) =? 1)).
  destruct (for_inv P
    (fun line wf =>
       let e := replicate 8 Byte.x00 in
       let '(e, wf) := read wf e 8 in
       wb <- gets bnn_conv_layer.Wbin_ ;;
       wb' <- vwrite wb line (decode big_endian e =? 1) ;;
       modify (bnn_conv_layer.set_Wbin_ wb') ;;;
       ret wf)
    (Z.of_nat (length (bnn_conv_layer.Wbin_ l)))
    {| bytes := content; bad := false |} l) as (wf & l' & Hrun & HP).
  - lia.
  - exists (bnn_conv_layer.Wbin_ l). destruct l. cbn.
    repeat split; try discriminate. intros line Hl. lia.
  - intros j wf s Hj (wb & -> & Hlen & Hbytes & Hbad & Hdone).
    pose proof (read_word content (Z.to_nat j) wf Hbytes Hbad) as Hr.
    cbv zeta. destruct (read wf (replicate 8 Byte.x00) 8) as [e wf'].
    destruct Hr as (-> & Hbytes' & Hbad').
    eexists _, _. split.
    + unfold bind, gets, modify, ret.
      cbn [bnn_conv_layer.Wbin_ bnn_conv_layer.set_Wbin_].
      rewrite vwrite_Ok by lia. reflexivity.
    + exists (<[Z.to_nat j := decode big_endian (stored_word content (Z.to_nat j)) =? 1]> wb).
      replace (Z.to_nat (j + 1)) with (S (Z.to_nat j)) by lia.
      rewrite length_insert.
      refine (conj eq_refl (conj Hlen (conj Hbytes' (conj Hbad' _)))).
      intros line Hl. destruct (decide (line = Z.to_nat j)) as [->|Hne].
      * rewrite list_lookup_insert_eq by lia. reflexivity.
      * rewrite list_lookup_insert_ne by lia. apply Hdone. lia.
  - destruct HP as (wb & -> & Hlen & _ & _ & Hdone).
    exists wb. split; [|split].
    + erewrite bind_Ok by (unfold gets; reflexivity).
      erewrite bind_Ok by exact Hrun. reflexivity.
    + assumption.
    + intros line Hl. apply Hdone. lia.
Qed.

(** C7: when the file can be opened, [loadFromBinaryFile] returns, keeps
    the length of the store, and sets bit [line] to [true] iff the
    [line]-th 8-byte unsigned integer of the file, in the byte order of the
    host, is exactly 1. *)
Theorem loadFromBinaryFile_decodes :
  forall (big_endian : bool) (fs : string -> option (list Byte.byte))
         (fileName : string) (content : list Byte.byte) (l : bnn_conv_layer.t),
    fs fileName = Some content ->
    exists l',
      bnn_conv_layer.loadFromBinaryFile big_endian fs fileName l = Ok tt l' /\
      length (bnn_conv_layer.Wbin_ l') = length (bnn_conv_layer.Wbin_ l) /\
      forall line : nat,
        (line < length (bnn_conv_layer.Wbin_ l))%nat ->
        exists b,
          bnn_conv_layer.Wbin_ l' !! line = Some b /\
          (b = true <-> decode big_endian (stored_word content line) = 1).
Proof.
  intros be fs fileName content l Hopen.
  destruct (loadFromBinaryFile_returns be fs fileName content l Hopen)
    as (wb' & Hrun & Hlen & Hbits).
  eexists. split; [exact Hrun|]. split; [exact Hlen|].
  intros line Hl. eexists. split; [apply Hbits; exact Hl|].
  apply Z.eqb_eq.
Qed.

Lemma loadFromBinaryFile_decodes_witness :
  exists l',
    bnn_conv_layer.loadFromBinaryFile false example_fs "weights.bin"
      example_conv_synced = Ok tt l' /\
    length (bnn_conv_layer.Wbin_ l') = 4%nat /\
    forall line : nat,
      (line < 4)%nat ->
      exists b,
        bnn_conv_layer.Wbin_ l' !! line = Some b /\
        (b = true <-> decode false (stored_word example_file line) = 1).
Proof.
  apply (loadFromBinaryFile_decodes false example_fs "weights.bin"
           example_file example_conv_synced).
  reflexivity.
Defined.

(** ** The two accumulation modes *)

Lemma matches_cons w x ps :
  matches ((w, x) :: ps) = (if Bool.eqb w x then 1 else 0) + matches ps.
Proof.
  unfold matches. rewrite filter_cons. cbn [fst snd].
  destruct (Bool.eqb w x); [rewrite decide_True by reflexivity
                           |rewrite decide_False by discriminate];
    cbn [length]; lia.
Qed.

Lemma matches_range ps : 0 <= matches ps <= Z.of_nat (length ps).
Proof.
  unfold matches. split; [lia|].
  apply Nat2Z.inj_le. apply length_filter.
Qed.

Lemma in_int_true x : INT_MIN <= x <= INT_MAX -> in_int x = true.
Proof. intros H. unfold in_int. apply andb_true_iff. split; apply Z.leb_le; lia. Qed.

Lemma accumulate_all_signed {St} (ps : list (bool * bool)) :
  forall (acc : Z) (s : St),
    - INT_MAX <= acc - Z.of_nat (length ps) ->
    acc + Z.of_nat (length ps) <= INT_MAX ->
    accumulate_all false ps acc s
    = Ok (acc + (2 * matches ps - Z.of_nat (length ps))) s.
Proof.
  induction ps as [|[w x] ps IH]; intros acc s Hlo Hhi.
  - cbn. unfold ret. f_equal. change (matches []) with 0. lia.
  - cbn [accumulate_all length] in *. rewrite matches_cons.
    pose proof (matches_range ps) as Hm.
    unfold bnn_conv_layer.accumulate, bnn_conv_layer.int_add.
    assert (HI : INT_MIN = - INT_MAX - 1) by reflexivity.
    erewrite bind_Ok.
    2:{ rewrite in_int_true by (destruct (Bool.eqb w x); lia). reflexivity. }
    rewrite IH by (destruct (Bool.eqb w x); lia).
    f_equal. destruct (Bool.eqb w x); lia.
Qed.

Lemma accumulate_all_popcount {St} (ps : list (bool * bool)) :
  forall (acc : Z) (s : St),
    0 <= acc ->
    acc + Z.of_nat (length ps) <= INT_MAX ->
    accumulate_all true ps acc s = Ok (acc + matches ps) s.
Proof.
  induction ps as [|[w x] ps IH]; intros acc s Hlo Hhi.
  - cbn. unfold ret. f_equal. change (matches []) with 0. lia.
  - cbn [accumulate_all length] in *. rewrite matches_cons.
    unfold bnn_conv_layer.accumulate, bnn_conv_layer.int_add.
    assert (HI : INT_MIN = - INT_MAX - 1) by reflexivity.
    assert (HM : 0 < INT_MAX) by reflexivity.
    erewrite bind_Ok.
    2:{ rewrite in_int_true by (destruct (Bool.eqb w x); lia). reflexivity. }
    rewrite IH by (destruct (Bool.eqb w x); lia).
    f_equal. destruct (Bool.eqb w x); lia.
Qed.

(** C3: over [n] weight-bit/input-bit pairs of which [m] are equal ([n]
    within the range of the [int] accumulator), the signed accumulator
    ends at [2 m - n], the popcount accumulator at [m], hence the signed
    one is twice the popcount one minus [n]. *)
Theorem mode_equivalence :
  forall (St : Type) (ps : list (bool * bool)) (s : St),
    let n := Z.of_nat (length ps) in
    let m := matches ps in
    n <= INT_MAX ->
    exists acc_signed acc_popcount,
      accumulate_all false ps 0 s = Ok acc_signed s /\
      accumulate_all true ps 0 s = Ok acc_popcount s /\
      acc_signed = 2 * m - n /\
      acc_popcount = m /\
      acc_signed = 2 * acc_popcount - n.
Proof.
  intros St ps s n m Hn.
  exists (2 * m - n), m. repeat split.
  - rewrite accumulate_all_signed by (fold n; lia). reflexivity.
  - rewrite accumulate_all_popcount by (fold n; lia). reflexivity.
Qed.

Lemma mode_equivalence_witness :
  exists acc_signed acc_popcount,
    accumulate_all false
      [(true, true); (false, true); (false, false); (true, true)] 0 tt
    = Ok acc_signed tt /\
    accumulate_all true
      [(true, true); (false, true); (false, false); (true, true)] 0 tt
    = Ok acc_popcount tt /\
    acc_signed = 2 * 3 - 4 /\
    acc_popcount = 3 /\
    acc_signed = 2 * acc_popcount - 4.
Proof.
  apply (mode_equivalence unit
           [(true, true); (false, true); (false, false); (true, true)] tt).
  vm_compute. discriminate.
Defined.

(** ** Text persistence *)

Lemma digit_char_spec k :
  0 <= k <= 9 ->
  is_digit (digit_char k) = true /\ digit_val (digit_char k) = k.
Proof.
  intros H.
  assert (Hk : k = 0 \/ k = 1 \/ k = 2 \/ k = 3 \/ k = 4 \/ k = 5 \/ k = 6
               \/ k = 7 \/ k = 8 \/ k = 9) by lia.
  repeat (destruct Hk as [->|Hk]; [split; reflexivity|]).
  subst k. split; reflexivity.
Qed.

Lemma is_digit_not_special c :
  is_digit c = true ->
  is_space c = false /\ Ascii.eqb c "-" = false /\ Ascii.eqb c "+" = false.
Proof.
  destruct c as [[] [] [] [] [] [] [] []]; intros H;
    try discriminate H; repeat split.
Qed.

Lemma digits_value_snoc ds c :
  digits_value (ds ++ [c]) = 10 * digits_value ds + digit_val c.
Proof. unfold digits_value. now rewrite fold_left_app. Qed.

Lemma digits_fuel_spec :
  forall (fuel : nat) (n : Z) (acc : list ascii),
    0 <= n < 2 ^ Z.of_nat fuel ->
    fuel <> O ->
    exists ds,
      digits_fuel fuel n acc = ds ++ acc /\
      ds <> [] /\
      Forall (fun c => is_digit c = true) ds /\
      digits_value ds = n.
Proof.
  induction fuel as [|f IH]; intros n acc Hn Hfuel; [contradiction|].
  - cbn [digits_fuel].
    assert (Hd : 0 <= n mod 10 <= 9) by (pose proof (Z.mod_pos_bound n 10); lia).
    destruct (digit_char_spec _ Hd) as [Hisd Hval].
    destruct (n <? 10) eqn:E.
    + apply Z.ltb_lt in E. exists [digit_char (n mod 10)].
      repeat split; [discriminate|now constructor|].
      unfold digits_value. cbn. rewrite Hval. apply Z.mod_small. lia.
    + apply Z.ltb_ge in E.
      destruct (IH (n / 10) (digit_char (n mod 10) :: acc)) as (ds & Hrun & _ & Hall & Hv).
      * rewrite Nat2Z.inj_succ, Z.pow_succ_r in Hn by lia.
        split; [apply Z.div_pos; lia|].
        apply Z.div_lt_upper_bound; lia.
      * intros ->. change (2 ^ Z.of_nat 1) with 2 in Hn. lia.
      * exists (ds ++ [digit_char (n mod 10)]).
        rewrite Hrun, <- app_assoc. repeat split.
        -- intros Hnil. apply app_eq_nil in Hnil. destruct Hnil; discriminate.
        -- apply Forall_app. split; [assumption|now constructor].
        -- rewrite digits_value_snoc, Hv, Hval.
           pose proof (Z.div_mod n 10). lia.
Qed.

Lemma print_unsigned_spec n :
  0 <= n ->
  exists c ds,
    print_unsigned n = c :: ds /\
    Forall (fun c => is_digit c = true) (c :: ds) /\
    digits_value (c :: ds) = n.
Proof.
  intros Hn. unfold print_unsigned.
  destruct (digits_fuel_spec (S (Z.to_nat (Z.log2 n))) n []) as (ds & Hrun & Hne & Hall & Hv).
  - split; [assumption|].
    rewrite Nat2Z.inj_succ, Z2Nat.id by apply Z.log2_nonneg.
    destruct (Z.eq_dec n 0) as [->|Hnz]; [reflexivity|].
    apply Z.log2_spec. lia.
  - discriminate.
  - rewrite app_nil_r in Hrun. destruct ds as [|c ds]; [contradiction|].
    now exists c, ds.
Qed.

Lemma take_digits_app ds c rest :
  Forall (fun c => is_digit c = true) ds ->
  is_digit c = false ->
  take_digits (ds ++ c :: rest) = (ds, c :: rest).
Proof.
  intros Hall Hc. induction Hall as [|d ds Hd Hall IH]; cbn.
  - now rewrite Hc.
  - now rewrite Hd, IH.
Qed.

(** Scanning what [os << n << "\n"] wrote, after any white space. *)
Lemma scan_printed n s rest :
  0 <= n ->
  skip_ws s = print_unsigned n ++ newline :: rest ->
  sentry (good s) = (Some (skip_ws s), good (skip_ws s)) /\
  exists ds, ds <> [] /\ digits_value ds = n /\
             scan_integer (skip_ws s) = (false, ds, newline :: rest).
Proof.
  intros Hn Hs.
  destruct (print_unsigned_spec n Hn) as (c & ds & Hp & Hall & Hv).
  rewrite Hs, Hp. split.
  - unfold sentry. cbn [failbit unread good]. rewrite Hs, Hp. reflexivity.
  - exists (c :: ds). repeat split; [discriminate|assumption|].
    pose proof (Forall_inv Hall) as Hc. cbn beta in Hc.
    destruct (is_digit_not_special c Hc) as (_ & Hm & Hpl).
    cbn [app]. unfold scan_integer. rewrite Hm, Hpl.
    change (c :: ds ++ newline :: rest) with ((c :: ds) ++ newline :: rest).
    rewrite take_digits_app by (assumption || reflexivity). reflexivity.
Qed.

Lemma extract_ulong_printed n s rest :
  0 <= n <= ULONG_MAX ->
  skip_ws s = print_unsigned n ++ newline :: rest ->
  extract_ulong (good s) = (Some n, good (newline :: rest)).
Proof.
  intros Hn Hs.
  destruct (scan_printed n s rest) as (Hsen & ds & Hne & Hv & Hscan);
    [lia|assumption|].
  unfold extract_ulong. rewrite Hsen, Hscan.
  destruct ds as [|d ds]; [contradiction|].
  rewrite Hv. destruct (ULONG_MAX <? n) eqn:E; [apply Z.ltb_lt in E; lia|].
  reflexivity.
Qed.

Lemma extract_bool_printed (w : bool) s rest :
  skip_ws s = print_unsigned (if w then 1 else 0) ++ newline :: rest ->
  extract_bool (good s) = (Some w, good (newline :: rest)).
Proof.
  intros Hs.
  destruct (scan_printed (if w then 1 else 0) s rest) as (Hsen & ds & Hne & Hv & Hscan);
    [destruct w; lia|assumption|].
  unfold extract_bool, extract_long. rewrite Hsen, Hscan.
  destruct ds as [|d ds]; [contradiction|].
  rewrite Hv. destruct w; reflexivity.
Qed.

Lemma fold_left_write {A} (f : A -> list ascii) (xs : list A) (os : ostream) :
  fold_left (fun os x => os ++ f x ++ [newline]) xs os
  = os ++ flat_map (fun x => f x ++ [newline]) xs.
Proof.
  revert os. induction xs as [|x xs IH]; intros os; cbn.
  - now rewrite app_nil_r.
  - rewrite IH. now rewrite <- !app_assoc.
Qed.

Lemma save_text (l : binarynet_layer.t) (os : ostream) :
  binarynet_layer.save l os
  = os ++ bits_text (binarynet_layer.Wbin_ l)
       ++ thrs_text (binarynet_layer.Threshold_ l).
Proof.
  unfold binarynet_layer.save, bits_text, thrs_text.
  rewrite (fold_left_write (fun w : bool => print_unsigned (if w then 1 else 0))).
  rewrite (fold_left_write print_unsigned). now rewrite <- app_assoc.
Qed.

Lemma skip_ws_printed n rest :
  0 <= n -> skip_ws (print_unsigned n ++ rest) = print_unsigned n ++ rest.
Proof.
  intros Hn. destruct (print_unsigned_spec n Hn) as (c & ds & -> & Hall & _).
  pose proof (Forall_inv Hall) as Hc. cbn beta in Hc.
  destruct (is_digit_not_special c Hc) as (Hsp & _).
  cbn. now rewrite Hsp.
Qed.

Lemma istream_good (is_ : istream) : failbit is_ = false -> is_ = good (unread is_).
Proof. destruct is_ as [u f]. cbn. now intros ->. Qed.

Lemma load_thresholds_printed (tail : list ascii) :
  forall (thrs old : list Z) (is_ : istream),
    length old = length thrs ->
    Forall (fun thr => 0 <= thr <= ULONG_MAX) thrs ->
    failbit is_ = false ->
    skip_ws (unread is_) = skip_ws (thrs_text thrs ++ tail) ->
    exists is',
      binarynet_layer.load_thresholds old is_ = (thrs, is') /\
      failbit is' = false /\
      skip_ws (unread is') = skip_ws tail.
Proof.
  induction thrs as [|thr thrs IH]; intros old is_ Hlen Hall Hgood Hs.
  - destruct old; [|discriminate]. exists is_. now repeat split.
  - destruct old as [|o old]; [discriminate|].
    injection Hlen as Hlen. inversion Hall as [|? ? Hthr Hall']; subst.
    cbn [thrs_text flat_map] in Hs. rewrite <- !app_assoc in Hs.
    rewrite skip_ws_printed in Hs by lia.
    cbn [binarynet_layer.load_thresholds].
    rewrite (istream_good is_ Hgood).
    rewrite (extract_ulong_printed thr _ _ Hthr Hs).
    destruct (IH old (good (newline :: flat_map (fun thr => print_unsigned thr ++ [newline]) thrs ++ tail)))
      as (is' & Hrun & Hg & Hrest); try assumption; try reflexivity.
    rewrite Hrun. exists is'. now repeat split.
Qed.

Lemma load_bits_printed (sbits : Z) (ws : list bool) (rest : list ascii)
  (l0 : binarynet_layer.t) :
  length (binarynet_layer.Wbin_ l0) = length ws ->
  forall (is_ : istream),
    failbit is_ = false ->
    skip_ws (unread is_) = skip_ws (bits_text ws ++ rest) ->
    exists w is',
      for_ (Z.of_nat (length ws))
        (fun i '(w, is_) =>
           let '(v, is_) := extract_bool is_ in
           let w := match v with Some x => Some x | None => w end in
           match w with
           | None => undefined
           | Some x =>
               wb <- gets binarynet_layer.Wbin_ ;;
               wb' <- vwrite wb i x ;;
               modify (binarynet_layer.set_Wbin_ wb') ;;;
               ret (w, is_)
           end)
        (None, is_) l0
      = Ok (w, is') (binarynet_layer.set_Wbin_ ws l0) /\
      failbit is' = false /\
      skip_ws (unread is') = skip_ws rest.
Proof.
  intros Hlen is_ Hgood Hs.
  pose (P := fun (j : Z) (st : option bool * istream) (s : binarynet_layer.t) =>
    s = binarynet_layer.set_Wbin_
          (take (Z.to_nat j) ws ++ drop (Z.to_nat j) (binarynet_layer.Wbin_ l0)) l0 /\
    failbit (snd st) = false /\
    skip_ws (unread (snd st))
    = skip_ws (bits_text (drop (Z.to_nat j) ws) ++ rest)).
  match goal with
  | |- exists w is', for_ ?n ?body ?init ?s = _ /\ _ =>
      destruct (for_inv P body n init s) as ([w is'] & s' & Hrun & HP)
  end.
  - lia.
  - unfold P. cbn. rewrite drop_0. destruct l0. now repeat split.
  - intros j [w isj] s Hj (-> & Hg & Hsk). cbn [snd] in Hg, Hsk.
    assert (Hjn : (Z.to_nat j < length ws)%nat) by lia.
    destruct (lookup_lt_is_Some_2 _ _ Hjn) as [x Hx].
    rewrite (drop_S _ _ _ Hx) in Hsk.
    cbn [bits_text flat_map] in Hsk. rewrite <- !app_assoc in Hsk.
    rewrite skip_ws_printed in Hsk by (destruct x; lia).
    rewrite (istream_good isj Hg).
    rewrite (extract_bool_printed x _ _ Hsk).
    eexists (_, _), _. split.
    + unfold bind, gets, modify, ret. cbn [binarynet_layer.Wbin_ binarynet_layer.set_Wbin_].
      rewrite vwrite_Ok; [reflexivity|].
      rewrite length_app, length_take, length_drop. lia.
    + unfold P. cbn [snd failbit unread good].
      replace (Z.to_nat (j + 1)) with (S (Z.to_nat j)) by lia.
      repeat split.
      * change (binarynet_layer.set_Wbin_ ?a (binarynet_layer.set_Wbin_ ?b l0))
          with (binarynet_layer.set_Wbin_ a l0).
        f_equal.
        rewrite insert_app_r_alt by (rewrite length_take; lia).
        rewrite length_take. replace (Z.to_nat j - Z.to_nat j `min` length ws)%nat with O by lia.
        rewrite (take_S_r _ _ _ Hx), <- app_assoc. f_equal.
        assert (Hd : (Z.to_nat j < length (binarynet_layer.Wbin_ l0))%nat) by lia.
        destruct (lookup_lt_is_Some_2 _ _ Hd) as [y Hy].
        rewrite (drop_S _ _ _ Hy). reflexivity.
  - destruct HP as (-> & Hg & Hsk). cbn [snd] in Hg, Hsk.
    rewrite Nat2Z.id in Hsk. rewrite drop_all in Hsk.
    exists w, is'. split; [|now split].
    rewrite Hrun. f_equal. f_equal.
    rewrite Nat2Z.id, firstn_all, drop_ge by lia. apply app_nil_r.
Qed.

Lemma load_saved (sbits : Z) (l l0 : binarynet_layer.t) (tail : list ascii) :
  wrap sbits (in_size_ (binarynet_layer.base_ l0) * out_size_ (binarynet_layer.base_ l0))
    = Z.of_nat (length (binarynet_layer.Wbin_ l)) ->
  length (binarynet_layer.Wbin_ l0) = length (binarynet_layer.Wbin_ l) ->
  length (binarynet_layer.Threshold_ l0) = length (binarynet_layer.Threshold_ l) ->
  Forall (fun thr => 0 <= thr <= ULONG_MAX) (binarynet_layer.Threshold_ l) ->
  exists is',
    binarynet_layer.load sbits (good (binarynet_layer.save l [] ++ tail)) l0
    = Ok is' (binarynet_layer.set_Threshold_ (binarynet_layer.Threshold_ l)
                (binarynet_layer.set_Wbin_ (binarynet_layer.Wbin_ l) l0)) /\
    failbit is' = false /\
    skip_ws (unread is') = skip_ws tail.
Proof.
  intros Hn Hwb Hthr Hall.
  rewrite save_text. cbn [app]. rewrite <- app_assoc.
  destruct (load_bits_printed sbits (binarynet_layer.Wbin_ l)
              (thrs_text (binarynet_layer.Threshold_ l) ++ tail) l0 Hwb
              (good (bits_text (binarynet_layer.Wbin_ l)
                     ++ thrs_text (binarynet_layer.Threshold_ l) ++ tail)))
    as (w & is1 & Hrun1 & Hg1 & Hs1); [reflexivity|reflexivity|].
  destruct (load_thresholds_printed tail (binarynet_layer.Threshold_ l)
              (binarynet_layer.Threshold_ l0) is1 Hthr Hall Hg1 Hs1)
    as (is2 & Hrun2 & Hg2 & Hs2).
  exists is2. split; [|now split].
  unfold binarynet_layer.load.
  erewrite bind_Ok by (unfold gets; reflexivity).
  rewrite Hn.
  erewrite bind_Ok by exact Hrun1.
  erewrite bind_Ok by (unfold gets; reflexivity).
  cbn [snd binarynet_layer.Threshold_ binarynet_layer.set_Wbin_].
  rewrite Hrun2. reflexivity.
Qed.

(** C5: for any weight bits and thresholds of a binarynet layer, [load]
    run on what [save] wrote, in a freshly constructed layer with the same
    [in_size] and [out_size], returns with exactly the saved weight bits and
    thresholds. *)
Theorem save_load_round_trip :
  forall (sbits : Z) (l : binarynet_layer.t) (b' : base)
         (off' : option binarynet_layer.BinMatVecMult),
    in_size_ b' = in_size_ (binarynet_layer.base_ l) ->
    out_size_ b' = out_size_ (binarynet_layer.base_ l) ->
    Z.of_nat (length (binarynet_layer.Wbin_ l))
      = wrap sbits (in_size_ (binarynet_layer.base_ l)
                    * out_size_ (binarynet_layer.base_ l)) ->
    Z.of_nat (length (binarynet_layer.Threshold_ l))
      = out_size_ (binarynet_layer.base_ l) ->
    Forall (fun thr => 0 <= thr <= ULONG_MAX) (binarynet_layer.Threshold_ l) ->
    exists is' l',
      binarynet_layer.load sbits (good (binarynet_layer.save l []))
        (binarynet_layer.binarynet_layer sbits b' off')
      = Ok is' l' /\
      binarynet_layer.Wbin_ l' = binarynet_layer.Wbin_ l /\
      binarynet_layer.Threshold_ l' = binarynet_layer.Threshold_ l.
Proof.
  intros sbits l b' off' Hin Hout Hwb Hthr Hall.
  destruct (load_saved sbits l (binarynet_layer.binarynet_layer sbits b' off') [])
    as (is' & Hrun & _); cbn [binarynet_layer.binarynet_layer
                               binarynet_layer.base_ binarynet_layer.Wbin_
                               binarynet_layer.Threshold_].
  - rewrite Hin, Hout. now rewrite Hwb.
  - rewrite length_push_iter, Hin, Hout, <- Hwb. apply Nat2Z.id.
  - rewrite length_push_iter, Hout, <- Hthr. apply Nat2Z.id.
  - assumption.
  - rewrite app_nil_r in Hrun. eexists _, _. split; [exact Hrun|]. split; reflexivity.
Qed.

Lemma save_load_round_trip_witness :
  exists is' l',
    binarynet_layer.load 32 (good (binarynet_layer.save example_binarynet []))
      (binarynet_layer.binarynet_layer 32 (example_base 4 2) None)
    = Ok is' l' /\
    binarynet_layer.Wbin_ l' = binarynet_layer.Wbin_ example_binarynet /\
    binarynet_layer.Threshold_ l' = binarynet_layer.Threshold_ example_binarynet.
Proof.
  apply (save_load_round_trip 32 example_binarynet (example_base 4 2) None);
    try reflexivity.
  repeat constructor; vm_compute; discriminate.
Defined.

Lemma load_thresholds_length (thrs : list Z) :
  forall is_ : istream,
    length (fst (binarynet_layer.load_thresholds thrs is_)) = length thrs.
Proof.
  induction thrs as [|thr thrs IH]; intros is_; [reflexivity|].
  cbn [binarynet_layer.load_thresholds].
  destruct (extract_ulong is_) as [v is1].
  specialize (IH is1).
  destruct (binarynet_layer.load_thresholds thrs is1) as [rest is2].
  cbn in *. now rewrite IH.
Qed.

(** [load] checks nothing: once the first extraction has produced a value
    it runs to the end, whatever the stream holds. *)
Lemma load_returns (sbits : Z) (is_ : istream) (l : binarynet_layer.t) :
  Z.of_nat (length (binarynet_layer.Wbin_ l))
    = wrap sbits (in_size_ (binarynet_layer.base_ l)
                  * out_size_ (binarynet_layer.base_ l)) ->
  fst (extract_bool is_) <> None ->
  exists is' l',
    binarynet_layer.load sbits is_ l = Ok is' l' /\
    length (binarynet_layer.Wbin_ l') = length (binarynet_layer.Wbin_ l) /\
    length (binarynet_layer.Threshold_ l') = length (binarynet_layer.Threshold_ l) /\
    binarynet_layer.base_ l' = binarynet_layer.base_ l.
Proof.
  intros Hwb Hfirst.
  pose (P := fun (j : Z) (st : option bool * istream) (s : binarynet_layer.t) =>
    (if j =? 0 then st = (None, is_) else fst st <> None) /\
    length (binarynet_layer.Wbin_ s) = length (binarynet_layer.Wbin_ l) /\
    binarynet_layer.Threshold_ s = binarynet_layer.Threshold_ l /\
    binarynet_layer.base_ s = binarynet_layer.base_ l).
  unfold binarynet_layer.load.
  erewrite bind_Ok by (unfold gets; reflexivity).
  rewrite <- Hwb.
  match goal with
  | |- exists is' l', bind (for_ ?n ?body ?init) _ ?s = _ /\ _ =>
      destruct (for_inv P body n init s) as ([w is1] & s1 & Hrun & HP)
  end.
  - lia.
  - now repeat split.
  - intros j [w isj] s Hj (Hw & Hlen & Ht & Hb).
    destruct (extract_bool isj) as [v isj'] eqn:Ex.
    assert (Hsome : exists x, match v with Some x => Some x | None => w end = Some x).
    { destruct (j =? 0) eqn:E.
      - injection Hw as -> ->. rewrite Ex in Hfirst. cbn in Hfirst.
        destruct v as [x|]; [now exists x|contradiction].
      - cbn in Hw. destruct v as [x|]; [now exists x|].
        destruct w as [x|]; [now exists x|contradiction]. }
    destruct Hsome as [x Hx]. rewrite Hx.
    eexists (_, _), _. split.
    + unfold bind, gets, modify, ret. rewrite vwrite_Ok by lia. reflexivity.
    + unfold P. cbn. rewrite length_insert.
      destruct (j + 1 =? 0) eqn:E; [apply Z.eqb_eq in E; lia|].
      now repeat split.
  - destruct HP as (_ & Hlen & Ht & Hb).
    erewrite bind_Ok by exact Hrun.
    erewrite bind_Ok by (unfold gets; reflexivity).
    pose proof (load_thresholds_length (binarynet_layer.Threshold_ s1) (snd (w, is1))) as Hl.
    destruct (binarynet_layer.load_thresholds (binarynet_layer.Threshold_ s1) (snd (w, is1)))
      as [thrs' is2].
    eexists _, _. split; [reflexivity|]. cbn in *.
    rewrite Hl, Ht. now repeat split.
Qed.

(** C6 (as amended): [load] reads [in_size * out_size] weight-bit tokens
    and then [out_size] threshold tokens, in that order: on a stream that
    starts with these tokens it stores them and leaves what follows unread
    without objecting to it; and it validates nothing: on any stream whose
    first extraction produces a value it returns normally, the weight store
    overwritten along the way. *)
Theorem load_reads_without_validating :
  forall (sbits : Z) (l l0 : binarynet_layer.t) (tail : list ascii)
         (is_ : istream) (lx : binarynet_layer.t),
    wrap sbits (in_size_ (binarynet_layer.base_ l0)
                * out_size_ (binarynet_layer.base_ l0))
      = Z.of_nat (length (binarynet_layer.Wbin_ l)) ->
    length (binarynet_layer.Wbin_ l0) = length (binarynet_layer.Wbin_ l) ->
    length (binarynet_layer.Threshold_ l0) = length (binarynet_layer.Threshold_ l) ->
    Forall (fun thr => 0 <= thr <= ULONG_MAX) (binarynet_layer.Threshold_ l) ->
    Z.of_nat (length (binarynet_layer.Wbin_ lx))
      = wrap sbits (in_size_ (binarynet_layer.base_ lx)
                    * out_size_ (binarynet_layer.base_ lx)) ->
    fst (extract_bool is_) <> None ->
    (exists is',
       binarynet_layer.load sbits (good (binarynet_layer.save l [] ++ tail)) l0
       = Ok is' (binarynet_layer.set_Threshold_ (binarynet_layer.Threshold_ l)
                   (binarynet_layer.set_Wbin_ (binarynet_layer.Wbin_ l) l0)) /\
       failbit is' = false /\
       skip_ws (unread is') = skip_ws tail) /\
    (exists is' lx',
       binarynet_layer.load sbits is_ lx = Ok is' lx' /\
       length (binarynet_layer.Wbin_ lx') = length (binarynet_layer.Wbin_ lx) /\
       length (binarynet_layer.Threshold_ lx')
         = length (binarynet_layer.Threshold_ lx) /\
       binarynet_layer.base_ lx' = binarynet_layer.base_ lx).
Proof.
  intros sbits l l0 tail is_ lx Hn Hwb Hthr Hall Hx Hfirst. split.
  - now apply load_saved.
  - now apply load_returns.
Qed.

Lemma load_reads_without_validating_witness :
  exists is' lx',
    binarynet_layer.load 32 long_stream example_binarynet_1x2 = Ok is' lx' /\
    length (binarynet_layer.Wbin_ lx') = 2%nat /\
    length (binarynet_layer.Threshold_ lx') = 2%nat /\
    binarynet_layer.base_ lx' = example_base 1 2.
Proof.
  apply (load_reads_without_validating 32 example_binarynet
           (binarynet_layer.binarynet_layer 32 (example_base 4 2) None)
           [] long_stream example_binarynet_1x2);
    try reflexivity.
  - repeat constructor; vm_compute; discriminate.
  - vm_compute. discriminate.
Defined.

(** C6 as stated fails: on a stream that holds one token where four are
    expected, [load] does not throw; it returns with the fail bit of the
    stream set and both weight bits overwritten. *)
Lemma load_short_stream_mutates :
  (forall msg s,
     binarynet_layer.load 32 short_stream example_binarynet_1x2 <> Throw msg s) /\
  exists is' l',
    binarynet_layer.load 32 short_stream example_binarynet_1x2 = Ok is' l' /\
    failbit is' = true /\
    binarynet_layer.Wbin_ example_binarynet_1x2 = [true; true] /\
    binarynet_layer.Wbin_ l' = [false; false].
Proof.
  split.
  - intros msg s H. vm_compute in H. discriminate H.
  - eexists _, _. split; [vm_compute; reflexivity|]. repeat split.
Qed.

(** ** Forward propagation of the fully-connected layers *)

Lemma for_each_preserve {St} (P : St -> Prop) (body : Z -> M St unit) hi s :
  0 <= hi ->
  P s ->
  (forall j s, 0 <= j < hi -> P s -> exists s', body j s = Ok tt s' /\ P s') ->
  exists s', for_each hi body s = Ok tt s' /\ P s'.
Proof.
  intros Hhi HP Hstep. apply (for_each_inv (fun _ => P)); assumption.
Qed.

Lemma a_read_Ok (b : base) (index i : Z) (abuf : list spec_float) (x : spec_float) :
  a_ b !! Z.to_nat index = Some abuf ->
  abuf !! Z.to_nat i = Some x ->
  a_read index i b = Ok x b.
Proof.
  intros Ha Hx. unfold a_read, bind, gets.
  now rewrite (vread_Ok _ _ _ _ Ha), (vread_Ok _ _ _ _ Hx).
Qed.

Lemma a_write_Ok (b : base) (index i : Z) (abuf : list spec_float) (x : spec_float) :
  a_ b !! Z.to_nat index = Some abuf ->
  (Z.to_nat i < length abuf)%nat ->
  a_write index i x b
  = Ok tt (set_a_ (fun _ => <[Z.to_nat index := <[Z.to_nat i := x]> abuf]> (a_ b)) b).
Proof.
  intros Ha Hi. unfold a_write, bind, gets, modify.
  rewrite (vread_Ok _ _ _ _ Ha), vwrite_Ok by assumption.
  rewrite vwrite_Ok by (now apply lookup_lt_Some in Ha).
  reflexivity.
Qed.

Lemma out_write_Ok (b : base) (index i : Z) (obuf : list spec_float) (x : spec_float) :
  output_ b !! Z.to_nat index = Some obuf ->
  (Z.to_nat i < length obuf)%nat ->
  out_write index i x b
  = Ok tt (set_output_ (fun _ => <[Z.to_nat index := <[Z.to_nat i := x]> obuf]> (output_ b)) b).
Proof.
  intros Ho Hi. unfold out_write, bind, gets, modify.
  rewrite (vread_Ok _ _ _ _ Ho), vwrite_Ok by assumption.
  rewrite vwrite_Ok by (now apply lookup_lt_Some in Ho).
  reflexivity.
Qed.

Lemma lift_Ok {S T A} (get : T -> S) (set : S -> T -> T) (m : M S A) t a s :
  m (get t) = Ok a s -> lift get set m t = Ok a (set s t).
Proof. intros H. unfold lift. now rewrite H. Qed.

Lemma same_shape_refl b : same_shape b b.
Proof. now repeat split. Qed.

Lemma same_shape_ready b b' index :
  same_shape b b' -> scratch_ready b index -> scratch_ready b' index.
Proof.
  intros (Hi & Ho & _ & _ & Ha & Hout) (H1 & H2 & H3 & (abuf & Hab & Hal) & (obuf & Hob & Hol)).
  unfold scratch_ready. rewrite Hi, Ho. repeat split; try assumption.
  - assert (Hl : (length <$> a_ b') !! Z.to_nat index = Some (length abuf))
      by (rewrite Ha, list_lookup_fmap, Hab; reflexivity).
    rewrite list_lookup_fmap in Hl.
    destruct (a_ b' !! Z.to_nat index) as [abuf'|]; [|discriminate].
    injection Hl as Hl. exists abuf'. split; [reflexivity|lia].
  - assert (Hl : (length <$> output_ b') !! Z.to_nat index = Some (length obuf))
      by (rewrite Hout, list_lookup_fmap, Hob; reflexivity).
    rewrite list_lookup_fmap in Hl.
    destruct (output_ b' !! Z.to_nat index) as [obuf'|]; [|discriminate].
    injection Hl as Hl. exists obuf'. split; [reflexivity|lia].
Qed.

Lemma fmap_length_insert (l : list (list spec_float)) (k : nat) (v v' : list spec_float) :
  l !! k = Some v -> length v' = length v ->
  length <$> <[k := v']> l = length <$> l.
Proof.
  intros Hk Hl. rewrite list_fmap_insert, Hl.
  apply list_insert_id. now rewrite list_lookup_fmap, Hk.
Qed.

Lemma same_shape_a_write b b' index i x abuf :
  same_shape b b' ->
  a_ b' !! Z.to_nat index = Some abuf ->
  same_shape b
    (set_a_ (fun _ => <[Z.to_nat index := <[Z.to_nat i := x]> abuf]> (a_ b')) b').
Proof.
  intros (Hi & Ho & Hw & Hn & Ha & Hout) Hab. unfold same_shape. cbn.
  repeat split; try assumption.
  rewrite <- Ha. apply (fmap_length_insert _ _ abuf); [assumption|].
  apply length_insert.
Qed.

Lemma same_shape_out_write b b' index i x obuf :
  same_shape b b' ->
  output_ b' !! Z.to_nat index = Some obuf ->
  same_shape b
    (set_output_ (fun _ => <[Z.to_nat index := <[Z.to_nat i := x]> obuf]> (output_ b')) b').
Proof.
  intros (Hi & Ho & Hw & Hn & Ha & Hout) Hob. unfold same_shape. cbn.
  repeat split; try assumption.
  rewrite <- Hout. apply (fmap_length_insert _ _ obuf); [assumption|].
  apply length_insert.
Qed.

Lemma binarynet_row (sbits prec emax : Z) (l s : binarynet_layer.t)
  (in_bin : list bool) (index i : Z) :
  let isz := in_size_ (binarynet_layer.base_ l) in
  let osz := out_size_ (binarynet_layer.base_ l) in
  sbits <= 64 ->
  isz * osz <= 2 ^ sbits ->
  Z.of_nat (length (binarynet_layer.Wbin_ l)) = isz * osz ->
  Z.of_nat (length in_bin) = isz ->
  scratch_ready (binarynet_layer.base_ l) index ->
  0 <= i < osz ->
  binarynet_layer.Wbin_ s = binarynet_layer.Wbin_ l ->
  same_shape (binarynet_layer.base_ l) (binarynet_layer.base_ s) ->
  exists s',
    for_each isz
      (fun c =>
         wb <- gets binarynet_layer.Wbin_ ;;
         w <- vread wb (wrap size_t_bits (wrap sbits (wrap sbits (c * osz) + i))) ;;
         x <- vread in_bin c ;;
         ai <- binarynet_layer.in_base (a_read index i) ;;
         binarynet_layer.in_base
           (a_write index i
              (fadd prec emax ai
                 (float_of_Z prec emax (if Bool.eqb w x then 1 else 0))))) s
    = Ok tt s' /\
    binarynet_layer.Wbin_ s' = binarynet_layer.Wbin_ l /\
    binarynet_layer.Threshold_ s' = binarynet_layer.Threshold_ s /\
    binarynet_layer.Offload_ s' = binarynet_layer.Offload_ s /\
    same_shape (binarynet_layer.base_ l) (binarynet_layer.base_ s') /\
    output_ (binarynet_layer.base_ s') = output_ (binarynet_layer.base_ s).
Proof.
  intros isz osz Hsb Hfit Hwb Hin Hready Hi Hw Hshape.
  assert (Hp : 2 ^ sbits <= 2 ^ 64) by (apply Z.pow_le_mono_r; lia).
  apply (for_each_preserve (fun s' =>
    binarynet_layer.Wbin_ s' = binarynet_layer.Wbin_ l /\
    binarynet_layer.Threshold_ s' = binarynet_layer.Threshold_ s /\
    binarynet_layer.Offload_ s' = binarynet_layer.Offload_ s /\
    same_shape (binarynet_layer.base_ l) (binarynet_layer.base_ s') /\
    output_ (binarynet_layer.base_ s') = output_ (binarynet_layer.base_ s))).
  - destruct Hready; assumption.
  - exact (conj Hw (conj eq_refl (conj eq_refl (conj Hshape eq_refl)))).
  - intros c s1 Hc (Hw1 & Ht1 & Ho1 & Hs1 & Hout1).
    destruct (same_shape_ready _ _ index Hs1 Hready)
      as (_ & _ & _ & (abuf & Hab & Hal) & _).
    destruct Hs1 as (Hsi & Hso & Hrest).
    rewrite Hso in Hal. fold osz in Hal.
    assert (Hco : 0 <= c * osz) by nia.
    assert (Hco' : c * osz + osz <= isz * osz) by nia.
    assert (Hk : (Z.to_nat (c * osz + i) < length (binarynet_layer.Wbin_ s1))%nat)
      by (rewrite Hw1; lia).
    destruct (lookup_lt_is_Some_2 _ _ Hk) as [w Hwk].
    assert (Hcn : (Z.to_nat c < length in_bin)%nat) by lia.
    destruct (lookup_lt_is_Some_2 _ _ Hcn) as [x Hx].
    assert (Hin' : (Z.to_nat i < length abuf)%nat) by lia.
    destruct (lookup_lt_is_Some_2 _ _ Hin') as [ai Hai].
    eexists. split.
    + erewrite bind_Ok by (unfold gets; reflexivity).
      rewrite (wrap_small sbits (c * osz)) by lia.
      rewrite (wrap_small sbits) by lia.
      rewrite (wrap_small size_t_bits) by (unfold size_t_bits; lia).
      erewrite bind_Ok by (apply vread_Ok; exact Hwk).
      erewrite bind_Ok by (apply vread_Ok; exact Hx).
      erewrite bind_Ok
        by (apply lift_Ok; apply (a_read_Ok _ _ _ _ _ Hab Hai)).
      apply lift_Ok. apply (a_write_Ok _ _ _ _ _ Hab Hin').
    + cbn [binarynet_layer.Wbin_ binarynet_layer.Threshold_
             binarynet_layer.Offload_ binarynet_layer.base_
             binarynet_layer.set_base_ output_ set_a_].
      refine (conj Hw1 (conj Ht1 (conj Ho1 (conj _ Hout1)))).
      apply same_shape_a_write; [exact (conj Hsi (conj Hso Hrest))|assumption].
Qed.

Lemma pm1_insert prec emax (obuf : list spec_float) (i : Z) (x : spec_float) :
  0 <= i ->
  (Z.to_nat i < length obuf)%nat ->
  plus_or_minus_one prec emax x ->
  (forall j, 0 <= j < i ->
     exists y, obuf !! Z.to_nat j = Some y /\ plus_or_minus_one prec emax y) ->
  forall j, 0 <= j < i + 1 ->
    exists y, <[Z.to_nat i := x]> obuf !! Z.to_nat j = Some y /\
              plus_or_minus_one prec emax y.
Proof.
  intros Hi Hlen Hx Hold j Hj.
  destruct (decide (j = i)) as [->|Hne].
  - exists x. split; [now apply list_lookup_insert_eq|assumption].
  - rewrite list_lookup_insert_ne by lia. apply Hold. lia.
Qed.

Lemma pm1_of_bool prec emax (b : bool) :
  plus_or_minus_one prec emax (float_of_Z prec emax (if b then 1 else -1)).
Proof. destruct b; [now left|now right]. Qed.

Lemma written_out_write prec emax (b : base) (index i : Z) obuf x :
  0 <= i ->
  output_ b !! Z.to_nat index = Some obuf ->
  (Z.to_nat i < length obuf)%nat ->
  plus_or_minus_one prec emax x ->
  written prec emax b index i ->
  written prec emax
    (set_output_ (fun _ => <[Z.to_nat index := <[Z.to_nat i := x]> obuf]> (output_ b)) b)
    index (i + 1).
Proof.
  intros Hi Hob Hlen Hx Hw obuf' Hob'. cbn in Hob'.
  rewrite list_lookup_insert_eq in Hob' by (now apply lookup_lt_Some in Hob).
  injection Hob' as <-.
  apply pm1_insert; try assumption. now apply Hw.
Qed.

Lemma written_all prec emax (b : base) (index : Z) obuf :
  output_ b !! Z.to_nat index = Some obuf ->
  written prec emax b index (Z.of_nat (length obuf)) ->
  Forall (plus_or_minus_one prec emax) obuf.
Proof.
  intros Hob Hw. apply Forall_lookup. intros j x Hx.
  destruct (Hw obuf Hob (Z.of_nat j)) as (y & Hy & Hpm).
  - apply lookup_lt_Some in Hx. lia.
  - rewrite Nat2Z.id in Hy. rewrite Hx in Hy. now injection Hy as ->.
Qed.

Lemma binarynet_kernel (sbits prec emax : Z) (l : binarynet_layer.t)
  (in_bin : list bool) (index : Z) :
  let isz := in_size_ (binarynet_layer.base_ l) in
  let osz := out_size_ (binarynet_layer.base_ l) in
  sbits <= 64 ->
  isz * osz <= 2 ^ sbits ->
  Z.of_nat (length (binarynet_layer.Wbin_ l)) = isz * osz ->
  Z.of_nat (length (binarynet_layer.Threshold_ l)) = osz ->
  Z.of_nat (length in_bin) = isz ->
  scratch_ready (binarynet_layer.base_ l) index ->
  exists s',
    for_each osz
      (fun i =>
         binarynet_layer.in_base (a_write index i (float_of_Z prec emax 0)) ;;;
         for_each isz
           (fun c =>
              wb <- gets binarynet_layer.Wbin_ ;;
              w <- vread wb (wrap size_t_bits (wrap sbits (wrap sbits (c * osz) + i))) ;;
              x <- vread in_bin c ;;
              ai <- binarynet_layer.in_base (a_read index i) ;;
              binarynet_layer.in_base
                (a_write index i
                   (fadd prec emax ai
                      (float_of_Z prec emax (if Bool.eqb w x then 1 else 0))))) ;;;
         ai <- binarynet_layer.in_base (a_read index i) ;;
         thrs <- gets binarynet_layer.Threshold_ ;;
         thr <- vread thrs i ;;
         binarynet_layer.in_base
           (out_write index i
              (float_of_Z prec emax
                 (if fge ai (float_of_Z prec emax thr) then 1 else -1)))) l
    = Ok tt s' /\
    same_shape (binarynet_layer.base_ l) (binarynet_layer.base_ s') /\
    written prec emax (binarynet_layer.base_ s') index osz.
Proof.
  intros isz osz Hsb Hfit Hwb Hthr Hin Hready.
  pose (Q := fun (i : Z) (s : binarynet_layer.t) =>
    binarynet_layer.Wbin_ s = binarynet_layer.Wbin_ l /\
    binarynet_layer.Threshold_ s = binarynet_layer.Threshold_ l /\
    same_shape (binarynet_layer.base_ l) (binarynet_layer.base_ s) /\
    written prec emax (binarynet_layer.base_ s) index i).
  match goal with
  | |- exists s', for_each ?n ?body ?s = _ /\ _ =>
      destruct (for_each_inv Q body n s) as (s' & Hrun & HQ)
  end.
  - destruct Hready as (_ & H & _). exact H.
  - refine (conj eq_refl (conj eq_refl (conj (same_shape_refl _) _))).
    intros obuf _ j Hj. lia.
  - intros i s Hi (Hw & Ht & Hs & Hwr).
    destruct (same_shape_ready _ _ index Hs Hready)
      as (_ & _ & Hidx & (abuf & Hab & Hal) & _).
    pose proof Hs as (_ & Hso & _). rewrite Hso in Hal. fold osz in Hal.
    assert (Hia : (Z.to_nat i < length abuf)%nat) by lia.
    (* a[i] = 0 *)
    pose proof (lift_Ok binarynet_layer.base_ binarynet_layer.set_base_ _ s _ _
                  (a_write_Ok _ index i abuf (float_of_Z prec emax 0) Hab Hia)) as H1.
    set (s1 := binarynet_layer.set_base_ _ s) in H1.
    assert (Hs1 : same_shape (binarynet_layer.base_ l) (binarynet_layer.base_ s1))
      by (apply same_shape_a_write; assumption).
    (* the row *)
    destruct (binarynet_row sbits prec emax l s1 in_bin index i Hsb Hfit Hwb Hin
                Hready Hi Hw Hs1) as (s2 & H2 & Hw2 & Ht2 & _ & Hs2 & Hout2).
    destruct (same_shape_ready _ _ index Hs2 Hready)
      as (_ & _ & _ & (abuf2 & Hab2 & Hal2) & (obuf & Hob & Hol)).
    pose proof Hs2 as (_ & Hso2 & _). rewrite Hso2 in Hal2, Hol.
    fold osz in Hal2, Hol.
    assert (Hia2 : (Z.to_nat i < length abuf2)%nat) by lia.
    destruct (lookup_lt_is_Some_2 _ _ Hia2) as [ai Hai].
    assert (Hit : (Z.to_nat i < length (binarynet_layer.Threshold_ s2))%nat)
      by (rewrite Ht2; cbn; rewrite Ht; lia).
    destruct (lookup_lt_is_Some_2 _ _ Hit) as [thr Hthr'].
    assert (Hio : (Z.to_nat i < length obuf)%nat) by lia.
    eexists. split.
    + cbv beta.
      erewrite bind_Ok by exact H1.
      erewrite bind_Ok by exact H2.
      erewrite bind_Ok
        by (apply lift_Ok; apply (a_read_Ok _ _ _ _ _ Hab2 Hai)).
      erewrite bind_Ok by (unfold gets; reflexivity).
      erewrite bind_Ok by (apply vread_Ok; exact Hthr').
      apply lift_Ok. apply (out_write_Ok _ _ _ _ _ Hob Hio).
    + unfold Q.
      cbn [binarynet_layer.Wbin_ binarynet_layer.Threshold_
             binarynet_layer.base_ binarynet_layer.set_base_].
      refine (conj Hw2 (conj _ (conj _ _))).
      * rewrite Ht2. exact Ht.
      * apply same_shape_out_write; assumption.
      * apply written_out_write; try assumption; try lia.
        -- apply pm1_of_bool.
        -- intros obuf' Hob' j Hj. apply (Hwr obuf'); [|assumption].
           rewrite Hout2 in Hob'. exact Hob'.
  - exists s'. destruct HQ as (_ & _ & Hs & Hwr). exact (conj Hrun (conj Hs Hwr)).
Qed.

Lemma binarynet_offload_loop (prec emax : Z) (s : binarynet_layer.t)
  (res : list bool) (index : Z) :
  let osz := out_size_ (binarynet_layer.base_ s) in
  scratch_ready (binarynet_layer.base_ s) index ->
  osz <= Z.of_nat (length res) ->
  exists s',
    for_each osz
      (fun i =>
         r <- vread res i ;;
         binarynet_layer.in_base
           (out_write index i (float_of_Z prec emax (if r then 1 else -1)))) s
    = Ok tt s' /\
    same_shape (binarynet_layer.base_ s) (binarynet_layer.base_ s') /\
    written prec emax (binarynet_layer.base_ s') index osz.
Proof.
  intros osz Hready Hres.
  pose (Q := fun (i : Z) (s' : binarynet_layer.t) =>
    same_shape (binarynet_layer.base_ s) (binarynet_layer.base_ s') /\
    written prec emax (binarynet_layer.base_ s') index i).
  apply (for_each_inv Q).
  - destruct Hready as (_ & H & _). exact H.
  - split; [apply same_shape_refl|]. intros obuf _ j Hj. lia.
  - intros i s1 Hi (Hs & Hwr).
    destruct (same_shape_ready _ _ index Hs Hready)
      as (_ & _ & _ & _ & (obuf & Hob & Hol)).
    pose proof Hs as (_ & Hso & _). rewrite Hso in Hol. fold osz in Hol.
    assert (Hio : (Z.to_nat i < length obuf)%nat) by lia.
    assert (Hir : (Z.to_nat i < length res)%nat) by lia.
    destruct (lookup_lt_is_Some_2 _ _ Hir) as [r Hr].
    eexists. split.
    + erewrite bind_Ok by (apply vread_Ok; exact Hr).
      apply lift_Ok. apply (out_write_Ok _ _ _ _ _ Hob Hio).
    + split.
      * apply same_shape_out_write; assumption.
      * apply written_out_write; try assumption; try lia.
        apply pm1_of_bool.
Qed.

Lemma binarynet_offload_branch (prec emax : Z) (l : binarynet_layer.t)
  (hook : binarynet_layer.BinMatVecMult) (in_bin : list bool) (index : Z) :
  let osz := out_size_ (binarynet_layer.base_ l) in
  scratch_ready (binarynet_layer.base_ l) index ->
  (forall inb thrs wb res, osz <= Z.of_nat (length (snd (hook inb thrs wb res)))) ->
  exists s',
    (let '(_, thrs', wb', res) :=
       hook in_bin (binarynet_layer.Threshold_ l) (binarynet_layer.Wbin_ l)
         (replicate (Z.to_nat osz) false) in
     modify (binarynet_layer.set_Threshold_ thrs') ;;;
     modify (binarynet_layer.set_Wbin_ wb') ;;;
     for_each osz
       (fun i =>
          r <- vread res i ;;
          binarynet_layer.in_base
            (out_write index i (float_of_Z prec emax (if r then 1 else -1))))) l
    = Ok tt s' /\
    same_shape (binarynet_layer.base_ l) (binarynet_layer.base_ s') /\
    written prec emax (binarynet_layer.base_ s') index osz.
Proof.
  intros osz Hready Hhook.
  specialize (Hhook in_bin (binarynet_layer.Threshold_ l) (binarynet_layer.Wbin_ l)
                (replicate (Z.to_nat osz) false)).
  destruct (hook in_bin (binarynet_layer.Threshold_ l) (binarynet_layer.Wbin_ l)
              (replicate (Z.to_nat osz) false))
    as [[[inb' thrs'] wb'] res]. cbn [snd] in Hhook.
  set (s0 := binarynet_layer.set_Wbin_ wb' (binarynet_layer.set_Threshold_ thrs' l)).
  destruct (binarynet_offload_loop prec emax s0 res index Hready Hhook)
    as (s' & Hrun & Hs & Hwr).
  exists s'. split; [|split; assumption].
  erewrite bind_Ok by (unfold modify; reflexivity).
  erewrite bind_Ok by (unfold modify; reflexivity).
  exact Hrun.
Qed.

Lemma forward_return {St} (prec emax : Z) (base_of : St -> base) (s : St)
  (index osz : Z) (b0 : base) :
  scratch_ready b0 index ->
  same_shape b0 (base_of s) ->
  written prec emax (base_of s) index (out_size_ b0) ->
  exists out obuf,
    (outs <- gets (fun l => output_ (base_of l)) ;;
     out <- vread outs index ;;
     nx <- gets (fun l => next_ (base_of l)) ;;
     ret (match nx with Some f => f out index | None => out end)) s
    = Ok out s /\
    output_ (base_of s) !! Z.to_nat index = Some obuf /\
    Forall (plus_or_minus_one prec emax) obuf /\
    Z.of_nat (length obuf) = out_size_ b0 /\
    (next_ b0 = None -> out = obuf).
Proof.
  intros Hready Hs Hwr.
  destruct (same_shape_ready _ _ index Hs Hready)
    as (_ & _ & _ & _ & (obuf & Hob & Hol)).
  pose proof Hs as (_ & Hso & _ & Hnx & _). rewrite Hso in Hol.
  exists (match next_ (base_of s) with Some f => f obuf index | None => obuf end), obuf.
  split; [|repeat split; try assumption].
  - erewrite bind_Ok by (unfold gets; reflexivity).
    erewrite bind_Ok by (apply vread_Ok; exact Hob).
    erewrite bind_Ok by (unfold gets; reflexivity).
    reflexivity.
  - apply (written_all prec emax (base_of s) index); [assumption|].
    rewrite Hol. exact Hwr.
  - intros Hnone. rewrite Hnx, Hnone. reflexivity.
Qed.

Lemma binarynet_forward_range (sbits prec emax : Z) (l : binarynet_layer.t)
  (in_ : list spec_float) (index : Z) :
  let isz := in_size_ (binarynet_layer.base_ l) in
  let osz := out_size_ (binarynet_layer.base_ l) in
  sbits <= 64 ->
  isz * osz <= 2 ^ sbits ->
  Z.of_nat (length (binarynet_layer.Wbin_ l)) = isz * osz ->
  Z.of_nat (length (binarynet_layer.Threshold_ l)) = osz ->
  Z.of_nat (length in_) <= isz ->
  scratch_ready (binarynet_layer.base_ l) index ->
  hook_fills l ->
  exists out l' obuf,
    binarynet_layer.forward_propagation sbits prec emax in_ index l = Ok out l' /\
    output_ (binarynet_layer.base_ l') !! Z.to_nat index = Some obuf /\
    Forall (plus_or_minus_one prec emax) obuf /\
    Z.of_nat (length obuf) = osz /\
    (next_ (binarynet_layer.base_ l) = None -> out = obuf).
Proof.
  intros isz osz Hsb Hfit Hwb Hthr Hin Hready Hhook.
  destruct (float2bipolar_spec prec emax in_ (replicate (Z.to_nat isz) false) l)
    as (in_bin & Hbip & Hlen & _); [rewrite length_replicate; lia|].
  rewrite length_replicate in Hlen.
  assert (Hisz : 0 <= isz) by (destruct Hready; assumption).
  unfold binarynet_layer.forward_propagation.
  erewrite bind_Ok by (unfold gets; reflexivity).
  erewrite bind_Ok by (unfold gets; reflexivity).
  erewrite bind_Ok by exact Hbip.
  erewrite bind_Ok by (unfold gets; reflexivity).
  unfold hook_fills in Hhook.
  destruct (binarynet_layer.Offload_ l) as [hook|] eqn:Eh.
  - destruct (binarynet_offload_branch prec emax l hook in_bin index Hready Hhook)
      as (s' & Hrun & Hs & Hwr).
    destruct (forward_return prec emax binarynet_layer.base_ s' index osz
                (binarynet_layer.base_ l) Hready Hs Hwr)
      as (out & obuf & Hret & Hob & Hall & Hol & Hnx).
    exists out, s', obuf. split; [|now repeat split].
    erewrite bind_Ok.
    2:{ erewrite bind_Ok by (unfold gets; reflexivity).
        erewrite bind_Ok by (unfold gets; reflexivity).
        exact Hrun. }
    exact Hret.
  - destruct (binarynet_kernel sbits prec emax l in_bin index Hsb Hfit Hwb Hthr)
      as (s' & Hrun & Hs & Hwr); [lia|assumption|].
    destruct (forward_return prec emax binarynet_layer.base_ s' index osz
                (binarynet_layer.base_ l) Hready Hs Hwr)
      as (out & obuf & Hret & Hob & Hall & Hol & Hnx).
    exists out, s', obuf. split; [|now repeat split].
    erewrite bind_Ok by exact Hrun.
    exact Hret.
Qed.

Lemma fc_row (cbits prec emax : Z) (l s : binarized_fc_layer.t)
  (in_bin : list bool) (index i : Z) :
  let isz := in_size_ (binarized_fc_layer.base_ l) in
  let osz := out_size_ (binarized_fc_layer.base_ l) in
  cbits <= 64 ->
  isz * osz <= 2 ^ cbits ->
  Z.of_nat (length (binarized_fc_layer.Wbin_ l)) = isz * osz ->
  Z.of_nat (length in_bin) = isz ->
  scratch_ready (binarized_fc_layer.base_ l) index ->
  0 <= i < osz ->
  binarized_fc_layer.Wbin_ s = binarized_fc_layer.Wbin_ l ->
  same_shape (binarized_fc_layer.base_ l) (binarized_fc_layer.base_ s) ->
  exists s',
    for_each isz
      (fun c =>
         wb <- gets binarized_fc_layer.Wbin_ ;;
         w <- vread wb (wrap size_t_bits (uadd cbits (umul cbits c osz) i)) ;;
         x <- vread in_bin c ;;
         ai <- binarized_fc_layer.in_base (a_read index i) ;;
         binarized_fc_layer.in_base
           (a_write index i
              (fadd prec emax ai
                 (float_of_Z prec emax (if Bool.eqb w x then 1 else -1))))) s
    = Ok tt s' /\
    binarized_fc_layer.Wbin_ s' = binarized_fc_layer.Wbin_ l /\
    binarized_fc_layer.h_ s' = binarized_fc_layer.h_ s /\
    same_shape (binarized_fc_layer.base_ l) (binarized_fc_layer.base_ s').
Proof.
  intros isz osz Hsb Hfit Hwb Hin Hready Hi Hw Hshape.
  assert (Hp : 2 ^ cbits <= 2 ^ 64) by (apply Z.pow_le_mono_r; lia).
  apply (for_each_preserve (fun s' =>
    binarized_fc_layer.Wbin_ s' = binarized_fc_layer.Wbin_ l /\
    binarized_fc_layer.h_ s' = binarized_fc_layer.h_ s /\
    same_shape (binarized_fc_layer.base_ l) (binarized_fc_layer.base_ s'))).
  - destruct Hready; assumption.
  - exact (conj Hw (conj eq_refl Hshape)).
  - intros c s1 Hc (Hw1 & Hh1 & Hs1).
    destruct (same_shape_ready _ _ index Hs1 Hready)
      as (_ & _ & _ & (abuf & Hab & Hal) & _).
    pose proof Hs1 as (_ & Hso & _).
    rewrite Hso in Hal. fold osz in Hal.
    assert (Hco : 0 <= c * osz) by nia.
    assert (Hco' : c * osz + osz <= isz * osz) by nia.
    assert (Hk : (Z.to_nat (c * osz + i) < length (binarized_fc_layer.Wbin_ s1))%nat)
      by (rewrite Hw1; lia).
    destruct (lookup_lt_is_Some_2 _ _ Hk) as [w Hwk].
    assert (Hcn : (Z.to_nat c < length in_bin)%nat) by lia.
    destruct (lookup_lt_is_Some_2 _ _ Hcn) as [x Hx].
    assert (Hin' : (Z.to_nat i < length abuf)%nat) by lia.
    destruct (lookup_lt_is_Some_2 _ _ Hin') as [ai Hai].
    eexists. split.
    + erewrite bind_Ok by (unfold gets; reflexivity).
      rewrite (umul_small cbits c osz) by lia.
      rewrite (uadd_small cbits) by lia.
      rewrite (wrap_small size_t_bits) by (unfold size_t_bits; lia).
      erewrite bind_Ok by (apply vread_Ok; exact Hwk).
      erewrite bind_Ok by (apply vread_Ok; exact Hx).
      erewrite bind_Ok
        by (apply lift_Ok; apply (a_read_Ok _ _ _ _ _ Hab Hai)).
      apply lift_Ok. apply (a_write_Ok _ _ _ _ _ Hab Hin').
    + cbn [binarized_fc_layer.Wbin_ binarized_fc_layer.h_
             binarized_fc_layer.base_ binarized_fc_layer.set_base_].
      refine (conj Hw1 (conj Hh1 _)).
      apply same_shape_a_write; assumption.
Qed.

Lemma fc_accumulate (cbits prec emax : Z) (l : binarized_fc_layer.t)
  (in_bin : list bool) (index : Z) :
  let isz := in_size_ (binarized_fc_layer.base_ l) in
  let osz := out_size_ (binarized_fc_layer.base_ l) in
  cbits <= 64 ->
  isz * osz <= 2 ^ cbits ->
  Z.of_nat (length (binarized_fc_layer.Wbin_ l)) = isz * osz ->
  Z.of_nat (length in_bin) = isz ->
  scratch_ready (binarized_fc_layer.base_ l) index ->
  exists s',
    for_each osz
      (fun i =>
         binarized_fc_layer.in_base (a_write index i (float_of_Z prec emax 0)) ;;;
         for_each isz
           (fun c =>
              wb <- gets binarized_fc_layer.Wbin_ ;;
              w <- vread wb (wrap size_t_bits (uadd cbits (umul cbits c osz) i)) ;;
              x <- vread in_bin c ;;
              ai <- binarized_fc_layer.in_base (a_read index i) ;;
              binarized_fc_layer.in_base
                (a_write index i
                   (fadd prec emax ai
                      (float_of_Z prec emax (if Bool.eqb w x then 1 else -1)))))) l
    = Ok tt s' /\
    binarized_fc_layer.h_ s' = binarized_fc_layer.h_ l /\
    same_shape (binarized_fc_layer.base_ l) (binarized_fc_layer.base_ s').
Proof.
  intros isz osz Hsb Hfit Hwb Hin Hready.
  match goal with
  | |- exists s', for_each ?n ?body ?s = _ /\ _ =>
      destruct (for_each_preserve (fun s' =>
        binarized_fc_layer.Wbin_ s' = binarized_fc_layer.Wbin_ l /\
        binarized_fc_layer.h_ s' = binarized_fc_layer.h_ l /\
        same_shape (binarized_fc_layer.base_ l) (binarized_fc_layer.base_ s'))
        body n s) as (s' & Hrun & _ & Hh & Hs)
  end.
  - destruct Hready as (_ & H & _). exact H.
  - exact (conj eq_refl (conj eq_refl (same_shape_refl _))).
  - intros i s Hi (Hw & Hh & Hs).
    destruct (same_shape_ready _ _ index Hs Hready)
      as (_ & _ & _ & (abuf & Hab & Hal) & _).
    pose proof Hs as (_ & Hso & _). rewrite Hso in Hal. fold osz in Hal.
    assert (Hia : (Z.to_nat i < length abuf)%nat) by lia.
    pose proof (lift_Ok binarized_fc_layer.base_ binarized_fc_layer.set_base_ _ s _ _
                  (a_write_Ok _ index i abuf (float_of_Z prec emax 0) Hab Hia)) as H1.
    set (s1 := binarized_fc_layer.set_base_ _ s) in H1.
    assert (Hs1 : same_shape (binarized_fc_layer.base_ l) (binarized_fc_layer.base_ s1))
      by (apply same_shape_a_write; assumption).
    destruct (fc_row cbits prec emax l s1 in_bin index i Hsb Hfit Hwb Hin
                Hready Hi Hw Hs1) as (s2 & H2 & Hw2 & Hh2 & Hs2).
    exists s2. split.
    + cbv beta. erewrite bind_Ok by exact H1. exact H2.
    + refine (conj Hw2 (conj _ Hs2)). rewrite Hh2. exact Hh.
  - exists s'. exact (conj Hrun (conj Hh Hs)).
Qed.

Lemma fc_activate (prec emax : Z) (s : binarized_fc_layer.t) (index : Z) :
  let osz := out_size_ (binarized_fc_layer.base_ s) in
  scratch_ready (binarized_fc_layer.base_ s) index ->
  (forall a i, plus_or_minus_one prec emax (binarized_fc_layer.h_ s a i)) ->
  exists s',
    for_each osz
      (fun i =>
         h <- gets binarized_fc_layer.h_ ;;
         as_ <- gets (fun l => a_ (binarized_fc_layer.base_ l)) ;;
         a <- vread as_ index ;;
         binarized_fc_layer.in_base (out_write index i (h a i))) s
    = Ok tt s' /\
    same_shape (binarized_fc_layer.base_ s) (binarized_fc_layer.base_ s') /\
    written prec emax (binarized_fc_layer.base_ s') index osz.
Proof.
  intros osz Hready Hh.
  pose (Q := fun (i : Z) (s' : binarized_fc_layer.t) =>
    binarized_fc_layer.h_ s' = binarized_fc_layer.h_ s /\
    same_shape (binarized_fc_layer.base_ s) (binarized_fc_layer.base_ s') /\
    written prec emax (binarized_fc_layer.base_ s') index i).
  match goal with
  | |- exists s', for_each ?n ?body ?s0 = _ /\ _ =>
      destruct (for_each_inv Q body n s0) as (s' & Hrun & _ & Hs & Hwr)
  end.
  - destruct Hready as (_ & H & _). exact H.
  - refine (conj eq_refl (conj (same_shape_refl _) _)). intros obuf _ j Hj. lia.
  - intros i s1 Hi (Hh1 & Hs & Hwr).
    destruct (same_shape_ready _ _ index Hs Hready)
      as (_ & _ & _ & (abuf & Hab & _) & (obuf & Hob & Hol)).
    pose proof Hs as (_ & Hso & _). rewrite Hso in Hol. fold osz in Hol.
    assert (Hio : (Z.to_nat i < length obuf)%nat) by lia.
    eexists. split.
    + erewrite bind_Ok by (unfold gets; reflexivity).
      erewrite bind_Ok by (unfold gets; reflexivity).
      erewrite bind_Ok by (apply vread_Ok; exact Hab).
      apply lift_Ok. apply (out_write_Ok _ _ _ _ _ Hob Hio).
    + refine (conj Hh1 (conj _ _)).
      * apply same_shape_out_write; assumption.
      * apply written_out_write; try assumption; try lia.
        rewrite Hh1. apply Hh.
  - exists s'. exact (conj Hrun (conj Hs Hwr)).
Qed.

Lemma same_shape_trans b1 b2 b3 :
  same_shape b1 b2 -> same_shape b2 b3 -> same_shape b1 b3.
Proof.
  intros (H1 & H2 & H3 & H4 & H5 & H6) (G1 & G2 & G3 & G4 & G5 & G6).
  unfold same_shape. rewrite G1, G2, G3, G4, G5, G6. now repeat split.
Qed.

Lemma fc_forward_range (cbits prec emax : Z) (l : binarized_fc_layer.t)
  (in_ : list spec_float) (index : Z) :
  let isz := in_size_ (binarized_fc_layer.base_ l) in
  let osz := out_size_ (binarized_fc_layer.base_ l) in
  cbits <= 64 ->
  isz * osz <= 2 ^ cbits ->
  Z.of_nat (length (binarized_fc_layer.Wbin_ l)) = isz * osz ->
  Z.of_nat (length in_) <= isz ->
  scratch_ready (binarized_fc_layer.base_ l) index ->
  (forall a i, plus_or_minus_one prec emax (binarized_fc_layer.h_ l a i)) ->
  exists out l' obuf,
    binarized_fc_layer.forward_propagation cbits prec emax in_ index l = Ok out l' /\
    output_ (binarized_fc_layer.base_ l') !! Z.to_nat index = Some obuf /\
    Forall (plus_or_minus_one prec emax) obuf /\
    Z.of_nat (length obuf) = osz /\
    (next_ (binarized_fc_layer.base_ l) = None -> out = obuf).
Proof.
  intros isz osz Hsb Hfit Hwb Hin Hready Hh.
  destruct (float2bipolar_spec prec emax in_ (replicate (Z.to_nat isz) false) l)
    as (in_bin & Hbip & Hlen & _); [rewrite length_replicate; lia|].
  rewrite length_replicate in Hlen.
  assert (Hisz : 0 <= isz) by (destruct Hready; assumption).
  destruct (fc_accumulate cbits prec emax l in_bin index Hsb Hfit Hwb)
    as (s1 & Hrun1 & Hh1 & Hs1); [lia|assumption|].
  pose proof (same_shape_ready _ _ index Hs1 Hready) as Hready1.
  destruct (fc_activate prec emax s1 index Hready1) as (s2 & Hrun2 & Hs2 & Hwr).
  { intros a i. rewrite Hh1. apply Hh. }
  pose proof Hs1 as (_ & Hso1 & _).
  rewrite Hso1 in Hrun2, Hwr.
  destruct (forward_return prec emax binarized_fc_layer.base_ s2 index osz
              (binarized_fc_layer.base_ l) Hready (same_shape_trans _ _ _ Hs1 Hs2) Hwr)
    as (out & obuf & Hret & Hob & Hall & Hol & Hnx).
  exists out, s2, obuf. split; [|now repeat split].
  unfold binarized_fc_layer.forward_propagation.
  erewrite bind_Ok by (unfold gets; reflexivity).
  erewrite bind_Ok by (unfold gets; reflexivity).
  erewrite bind_Ok by exact Hbip.
  erewrite bind_Ok by exact Hrun1.
  erewrite bind_Ok by exact Hrun2.
  exact Hret.
Qed.

(** C2 (as amended): in a binarynet layer, with the software kernel or
    with an offload hook that fills its result vector, [forward_propagation]
    returns and every element of the layer's output vector is [+1] or [-1];
    that vector is what the call returns when no next layer is linked.  In
    a binarized fully-connected layer the output elements are the values of
    the layer's [Activation] on the accumulators, so the same holds when
    that activation only takes the values [+1] and [-1]. *)
Theorem forward_output_range :
  forall (cbits sbits prec emax : Z) (lf : binarized_fc_layer.t)
         (lb : binarynet_layer.t) (in_ : list spec_float) (index : Z),
    cbits <= 64 -> sbits <= 64 ->
    in_size_ (binarynet_layer.base_ lb) * out_size_ (binarynet_layer.base_ lb)
      <= 2 ^ sbits ->
    Z.of_nat (length (binarynet_layer.Wbin_ lb))
      = in_size_ (binarynet_layer.base_ lb) * out_size_ (binarynet_layer.base_ lb) ->
    Z.of_nat (length (binarynet_layer.Threshold_ lb))
      = out_size_ (binarynet_layer.base_ lb) ->
    Z.of_nat (length in_) <= in_size_ (binarynet_layer.base_ lb) ->
    scratch_ready (binarynet_layer.base_ lb) index ->
    hook_fills lb ->
    in_size_ (binarized_fc_layer.base_ lf) * out_size_ (binarized_fc_layer.base_ lf)
      <= 2 ^ cbits ->
    Z.of_nat (length (binarized_fc_layer.Wbin_ lf))
      = in_size_ (binarized_fc_layer.base_ lf)
        * out_size_ (binarized_fc_layer.base_ lf) ->
    Z.of_nat (length in_) <= in_size_ (binarized_fc_layer.base_ lf) ->
    scratch_ready (binarized_fc_layer.base_ lf) index ->
    (forall a i, plus_or_minus_one prec emax (binarized_fc_layer.h_ lf a i)) ->
    (exists out l' obuf,
       binarynet_layer.forward_propagation sbits prec emax in_ index lb
       = Ok out l' /\
       output_ (binarynet_layer.base_ l') !! Z.to_nat index = Some obuf /\
       Forall (plus_or_minus_one prec emax) obuf /\
       Z.of_nat (length obuf) = out_size_ (binarynet_layer.base_ lb) /\
       (next_ (binarynet_layer.base_ lb) = None -> out = obuf)) /\
    (exists out l' obuf,
       binarized_fc_layer.forward_propagation cbits prec emax in_ index lf
       = Ok out l' /\
       output_ (binarized_fc_layer.base_ l') !! Z.to_nat index = Some obuf /\
       Forall (plus_or_minus_one prec emax) obuf /\
       Z.of_nat (length obuf) = out_size_ (binarized_fc_layer.base_ lf) /\
       (next_ (binarized_fc_layer.base_ lf) = None -> out = obuf)).
Proof.
  intros cbits sbits prec emax lf lb in_ index Hcb Hsb
    Hfit Hwb Hthr Hin Hready Hhook Hfit' Hwb' Hin' Hready' Hh.
  split.
  - now apply binarynet_forward_range.
  - now apply fc_forward_range.
Qed.

Lemma forward_output_range_witness :
  exists out l' obuf,
    binarynet_layer.forward_propagation 32 24 128 example_input 0
      example_binarynet_2x1 = Ok out l' /\
    output_ (binarynet_layer.base_ l') !! Z.to_nat 0 = Some obuf /\
    Forall (plus_or_minus_one 24 128) obuf /\
    Z.of_nat (length obuf) = 1 /\
    (next_ (binarynet_layer.base_ example_binarynet_2x1) = None -> out = obuf).
Proof.
  apply (forward_output_range 32 32 24 128 (example_fc sign_activation)
           example_binarynet_2x1 example_input 0);
    try reflexivity; try (vm_compute; discriminate).
  - unfold scratch_ready. cbn.
    repeat split; try lia; eexists; split; reflexivity.
  - unfold scratch_ready. cbn.
    repeat split; try lia; eexists; split; reflexivity.
  - intros a i. cbn. unfold sign_activation.
    destruct (a !! Z.to_nat i) as [x|]; [destruct (non_negative x)|];
      [left|right|left]; reflexivity.
Defined.

(** C2 as stated fails for the binarized fully-connected layer: with the
    identity activation, one matching and one mismatching input bit give
    the output element [0]. *)
Lemma forward_fc_identity_zero :
  exists l',
    binarized_fc_layer.forward_propagation 32 24 128 example_input 0
      (example_fc identity_activation)
    = Ok [S754_zero false] l' /\
    ~ Forall (plus_or_minus_one 24 128) [S754_zero false].
Proof.
  eexists. split; [vm_compute; reflexivity|].
  intros H. apply Forall_inv in H. destruct H as [H|H]; vm_compute in H; discriminate H.
Qed.

(** ** Convolution *)

Lemma range_from_length n lo : length (range_from n lo) = n.
Proof. revert lo. induction n as [|n IH]; intros lo; cbn; [reflexivity|now rewrite IH]. Qed.

Lemma sum_match_rule (pop : bool) (ps : list (bool * bool)) :
  foldr Z.add 0 (map (match_rule pop) ps)
  = if pop then matches ps else 2 * matches ps - Z.of_nat (length ps).
Proof.
  induction ps as [|[w x] ps IH].
  - destruct pop; reflexivity.
  - cbn [map foldr length]. rewrite IH, matches_cons.
    unfold match_rule. cbn [fst snd].
    destruct pop, (Bool.eqb w x); lia.
Qed.

Lemma accumulate_all_state {St} pop ps :
  forall acc (s : St) a s',
    accumulate_all pop ps acc s = Ok a s' -> s' = s.
Proof.
  induction ps as [|[w x] ps IH]; intros acc s a s' H.
  - cbn in H. now injection H as _ ->.
  - cbn [accumulate_all] in H. unfold bind in H.
    unfold bnn_conv_layer.accumulate, bnn_conv_layer.int_add in H.
    destruct pop.
    + destruct (in_int _); [|discriminate]. now apply IH in H.
    + destruct (in_int _); [|discriminate]. now apply IH in H.
Qed.

Lemma accumulate_all_app {St} pop ps1 ps2 :
  forall acc (s : St),
    accumulate_all pop (ps1 ++ ps2) acc s
    = (a <- accumulate_all pop ps1 acc ;; accumulate_all pop ps2 a) s.
Proof.
  induction ps1 as [|[w x] ps1 IH]; intros acc s.
  - reflexivity.
  - cbn [app accumulate_all]. unfold bind.
    destruct (bnn_conv_layer.accumulate pop w x acc s) as [a s'| |]; try reflexivity.
    rewrite IH. reflexivity.
Qed.

(** A loop whose iterations each run the accumulation statement over a
    list of pairs runs it over the concatenation. *)
Lemma for_from_accumulate {St} pop (G : Z -> list (bool * bool))
  (body : Z -> Z -> M St Z) (s : St) :
  forall n lo acc,
    (forall j a, lo <= j < lo + Z.of_nat n ->
                 body j a s = accumulate_all pop (G j) a s) ->
    for_from n lo body acc s
    = accumulate_all pop (flat_map G (range_from n lo)) acc s.
Proof.
  induction n as [|n IH]; intros lo acc Hbody.
  - reflexivity.
  - cbn [for_from range_from flat_map]. rewrite accumulate_all_app.
    unfold bind. rewrite Hbody by lia.
    destruct (accumulate_all pop (G lo) acc s) as [a s'| |] eqn:E; try reflexivity.
    apply accumulate_all_state in E. subst s'.
    apply IH. intros j a' Hj. apply Hbody. lia.
Qed.

Lemma for_accumulate {St} pop (G : Z -> list (bool * bool))
  (body : Z -> Z -> M St Z) (s : St) hi acc :
  (forall j a, 0 <= j < hi -> body j a s = accumulate_all pop (G j) a s) ->
  for_ hi body acc s = accumulate_all pop (flat_map G (range hi)) acc s.
Proof.
  intros Hbody. unfold for_, range. apply for_from_accumulate.
  intros j a Hj. apply Hbody. lia.
Qed.

(** Same, for a loop that runs the statement once per iteration. *)
Lemma for_accumulate_one {St} pop (g : Z -> bool * bool)
  (body : Z -> Z -> M St Z) (s : St) hi acc :
  (forall j a, 0 <= j < hi ->
               body j a s = bnn_conv_layer.accumulate pop (fst (g j)) (snd (g j)) a s) ->
  for_ hi body acc s = accumulate_all pop (map g (range hi)) acc s.
Proof.
  intros Hbody.
  rewrite (for_accumulate pop (fun j => [g j])).
  - apply (f_equal (fun ps => accumulate_all pop ps acc s)).
    induction (range hi) as [|j js IH]; [reflexivity|].
    cbn. now rewrite IH.
  - intros j a Hj. rewrite Hbody by assumption.
    destruct (g j) as [w x]. cbn [accumulate_all fst snd]. unfold bind.
    destruct (bnn_conv_layer.accumulate pop w x a s); reflexivity.
Qed.

(** *** Index arithmetic *)

Lemma mul_succ_le a b n : 0 <= a < n -> 0 <= b -> a * b + b <= n * b.
Proof. intros Ha Hb. nia. Qed.

Lemma pow64 sbits : sbits <= 64 -> 2 ^ sbits <= 2 ^ 64.
Proof. intros H. apply Z.pow_le_mono_r; lia. Qed.

Lemma weight_index sbits O I k oc ic ky kx :
  sbits <= 64 -> O * I * k * k < 2 ^ sbits ->
  0 <= oc < O -> 0 <= ic < I -> 0 <= ky < k -> 0 <= kx < k ->
  uadd size_t_bits
    (uadd size_t_bits
       (uadd sbits (umul sbits oc (umul sbits (umul sbits k k) I))
          (umul sbits (umul sbits k k) ic))
       (umul sbits ky k))
    kx
  = oc * (k * k * I) + ic * (k * k) + ky * k + kx /\
  0 <= oc * (k * k * I) + ic * (k * k) + ky * k + kx < O * I * k * k.
Proof.
  intros Hsb Hfit Hoc Hic Hky Hkx.
  pose proof (pow64 sbits Hsb) as Hp.
  assert (Hkk : 0 <= k * k) by nia.
  assert (H1 : ky * k + k <= k * k) by (apply mul_succ_le; lia).
  assert (H1' : 0 <= ky * k) by nia.
  assert (H2 : ic * (k * k) + k * k <= I * (k * k)) by (apply mul_succ_le; lia).
  assert (H2' : 0 <= ic * (k * k)) by nia.
  assert (HKI : 0 <= k * k * I) by nia.
  assert (H3 : oc * (k * k * I) + k * k * I <= O * (k * k * I)) by (apply mul_succ_le; lia).
  assert (H3' : 0 <= oc * (k * k * I)) by nia.
  assert (HT : O * (k * k * I) = O * I * k * k) by lia.
  assert (HI : I * (k * k) = k * k * I) by lia.
  unfold uadd, umul, size_t_bits.
  rewrite (wrap_small sbits (k * k)) by lia.
  rewrite (wrap_small sbits (k * k * I)) by lia.
  rewrite (wrap_small sbits (oc * (k * k * I))) by lia.
  rewrite (wrap_small sbits (k * k * ic)) by lia.
  rewrite (wrap_small sbits (ky * k)) by lia.
  rewrite (wrap_small sbits) by lia.
  rewrite (wrap_small 64 (_ + ky * k)) by lia.
  rewrite (wrap_small 64) by lia.
  lia.
Qed.

Lemma input_index sbits W H I k ic oy ox ky kx :
  sbits <= 64 -> W * H * I < 2 ^ sbits ->
  0 < k <= W -> k <= H ->
  0 <= ic < I -> 0 <= oy < H - k + 1 -> 0 <= ox < W - k + 1 ->
  0 <= ky < k -> 0 <= kx < k ->
  uadd size_t_bits
    (uadd size_t_bits
       (uadd sbits
          (uadd sbits (umul sbits ic (umul sbits W H)) (umul sbits oy W))
          ox)
       (umul sbits ky W))
    kx
  = ic * (W * H) + oy * W + ox + ky * W + kx /\
  0 <= ic * (W * H) + oy * W + ox + ky * W + kx < W * H * I.
Proof.
  intros Hsb Hfit Hk HkH Hic Hoy Hox Hky Hkx.
  pose proof (pow64 sbits Hsb) as Hp.
  assert (HWH : 0 <= W * H) by nia.
  assert (H1 : ic * (W * H) + W * H <= I * (W * H)) by (apply mul_succ_le; lia).
  assert (H1' : 0 <= ic * (W * H)) by nia.
  assert (H2 : (oy + ky) * W + W <= H * W) by (apply mul_succ_le; lia).
  assert (H2a : 0 <= oy * W) by nia.
  assert (H2b : 0 <= ky * W) by nia.
  assert (H2c : (oy + ky) * W = oy * W + ky * W) by lia.
  assert (HT : I * (W * H) = W * H * I) by lia.
  assert (HT' : H * W = W * H) by lia.
  unfold uadd, umul, size_t_bits.
  rewrite (wrap_small sbits (W * H)) by lia.
  rewrite (wrap_small sbits (ic * (W * H))) by lia.
  rewrite (wrap_small sbits (oy * W)) by lia.
  rewrite (wrap_small sbits (ky * W)) by lia.
  rewrite (wrap_small sbits (_ + oy * W)) by lia.
  rewrite (wrap_small sbits) by lia.
  rewrite (wrap_small 64 (_ + ky * W)) by lia.
  rewrite (wrap_small 64) by lia.
  lia.
Qed.

Lemma output_index sbits O oh ow oc oy ox :
  sbits <= 64 -> O * oh * ow < 2 ^ sbits ->
  0 <= oc < O -> 0 <= oy < oh -> 0 <= ox < ow ->
  uadd size_t_bits
    (uadd size_t_bits (umul sbits (umul sbits oc oh) ow) (umul sbits oy ow))
    ox
  = oc * oh * ow + oy * ow + ox /\
  0 <= oc * oh * ow + oy * ow + ox < O * oh * ow.
Proof.
  intros Hsb Hfit Hoc Hoy Hox.
  pose proof (pow64 sbits Hsb) as Hp.
  assert (H1 : oy * ow + ow <= oh * ow) by (apply mul_succ_le; lia).
  assert (H1' : 0 <= oy * ow) by nia.
  assert (Hhw : 0 <= oh * ow) by nia.
  assert (H2 : oc * (oh * ow) + oh * ow <= O * (oh * ow)) by (apply mul_succ_le; lia).
  assert (H2' : 0 <= oc * (oh * ow)) by nia.
  assert (H3 : 0 <= oc * oh) by nia.
  assert (H4 : oc * oh <= oc * oh * ow) by nia.
  assert (HT : O * (oh * ow) = O * oh * ow) by lia.
  assert (HT' : oc * (oh * ow) = oc * oh * ow) by lia.
  unfold uadd, umul, size_t_bits.
  rewrite (wrap_small sbits (oc * oh)) by lia.
  rewrite (wrap_small sbits (oc * oh * ow)) by lia.
  rewrite (wrap_small sbits (oy * ow)) by lia.
  rewrite (wrap_small 64 (_ + oy * ow)) by lia.
  rewrite (wrap_small 64) by lia.
  lia.
Qed.

(** Distinct output elements have distinct indices. *)
Lemma output_index_inj oh ow oc oy ox oc' oy' ox' :
  0 <= oy < oh -> 0 <= ox < ow -> 0 <= oy' < oh -> 0 <= ox' < ow ->
  oc * oh * ow + oy * ow + ox = oc' * oh * ow + oy' * ow + ox' ->
  oc = oc' /\ oy = oy' /\ ox = ox'.
Proof.
  intros Hoy Hox Hoy' Hox' Heq.
  assert (H1 : ow * (oc * oh + oy) + ox = ow * (oc' * oh + oy') + ox') by lia.
  apply Z.div_mod_unique in H1; [|lia|lia].
  destruct H1 as [H1 ->].
  assert (H2 : oh * oc + oy = oh * oc' + oy') by lia.
  apply Z.div_mod_unique in H2; [|lia|lia].
  destruct H2 as [-> ->]. now repeat split.
Qed.

(** *** The kernel *)

Lemma vread_bit {St} (v : list bool) (i : Z) (s : St) :
  0 <= i < Z.of_nat (length v) -> vread v i s = Ok (bit v i) s.
Proof.
  intros Hi. assert (Hn : (Z.to_nat i < length v)%nat) by lia.
  destruct (lookup_lt_is_Some_2 _ _ Hn) as [x Hx].
  unfold bit. rewrite (vread_Ok _ _ _ _ Hx), Hx. reflexivity.
Qed.

Lemma length_flat_map_range {A} (f : Z -> list A) (c : nat) n lo :
  (forall j, length (f j) = c) ->
  length (flat_map f (range_from n lo)) = (n * c)%nat.
Proof.
  intros Hf. revert lo. induction n as [|n IH]; intros lo; [reflexivity|].
  cbn [range_from flat_map]. rewrite length_app, Hf, IH. lia.
Qed.

Lemma window_pairs_length (l : bnn_conv_layer.t) in_bin oc oy ox :
  0 <= bnn_conv_layer.window_size_ l ->
  0 <= bnn_conv_layer.in_channels_ l ->
  Z.of_nat (length (window_pairs l in_bin oc oy ox))
  = bnn_conv_layer.in_channels_ l * bnn_conv_layer.window_size_ l
    * bnn_conv_layer.window_size_ l.
Proof.
  intros Hk HI. unfold window_pairs, range. cbv zeta.
  rewrite (length_flat_map_range _
             (Z.to_nat (bnn_conv_layer.window_size_ l)
              * Z.to_nat (bnn_conv_layer.window_size_ l))).
  - rewrite !Nat2Z.inj_mul, !Z2Nat.id by lia. lia.
  - intros ic.
    apply (length_flat_map_range _ (Z.to_nat (bnn_conv_layer.window_size_ l))).
    intros ky. now rewrite length_map, range_from_length.
Qed.

Lemma conv_window (sbits : Z) (l s : bnn_conv_layer.t) (in_bin : list bool)
  (oc oy ox : Z) :
  conv_geometry sbits l ->
  bnn_conv_layer.Wbin_ s = bnn_conv_layer.Wbin_ l ->
  Z.of_nat (length in_bin)
    = bnn_conv_layer.in_width_ l * bnn_conv_layer.in_height_ l
      * bnn_conv_layer.in_channels_ l ->
  0 <= oc < bnn_conv_layer.out_channels_ l ->
  0 <= oy < bnn_conv_layer.out_height_ l ->
  0 <= ox < bnn_conv_layer.out_width_ l ->
  let ws := bnn_conv_layer.window_size_ l in
  for_ (bnn_conv_layer.in_channels_ l)
    (fun ic acc =>
       let weight_base :=
         uadd sbits
           (umul sbits oc
              (umul sbits (umul sbits ws ws) (bnn_conv_layer.in_channels_ l)))
           (umul sbits (umul sbits ws ws) ic) in
       let input_base :=
         uadd sbits
           (uadd sbits
              (umul sbits ic
                 (umul sbits (bnn_conv_layer.in_width_ l)
                    (bnn_conv_layer.in_height_ l)))
              (umul sbits oy (bnn_conv_layer.in_width_ l)))
           ox in
       for_ ws
         (fun ky acc =>
            for_ ws
              (fun kx acc =>
                 let weight_ind :=
                   uadd size_t_bits
                     (uadd size_t_bits weight_base (umul sbits ky ws)) kx in
                 let input_ind :=
                   uadd size_t_bits
                     (uadd size_t_bits input_base
                        (umul sbits ky (bnn_conv_layer.in_width_ l)))
                     kx in
                 wb <- gets bnn_conv_layer.Wbin_ ;;
                 w <- vread wb weight_ind ;;
                 x <- vread in_bin input_ind ;;
                 bnn_conv_layer.accumulate (bnn_conv_layer.use_popcount_ l) w x acc)
              acc)
         acc)
    0 s
  = Ok (spec_conv_acc l in_bin oc oy ox) s.
Proof.
  intros (Hsb & Hk & HkH & HI & HO & How & Hoh & Hin & Hwt & Hout & Hfan & Hlen)
    Hw Hinb Hoc Hoy Hox ws.
  set (pop := bnn_conv_layer.use_popcount_ l).
  rewrite How in Hox. rewrite Hoh in Hoy.
  rewrite (for_accumulate pop
    (fun ic =>
       flat_map (fun ky =>
         map (fun kx =>
                (bit (bnn_conv_layer.Wbin_ l)
                   (oc * (ws * ws * bnn_conv_layer.in_channels_ l) + ic * (ws * ws)
                    + ky * ws + kx),
                 bit in_bin
                   (ic * (bnn_conv_layer.in_width_ l * bnn_conv_layer.in_height_ l)
                    + oy * bnn_conv_layer.in_width_ l + ox
                    + ky * bnn_conv_layer.in_width_ l + kx)))
           (range ws))
         (range ws))).
  - change (flat_map _ (range (bnn_conv_layer.in_channels_ l)))
      with (window_pairs l in_bin oc oy ox).
    pose proof (window_pairs_length l in_bin oc oy ox ltac:(lia) HI) as Hn.
    fold ws in Hn.
    unfold spec_conv_acc. rewrite sum_match_rule. fold pop.
    destruct pop.
    + rewrite accumulate_all_popcount by lia. reflexivity.
    + assert (HM : 0 < INT_MAX) by reflexivity.
      rewrite accumulate_all_signed by lia. reflexivity.
  - intros ic a Hic. cbv zeta.
    apply for_accumulate. intros ky a1 Hky.
    apply (for_accumulate_one pop
      (fun kx =>
         (bit (bnn_conv_layer.Wbin_ l)
            (oc * (ws * ws * bnn_conv_layer.in_channels_ l) + ic * (ws * ws)
             + ky * ws + kx),
          bit in_bin
            (ic * (bnn_conv_layer.in_width_ l * bnn_conv_layer.in_height_ l)
             + oy * bnn_conv_layer.in_width_ l + ox
             + ky * bnn_conv_layer.in_width_ l + kx)))).
    intros kx a2 Hkx. cbn [fst snd].
    destruct (weight_index sbits _ _ ws oc ic ky kx Hsb Hwt Hoc Hic Hky Hkx)
      as [-> Hwr].
    destruct (input_index sbits _ _ _ ws ic oy ox ky kx Hsb Hin Hk HkH Hic Hoy Hox Hky Hkx)
      as [-> Hir].
    erewrite bind_Ok by (unfold gets; reflexivity).
    rewrite Hw.
    erewrite bind_Ok by (apply vread_bit; lia).
    erewrite bind_Ok by (apply vread_bit; lia).
    reflexivity.
Qed.

Lemma conv_ready_shape l b b' worker_index :
  same_shape b b' -> conv_ready l b worker_index -> conv_ready l b' worker_index.
Proof.
  intros (_ & _ & _ & _ & _ & Hout) (Hw & obuf & Hob & Hol).
  split; [assumption|].
  assert (Hl : (length <$> output_ b') !! Z.to_nat worker_index = Some (length obuf))
    by (rewrite Hout, list_lookup_fmap, Hob; reflexivity).
  rewrite list_lookup_fmap in Hl.
  destruct (output_ b' !! Z.to_nat worker_index) as [obuf'|]; [|discriminate].
  injection Hl as Hl. exists obuf'. split; [reflexivity|lia].
Qed.

Lemma conv_element_spec (sbits prec emax : Z) (l s : bnn_conv_layer.t)
  (in_bin : list bool) (worker_index oc oy ox : Z) :
  conv_geometry sbits l ->
  Z.of_nat (length in_bin)
    = bnn_conv_layer.in_width_ l * bnn_conv_layer.in_height_ l
      * bnn_conv_layer.in_channels_ l ->
  conv_ready l (bnn_conv_layer.base_ l) worker_index ->
  in_out_range l oc oy ox ->
  conv_inv prec emax l in_bin worker_index (out_index l oc oy ox) s ->
  exists s',
    conv_element sbits prec emax l in_bin worker_index oc oy ox s = Ok tt s' /\
    conv_inv prec emax l in_bin worker_index (out_index l oc oy ox + 1) s'.
Proof.
  intros Hgeo Hinb Hready (Hoc & Hoy & Hox) (Hw & Hs & Hwr).
  pose proof Hgeo as (Hsb & Hk & HkH & HI & HO & How & Hoh & Hin & Hwt & Hout & Hfan & Hlen).
  destruct (conv_ready_shape l _ _ worker_index Hs Hready) as (Hwi & obuf & Hob & Hol).
  rewrite <- Hoh, <- How in Hout.
  destruct (output_index sbits _ _ _ oc oy ox Hsb Hout Hoc Hoy Hox) as [Hidx Hir].
  fold (out_index l oc oy ox) in Hidx, Hir.
  assert (Hio : (Z.to_nat (out_index l oc oy ox) < length obuf)%nat) by lia.
  eexists. split.
  - unfold conv_element. cbv zeta.
    erewrite bind_Ok
      by (apply (conv_window sbits l s in_bin oc oy ox); assumption).
    rewrite Hidx.
    apply lift_Ok. apply (out_write_Ok _ _ _ _ _ Hob Hio).
  - refine (conj Hw (conj _ _)).
    + apply same_shape_out_write; assumption.
    + intros obuf' Hob' oc' oy' ox' (Hoc' & Hoy' & Hox') Hlt.
      cbn in Hob'.
      rewrite list_lookup_insert_eq in Hob' by (now apply lookup_lt_Some in Hob).
      injection Hob' as <-.
      destruct (decide (out_index l oc' oy' ox' = out_index l oc oy ox)) as [He|Hne].
      * rewrite He, list_lookup_insert_eq by assumption.
        unfold out_index in He.
        apply output_index_inj in He; try assumption.
        destruct He as (-> & -> & ->). reflexivity.
      * assert (Hnn : 0 <= out_index l oc' oy' ox').
        { destruct (output_index sbits _ _ _ oc' oy' ox' Hsb Hout Hoc' Hoy' Hox')
            as [_ Hr]. exact (proj1 Hr). }
        rewrite list_lookup_insert_ne by lia.
        apply (Hwr obuf Hob); [now repeat split|lia].
Qed.

Lemma conv_loops (sbits prec emax : Z) (l : bnn_conv_layer.t)
  (in_bin : list bool) (worker_index : Z) :
  conv_geometry sbits l ->
  Z.of_nat (length in_bin)
    = bnn_conv_layer.in_width_ l * bnn_conv_layer.in_height_ l
      * bnn_conv_layer.in_channels_ l ->
  conv_ready l (bnn_conv_layer.base_ l) worker_index ->
  exists s',
    for_each (bnn_conv_layer.out_channels_ l)
      (fun oc =>
         for_each (bnn_conv_layer.out_height_ l)
           (fun oy =>
              for_each (bnn_conv_layer.out_width_ l)
                (fun ox =>
                   conv_element sbits prec emax l in_bin worker_index oc oy ox))) l
    = Ok tt s' /\
    conv_inv prec emax l in_bin worker_index
      (bnn_conv_layer.out_channels_ l * bnn_conv_layer.out_height_ l
       * bnn_conv_layer.out_width_ l) s'.
Proof.
  intros Hgeo Hinb Hready.
  pose proof Hgeo as (Hsb & Hk & HkH & HI & HO & How & Hoh & _).
  set (O := bnn_conv_layer.out_channels_ l).
  set (oh := bnn_conv_layer.out_height_ l).
  set (ow := bnn_conv_layer.out_width_ l).
  assert (Hoh0 : 0 <= oh) by (subst oh; lia).
  assert (How0 : 0 <= ow) by (subst ow; lia).
  apply (for_each_inv
           (fun oc s => conv_inv prec emax l in_bin worker_index (oc * oh * ow) s)).
  - assumption.
  - refine (conj eq_refl (conj (same_shape_refl _) _)).
    intros obuf _ oc oy ox (Hoc & Hoy & Hox) Hlt. unfold out_index in Hlt.
    fold oh ow in Hlt, Hoy, Hox. nia.
  - intros oc s Hoc Hinv.
    destruct (for_each_inv
                (fun oy s => conv_inv prec emax l in_bin worker_index
                               (oc * oh * ow + oy * ow) s)
                (fun oy =>
                   for_each ow
                     (fun ox =>
                        conv_element sbits prec emax l in_bin worker_index oc oy ox))
                oh s) as (s' & Hrun & Hinv').
    + assumption.
    + now replace (oc * oh * ow + 0 * ow) with (oc * oh * ow) by lia.
    + intros oy s1 Hoy Hinv1.
      destruct (for_each_inv
                  (fun ox s => conv_inv prec emax l in_bin worker_index
                                 (out_index l oc oy ox) s)
                  (fun ox =>
                     conv_element sbits prec emax l in_bin worker_index oc oy ox)
                  ow s1) as (s2 & Hrun2 & Hinv2).
      * assumption.
      * unfold out_index. fold oh ow.
        now replace (oc * oh * ow + oy * ow + 0) with (oc * oh * ow + oy * ow) by lia.
      * intros ox s2 Hox Hinv2.
        replace (out_index l oc oy (ox + 1)) with (out_index l oc oy ox + 1)
          by (unfold out_index; lia).
        apply (conv_element_spec sbits); try assumption. now repeat split.
      * exists s2. split; [assumption|].
        unfold out_index in Hinv2. fold oh ow in Hinv2.
        now replace (oc * oh * ow + (oy + 1) * ow)
          with (oc * oh * ow + oy * ow + ow) by lia.
    + exists s'. split; [assumption|].
      now replace ((oc + 1) * oh * ow) with (oc * oh * ow + oh * ow) by lia.
Qed.

Lemma constructed_fields (sbits : Z) (be : bool)
  (fs : string -> option (list Byte.byte)) (b0 : base)
  (iw ih k ic oc : Z) (pop : bool) (file : string) (l0 : bnn_conv_layer.t) :
  bnn_conv_layer.bnn_conv_layer sbits be fs b0 iw ih k ic oc pop file = Ok tt l0 ->
  exists wb0,
    l0 = {| bnn_conv_layer.base_ := set_parallelize false b0;
            bnn_conv_layer.use_popcount_ := pop;
            bnn_conv_layer.Wbin_ := wb0;
            bnn_conv_layer.in_width_ := iw;
            bnn_conv_layer.in_height_ := ih;
            bnn_conv_layer.window_size_ := k;
            bnn_conv_layer.in_channels_ := ic;
            bnn_conv_layer.out_channels_ := oc;
            bnn_conv_layer.out_width_ := uadd sbits (usub sbits iw k) 1;
            bnn_conv_layer.out_height_ := uadd sbits (usub sbits ih k) 1 |}.
Proof.
  unfold bnn_conv_layer.bnn_conv_layer.
  destruct (String.eqb file EmptyString).
  - intros H. injection H as <-. eexists. reflexivity.
  - set (l1 := {| bnn_conv_layer.base_ := _ |}).
    destruct (fs file) as [content|] eqn:E.
    + destruct (loadFromBinaryFile_returns be fs file content l1 E)
        as (wb' & Hrun & _).
      rewrite Hrun. intros H. injection H as <-. eexists. reflexivity.
    + unfold bnn_conv_layer.loadFromBinaryFile. rewrite E. discriminate.
Qed.

(** C4: a constructed layer (valid padding, stride 1) has
    [out_width = in_width - k + 1] and [out_height = in_height - k + 1];
    whatever its weight bits, [forward_propagation] returns and leaves at
    index [oc * out_height * out_width + oy * out_width + ox] of the output
    vector the accumulator itself: the sum over [(ic, ky, kx)] of the match
    rule on weight bit [oc * (k * k * in_channels) + ic * (k * k) + ky * k + kx]
    and input bit
    [ic * (in_width * in_height) + oy * in_width + ox + ky * in_width + kx]. *)
Theorem conv_forward_writes_accumulators :
  forall (sbits prec emax : Z) (be : bool)
         (fs : string -> option (list Byte.byte)) (b0 b : base)
         (iw ih k ic oc : Z) (pop : bool) (file : string)
         (l0 : bnn_conv_layer.t) (wb : list bool) (in_raw : list spec_float)
         (worker_index : Z),
    sbits <= 64 ->
    0 < k <= iw -> k <= ih -> 0 <= ic -> 0 <= oc ->
    iw < 2 ^ sbits -> ih < 2 ^ sbits ->
    iw * ih * ic < 2 ^ sbits ->
    oc * ic * k * k < 2 ^ sbits ->
    oc * (ih - k + 1) * (iw - k + 1) < 2 ^ sbits ->
    ic * k * k <= INT_MAX ->
    bnn_conv_layer.bnn_conv_layer sbits be fs b0 iw ih k ic oc pop file = Ok tt l0 ->
    Z.of_nat (length wb) = oc * ic * k * k ->
    Z.of_nat (length in_raw) = iw * ih * ic ->
    let l := bnn_conv_layer.set_base_ b (bnn_conv_layer.set_Wbin_ wb l0) in
    conv_ready l b worker_index ->
    bnn_conv_layer.out_width_ l = iw - k + 1 /\
    bnn_conv_layer.out_height_ l = ih - k + 1 /\
    exists out l' obuf,
      bnn_conv_layer.forward_propagation sbits prec emax in_raw worker_index l
      = Ok out l' /\
      output_ (bnn_conv_layer.base_ l') !! Z.to_nat worker_index = Some obuf /\
      (next_ b = None -> out = obuf) /\
      forall oc' oy ox,
        0 <= oc' < oc -> 0 <= oy < ih - k + 1 -> 0 <= ox < iw - k + 1 ->
        obuf !! Z.to_nat (oc' * (ih - k + 1) * (iw - k + 1) + oy * (iw - k + 1) + ox)
        = Some (float_of_Z prec emax
                  (spec_conv_acc l (non_negative <$> in_raw) oc' oy ox)).
Proof.
  intros sbits prec emax be fs b0 b iw ih k ic oc pop file l0 wb in_raw worker_index
    Hsb Hk HkH Hic Hoc Hiw Hih Hin Hwt Hout Hfan Hctor Hwb Hraw l Hready.
  destruct (constructed_fields _ _ _ _ _ _ _ _ _ _ _ _ Hctor) as (wb0 & ->).
  assert (How : uadd sbits (usub sbits iw k) 1 = iw - k + 1).
  { rewrite usub_small by lia. apply uadd_small. lia. }
  assert (Hoh : uadd sbits (usub sbits ih k) 1 = ih - k + 1).
  { rewrite usub_small by lia. apply uadd_small. lia. }
  assert (Hgeo : conv_geometry sbits l).
  { unfold conv_geometry. subst l. cbn. rewrite How, Hoh.
    repeat split; try assumption; try lia. }
  split; [exact How|]. split; [exact Hoh|].
  set (in_bin := non_negative <$> in_raw).
  assert (Hinb : Z.of_nat (length in_bin)
                 = bnn_conv_layer.in_width_ l * bnn_conv_layer.in_height_ l
                   * bnn_conv_layer.in_channels_ l).
  { subst in_bin l. cbn. rewrite length_fmap. exact Hraw. }
  destruct (conv_loops sbits prec emax l in_bin worker_index Hgeo Hinb Hready)
    as (s' & Hrun & Hw & Hs & Hwr).
  destruct (conv_ready_shape l _ _ worker_index Hs Hready) as (Hwi & obuf & Hob & Hol).
  exists (match next_ (bnn_conv_layer.base_ s') with
          | Some f => f obuf worker_index
          | None => obuf
          end), s', obuf.
  split; [|split; [exact Hob|split]].
  - unfold bnn_conv_layer.forward_propagation.
    erewrite bind_Ok
      by (apply float2bipolar_same_length; now rewrite length_replicate).
    fold in_bin.
    erewrite bind_Ok by (unfold gets; reflexivity).
    cbv zeta.
    erewrite bind_Ok by exact Hrun.
    erewrite bind_Ok by (unfold gets; reflexivity).
    erewrite bind_Ok by (apply vread_Ok; exact Hob).
    erewrite bind_Ok by (unfold gets; reflexivity).
    reflexivity.
  - intros Hnone. destruct Hs as (_ & _ & _ & Hnx & _).
    rewrite Hnx. subst l. cbn. now rewrite Hnone.
  - intros oc' oy ox Hoc' Hoy Hox.
    specialize (Hwr obuf Hob oc' oy ox).
    unfold out_index, in_out_range in Hwr. subst l. cbn in Hwr.
    rewrite How, Hoh in Hwr. apply Hwr; [now repeat split|].
    destruct (output_index sbits oc (ih - k + 1) (iw - k + 1) oc' oy ox)
      as [_ Hr]; try assumption; lia.
Qed.

Lemma conv_forward_writes_accumulators_witness :
  exists out l' obuf,
    bnn_conv_layer.forward_propagation 32 24 128 example_image 0 example_conv
    = Ok out l' /\
    output_ (bnn_conv_layer.base_ l') !! Z.to_nat 0 = Some obuf /\
    (next_ example_conv_base = None -> out = obuf) /\
    forall oc' oy ox,
      0 <= oc' < 1 -> 0 <= oy < 3 - 2 + 1 -> 0 <= ox < 3 - 2 + 1 ->
      obuf !! Z.to_nat (oc' * (3 - 2 + 1) * (3 - 2 + 1) + oy * (3 - 2 + 1) + ox)
      = Some (float_of_Z 24 128
                (spec_conv_acc example_conv (non_negative <$> example_image)
                   oc' oy ox)).
Proof.
  refine (proj2 (proj2
    (conv_forward_writes_accumulators 32 24 128 false no_files
       example_conv_base example_conv_base 3 3 2 1 1 false EmptyString
       example_conv_constructed [true; false; true; true] example_image 0
       _ _ _ _ _ _ _ _ _ _ _ _ _ _ _)));
    try reflexivity; try lia; try (vm_compute; discriminate).
  split; [lia|]. eexists. split; reflexivity.
Defined.

(** The geometry example of the specification: a 5 x 5 input and a 3 x 3
    window give a 3 x 3 output per channel. *)
Example conv_geometry_5_5_3 :
  exists l,
    bnn_conv_layer.bnn_conv_layer 32 false no_files (example_base 25 18)
      5 5 3 1 2 false EmptyString = Ok tt l /\
    bnn_conv_layer.out_width_ l = 3 /\ bnn_conv_layer.out_height_ l = 3 /\
    bnn_conv_layer.out_channels_ l * bnn_conv_layer.out_height_ l
      * bnn_conv_layer.out_width_ l = 2 * 9.
Proof. eexists. split; [reflexivity|]. repeat split. Qed.

(** * Further properties *)

(** ** Loops that stop early *)

Lemma for_from_add {St A} (body : Z -> A -> M St A) (n m : nat) :
  forall (i : Z) (a : A) (s : St),
    for_from (n + m) i body a s
    = (a' <- for_from n i body a ;; for_from m (i + Z.of_nat n) body a') s.
Proof.
  induction n as [|n IH]; intros i a s.
  - cbn [for_from Nat.add]. unfold bind, ret. change (Z.of_nat 0) with 0.
    now rewrite Z.add_0_r.
  - cbn [for_from Nat.add]. unfold bind.
    destruct (body i a s) as [a1 s1| |]; try reflexivity.
    rewrite IH. unfold bind.
    now replace (i + 1 + Z.of_nat n) with (i + Z.of_nat (S n)) by lia.
Qed.

(** ** The bipolar encoder, whatever the lengths *)

Lemma float2bipolar_refreshed {St} prec emax (in_ : vec_t) (out : list bool)
  (s : St) :
  (length in_ <= length out)%nat ->
  float2bipolar prec emax in_ out s = Ok (refreshed in_ out) s.
Proof.
  intros Hlen.
  destruct (float2bipolar_spec prec emax in_ out s Hlen) as (o & Hrun & Hl & Hlo & Hhi).
  rewrite Hrun. f_equal. apply list_eq. intros i. unfold refreshed.
  destruct (in_ !! i) as [x|] eqn:E.
  - rewrite (Hlo i x E), lookup_app_l
      by (rewrite length_fmap; now apply lookup_lt_Some in E).
    now rewrite list_lookup_fmap, E.
  - apply lookup_ge_None in E.
    rewrite (Hhi i E), lookup_app_r by (now rewrite length_fmap).
    rewrite length_fmap, lookup_drop. f_equal. lia.
Qed.

Lemma float2bipolar_overlong {St} prec emax (in_ : vec_t) (out : list bool)
  (s : St) :
  (length out < length in_)%nat ->
  float2bipolar prec emax in_ out s = Undefined.
Proof.
  intros Hlen. unfold float2bipolar, for_.
  rewrite Nat2Z.id.
  replace (length in_) with (length out + S (length in_ - length out - 1))%nat by lia.
  rewrite for_from_add.
  destruct (for_from_inv
              (fun (j : Z) (o : list bool) (s' : St) =>
                 s' = s /\ length o = length out)
              (fun i out => x <- vread in_ i ;;
                            vwrite out i (fge x (float_of_Z prec emax 0)))
              (length out) 0 out s) as (o & s' & Hrun & -> & Hl).
  - now split.
  - intros j o s0 Hj (-> & Hl).
    assert (Hjn : (Z.to_nat j < length in_)%nat) by lia.
    destruct (lookup_lt_is_Some_2 _ _ Hjn) as [x Hx].
    eexists _, _. split.
    + unfold bind. rewrite (vread_Ok _ _ _ _ Hx).
      rewrite vwrite_Ok by lia. reflexivity.
    + rewrite length_insert. now split.
  - unfold bind at 1. rewrite Hrun. cbn [for_from]. unfold bind at 1.
    assert (Hn : (Z.to_nat (0 + Z.of_nat (length out)) < length in_)%nat) by lia.
    destruct (lookup_lt_is_Some_2 _ _ Hn) as [x Hx].
    unfold bind at 1. rewrite (vread_Ok _ _ _ _ Hx).
    unfold vwrite. rewrite decide_False by lia. reflexivity.
Qed.

(** The encoder reads its input through the signs only. *)
Lemma float2bipolar_signs {St} prec emax (in1 in2 : vec_t) (out : list bool)
  (s : St) :
  non_negative <$> in1 = non_negative <$> in2 ->
  float2bipolar prec emax in1 out s = float2bipolar prec emax in2 out s.
Proof.
  intros Heq.
  assert (Hl : length in1 = length in2)
    by (rewrite <- (length_fmap non_negative in1), Heq; apply length_fmap).
  destruct (le_lt_dec (length in1) (length out)) as [Hle|Hgt].
  - rewrite !float2bipolar_refreshed by lia. unfold refreshed. now rewrite Heq, Hl.
  - rewrite !float2bipolar_overlong by lia. reflexivity.
Qed.

(** ** [post_update] on tensors of any length *)

(** X1: in each of the three layers, when the float tensor [W_] is not
    longer than the store, [post_update()] rewrites the bits below the
    length of [W_] with the signs of the weights and keeps the bits from
    there on; nothing else changes. *)
Theorem post_update_refreshes_prefix :
  forall (prec emax : Z) (lf : binarized_fc_layer.t) (lb : binarynet_layer.t)
         (lc : bnn_conv_layer.t),
    (length (W_ (binarized_fc_layer.base_ lf))
     <= length (binarized_fc_layer.Wbin_ lf))%nat ->
    (length (W_ (binarynet_layer.base_ lb))
     <= length (binarynet_layer.Wbin_ lb))%nat ->
    (length (W_ (bnn_conv_layer.base_ lc))
     <= length (bnn_conv_layer.Wbin_ lc))%nat ->
    binarized_fc_layer.post_update prec emax lf
      = Ok tt (binarized_fc_layer.set_Wbin_
                 (refreshed (W_ (binarized_fc_layer.base_ lf))
                    (binarized_fc_layer.Wbin_ lf)) lf) /\
    binarynet_layer.post_update prec emax lb
      = Ok tt (binarynet_layer.set_Wbin_
                 (refreshed (W_ (binarynet_layer.base_ lb))
                    (binarynet_layer.Wbin_ lb)) lb) /\
    bnn_conv_layer.post_update prec emax lc
      = Ok tt (bnn_conv_layer.set_Wbin_
                 (refreshed (W_ (bnn_conv_layer.base_ lc))
                    (bnn_conv_layer.Wbin_ lc)) lc).
Proof.
  intros prec emax lf lb lc Hf Hb Hc. repeat split.
  - unfold binarized_fc_layer.post_update, bind, gets, modify.
    now rewrite float2bipolar_refreshed.
  - unfold binarynet_layer.post_update, bind, gets, modify.
    now rewrite float2bipolar_refreshed.
  - unfold bnn_conv_layer.post_update, bind, gets, modify.
    now rewrite float2bipolar_refreshed.
Qed.

Lemma post_update_refreshes_prefix_witness :
  binarynet_layer.post_update 24 128 example_binarynet_short
  = Ok tt (binarynet_layer.set_Wbin_ [true; false; true; false]
             example_binarynet_short).
Proof.
  apply (post_update_refreshes_prefix 24 128 example_fc_short
           example_binarynet_short example_conv_short);
    vm_compute; lia.
Defined.

(** X2: in each of the three layers, when the float tensor [W_] is longer
    than the store, [post_update()] writes past the end of the store: its
    behaviour is undefined. *)
Theorem post_update_overlong_undefined :
  forall (prec emax : Z) (lf : binarized_fc_layer.t) (lb : binarynet_layer.t)
         (lc : bnn_conv_layer.t),
    (length (binarized_fc_layer.Wbin_ lf)
     < length (W_ (binarized_fc_layer.base_ lf)))%nat ->
    (length (binarynet_layer.Wbin_ lb)
     < length (W_ (binarynet_layer.base_ lb)))%nat ->
    (length (bnn_conv_layer.Wbin_ lc)
     < length (W_ (bnn_conv_layer.base_ lc)))%nat ->
    binarized_fc_layer.post_update prec emax lf = Undefined /\
    binarynet_layer.post_update prec emax lb = Undefined /\
    bnn_conv_layer.post_update prec emax lc = Undefined.
Proof.
  intros prec emax lf lb lc Hf Hb Hc. repeat split.
  - unfold binarized_fc_layer.post_update, bind, gets.
    now rewrite float2bipolar_overlong.
  - unfold binarynet_layer.post_update, bind, gets.
    now rewrite float2bipolar_overlong.
  - unfold bnn_conv_layer.post_update, bind, gets.
    now rewrite float2bipolar_overlong.
Qed.

Lemma post_update_overlong_undefined_witness :
  binarized_fc_layer.post_update 24 128 example_fc_overlong = Undefined /\
  binarynet_layer.post_update 24 128 example_binarynet_overlong = Undefined /\
  bnn_conv_layer.post_update 24 128 example_conv_overlong = Undefined.
Proof.
  apply (post_update_overlong_undefined 24 128 example_fc_overlong
           example_binarynet_overlong example_conv_overlong);
    vm_compute; lia.
Defined.

Lemma refreshed_twice (w : vec_t) (out : list bool) :
  refreshed w (refreshed w out) = refreshed w out.
Proof.
  unfold refreshed. f_equal.
  rewrite drop_app_length'; [reflexivity|symmetry; apply length_fmap].
Qed.

Lemma refreshed_length (w : vec_t) (out : list bool) :
  (length w <= length out)%nat -> length (refreshed w out) = length out.
Proof.
  intros H. unfold refreshed. rewrite length_app, length_fmap, length_drop. lia.
Qed.

(** X3: [post_update()] is idempotent: in each of the three layers, when a
    call returns, a second call returns the same state. *)
Theorem post_update_idempotent :
  forall (prec emax : Z) (lf lf' : binarized_fc_layer.t)
         (lb lb' : binarynet_layer.t) (lc lc' : bnn_conv_layer.t),
    binarized_fc_layer.post_update prec emax lf = Ok tt lf' ->
    binarynet_layer.post_update prec emax lb = Ok tt lb' ->
    bnn_conv_layer.post_update prec emax lc = Ok tt lc' ->
    binarized_fc_layer.post_update prec emax lf' = Ok tt lf' /\
    binarynet_layer.post_update prec emax lb' = Ok tt lb' /\
    bnn_conv_layer.post_update prec emax lc' = Ok tt lc'.
Proof.
  intros prec emax lf lf' lb lb' lc lc' Hf Hb Hc. repeat split.
  - destruct (le_lt_dec (length (W_ (binarized_fc_layer.base_ lf)))
                (length (binarized_fc_layer.Wbin_ lf))) as [Hle|Hgt].
    + unfold binarized_fc_layer.post_update, bind, gets, modify in Hf |- *.
      rewrite float2bipolar_refreshed in Hf by assumption.
      injection Hf as <-. cbn.
      rewrite float2bipolar_refreshed by (rewrite refreshed_length; lia).
      now rewrite refreshed_twice.
    + unfold binarized_fc_layer.post_update, bind, gets in Hf.
      rewrite float2bipolar_overlong in Hf by assumption. discriminate Hf.
  - destruct (le_lt_dec (length (W_ (binarynet_layer.base_ lb)))
                (length (binarynet_layer.Wbin_ lb))) as [Hle|Hgt].
    + unfold binarynet_layer.post_update, bind, gets, modify in Hb |- *.
      rewrite float2bipolar_refreshed in Hb by assumption.
      injection Hb as <-. cbn.
      rewrite float2bipolar_refreshed by (rewrite refreshed_length; lia).
      now rewrite refreshed_twice.
    + unfold binarynet_layer.post_update, bind, gets in Hb.
      rewrite float2bipolar_overlong in Hb by assumption. discriminate Hb.
  - destruct (le_lt_dec (length (W_ (bnn_conv_layer.base_ lc)))
                (length (bnn_conv_layer.Wbin_ lc))) as [Hle|Hgt].
    + unfold bnn_conv_layer.post_update, bind, gets, modify in Hc |- *.
      rewrite float2bipolar_refreshed in Hc by assumption.
      injection Hc as <-. cbn.
      rewrite float2bipolar_refreshed by (rewrite refreshed_length; lia).
      now rewrite refreshed_twice.
    + unfold bnn_conv_layer.post_update, bind, gets in Hc.
      rewrite float2bipolar_overlong in Hc by assumption. discriminate Hc.
Qed.

Lemma post_update_idempotent_witness :
  binarynet_layer.post_update 24 128
    (binarynet_layer.set_Wbin_ [true; false; true; false] example_binarynet_short)
  = Ok tt (binarynet_layer.set_Wbin_ [true; false; true; false]
             example_binarynet_short).
Proof.
  apply (post_update_idempotent 24 128
           example_fc_short
           (binarized_fc_layer.set_Wbin_ [true; false; true; false] example_fc_short)
           example_binarynet_short
           (binarynet_layer.set_Wbin_ [true; false; true; false] example_binarynet_short)
           example_conv_short
           (bnn_conv_layer.set_Wbin_ [true; false; true; false] example_conv_short));
    reflexivity.
Defined.

(** ** What [forward_propagation] reads of its input *)

(** X4: in each of the three layers, [forward_propagation] reads its input
    through the signs only: two input vectors with the same sign pattern
    give the same outcome, in value and in state. *)
Theorem forward_reads_signs_only :
  forall (cbits sbits prec emax : Z) (in1 in2 : vec_t) (index : Z)
         (lf : binarized_fc_layer.t) (lb : binarynet_layer.t)
         (lc : bnn_conv_layer.t),
    non_negative <$> in1 = non_negative <$> in2 ->
    binarized_fc_layer.forward_propagation cbits prec emax in1 index lf
      = binarized_fc_layer.forward_propagation cbits prec emax in2 index lf /\
    binarynet_layer.forward_propagation sbits prec emax in1 index lb
      = binarynet_layer.forward_propagation sbits prec emax in2 index lb /\
    bnn_conv_layer.forward_propagation sbits prec emax in1 index lc
      = bnn_conv_layer.forward_propagation sbits prec emax in2 index lc.
Proof.
  intros cbits sbits prec emax in1 in2 index lf lb lc Heq.
  assert (Hl : length in1 = length in2)
    by (rewrite <- (length_fmap non_negative in1), Heq; apply length_fmap).
  repeat split.
  - unfold binarized_fc_layer.forward_propagation, bind, gets.
    now rewrite (float2bipolar_signs prec emax in1 in2).
  - unfold binarynet_layer.forward_propagation, bind, gets.
    now rewrite (float2bipolar_signs prec emax in1 in2).
  - unfold bnn_conv_layer.forward_propagation, bind, gets.
    now rewrite Hl, (float2bipolar_signs prec emax in1 in2).
Qed.

Lemma forward_reads_signs_only_witness :
  binarized_fc_layer.forward_propagation 32 24 128 example_input 0
    (example_fc identity_activation)
  = binarized_fc_layer.forward_propagation 32 24 128 example_input_scaled 0
      (example_fc identity_activation) /\
  binarynet_layer.forward_propagation 32 24 128 example_input 0
    example_binarynet_2x1
  = binarynet_layer.forward_propagation 32 24 128 example_input_scaled 0
      example_binarynet_2x1 /\
  bnn_conv_layer.forward_propagation 32 24 128 example_image 0 example_conv
  = bnn_conv_layer.forward_propagation 32 24 128 example_image_scaled 0
      example_conv.
Proof.
  split; [|split].
  - apply (forward_reads_signs_only 32 32 24 128 example_input example_input_scaled 0
             (example_fc identity_activation) example_binarynet_2x1 example_conv).
    reflexivity.
  - apply (forward_reads_signs_only 32 32 24 128 example_input example_input_scaled 0
             (example_fc identity_activation) example_binarynet_2x1 example_conv).
    reflexivity.
  - apply (forward_reads_signs_only 32 32 24 128 example_image example_image_scaled 0
             (example_fc identity_activation) example_binarynet_2x1 example_conv).
    reflexivity.
Defined.

(** X5: in the two fully-connected layers, an input vector with more than
    [in_size_] elements makes [forward_propagation] write past the end of
    its bit vector: the behaviour is undefined. *)
Theorem forward_overlong_input_undefined :
  forall (cbits sbits prec emax : Z) (in_ : vec_t) (index : Z)
         (lf : binarized_fc_layer.t) (lb : binarynet_layer.t),
    (Z.to_nat (in_size_ (binarized_fc_layer.base_ lf)) < length in_)%nat ->
    (Z.to_nat (in_size_ (binarynet_layer.base_ lb)) < length in_)%nat ->
    binarized_fc_layer.forward_propagation cbits prec emax in_ index lf = Undefined /\
    binarynet_layer.forward_propagation sbits prec emax in_ index lb = Undefined.
Proof.
  intros cbits sbits prec emax in_ index lf lb Hf Hb. split.
  - unfold binarized_fc_layer.forward_propagation, bind, gets.
    now rewrite float2bipolar_overlong by (now rewrite length_replicate).
  - unfold binarynet_layer.forward_propagation, bind, gets.
    now rewrite float2bipolar_overlong by (now rewrite length_replicate).
Qed.

Lemma forward_overlong_input_undefined_witness :
  binarized_fc_layer.forward_propagation 32 24 128
    (example_input ++ example_input) 0 (example_fc identity_activation)
  = Undefined /\
  binarynet_layer.forward_propagation 32 24 128
    (example_input ++ example_input) 0 example_binarynet_2x1
  = Undefined.
Proof.
  apply (forward_overlong_input_undefined 32 32 24 128
           (example_input ++ example_input) 0
           (example_fc identity_activation) example_binarynet_2x1);
    vm_compute; lia.
Defined.

Lemma refreshed_padded (in_ pad : vec_t) (n : nat) :
  (length in_ + length pad = n)%nat ->
  Forall (fun x => non_negative x = false) pad ->
  refreshed (in_ ++ pad) (replicate n false) = refreshed in_ (replicate n false).
Proof.
  intros Hn Hpad. unfold refreshed.
  rewrite fmap_app, <- app_assoc. f_equal.
  rewrite length_app, !drop_replicate.
  replace (n - (length in_ + length pad))%nat with O by lia.
  replace (n - length in_)%nat with (length pad) by lia.
  rewrite app_nil_r. clear Hn.
  induction Hpad as [|x pad Hx Hpad IH]; [reflexivity|].
  cbn. now rewrite Hx, IH.
Qed.

(** X6: in the two fully-connected layers, an input vector with fewer than
    [in_size_] elements is read as if the missing trailing elements were
    negative. *)
Theorem forward_short_input_padded :
  forall (cbits sbits prec emax : Z) (in_ pad : vec_t) (index : Z)
         (lf : binarized_fc_layer.t) (lb : binarynet_layer.t),
    Forall (fun x => non_negative x = false) pad ->
    (length in_ + length pad
     = Z.to_nat (in_size_ (binarized_fc_layer.base_ lf)))%nat ->
    (length in_ + length pad
     = Z.to_nat (in_size_ (binarynet_layer.base_ lb)))%nat ->
    binarized_fc_layer.forward_propagation cbits prec emax in_ index lf
      = binarized_fc_layer.forward_propagation cbits prec emax (in_ ++ pad) index lf /\
    binarynet_layer.forward_propagation sbits prec emax in_ index lb
      = binarynet_layer.forward_propagation sbits prec emax (in_ ++ pad) index lb.
Proof.
  intros cbits sbits prec emax in_ pad index lf lb Hpad Hf Hb. split.
  - unfold binarized_fc_layer.forward_propagation, bind, gets.
    rewrite !float2bipolar_refreshed
      by (rewrite length_replicate, ?length_app; lia).
    now rewrite (refreshed_padded in_ pad).
  - unfold binarynet_layer.forward_propagation, bind, gets.
    rewrite !float2bipolar_refreshed
      by (rewrite length_replicate, ?length_app; lia).
    now rewrite (refreshed_padded in_ pad).
Qed.

Lemma forward_short_input_padded_witness :
  binarized_fc_layer.forward_propagation 32 24 128 [float_of_Z 24 128 1] 0
    (example_fc identity_activation)
  = binarized_fc_layer.forward_propagation 32 24 128 example_input 0
      (example_fc identity_activation) /\
  binarynet_layer.forward_propagation 32 24 128 [float_of_Z 24 128 1] 0
    example_binarynet_2x1
  = binarynet_layer.forward_propagation 32 24 128 example_input 0
      example_binarynet_2x1.
Proof.
  apply (forward_short_input_padded 32 32 24 128
           [float_of_Z 24 128 1] [float_of_Z 24 128 (-1)] 0
           (example_fc identity_activation) example_binarynet_2x1);
    [repeat constructor|reflexivity|reflexivity].
Defined.

(** ** What an operation leaves alone *)

Lemma preserves_ret {St A} (R : relation St) `{!Reflexive R} (a : A) :
  preserves R (ret a).
Proof. intros s. cbn. reflexivity. Qed.

Lemma preserves_gets {St A} (R : relation St) `{!Reflexive R} (f : St -> A) :
  preserves R (gets f).
Proof. intros s. cbn. reflexivity. Qed.

Lemma preserves_vread {St A} (R : relation St) `{!Reflexive R} (v : list A) i :
  preserves R (vread (St := St) v i).
Proof. intros s. unfold vread. destruct (v !! Z.to_nat i); cbn; [reflexivity|exact I]. Qed.

Lemma preserves_vwrite {St A} (R : relation St) `{!Reflexive R} (v : list A) i x :
  preserves R (vwrite (St := St) v i x).
Proof. intros s. unfold vwrite. destruct (decide _); cbn; [reflexivity|exact I]. Qed.

Lemma preserves_bind {St A B} (R : relation St) `{!Transitive R}
  (m : M St A) (k : A -> M St B) :
  preserves R m -> (forall a, preserves R (k a)) -> preserves R (bind m k).
Proof.
  intros Hm Hk s. unfold bind. specialize (Hm s).
  destruct (m s) as [a s1|msg s1|]; try assumption.
  specialize (Hk a s1). destruct (k a s1) as [b s2|msg s2|]; try exact I.
  - now transitivity s1.
  - now transitivity s1.
Qed.

Lemma preserves_for_from {St A} (R : relation St) `{!PreOrder R}
  (body : Z -> A -> M St A) :
  (forall i a, preserves R (body i a)) ->
  forall n i a, preserves R (for_from n i body a).
Proof.
  intros Hbody. induction n as [|n IH]; intros i a.
  - apply preserves_ret; apply _.
  - cbn [for_from]. apply preserves_bind; [apply _|apply Hbody|].
    intros a'. apply IH.
Qed.

Lemma preserves_for {St A} (R : relation St) `{!PreOrder R}
  (body : Z -> A -> M St A) hi a :
  (forall i a, preserves R (body i a)) -> preserves R (for_ hi body a).
Proof. intros H. unfold for_. now apply preserves_for_from. Qed.

Lemma preserves_for_each {St} (R : relation St) `{!PreOrder R}
  (body : Z -> M St unit) hi :
  (forall i, preserves R (body i)) -> preserves R (for_each hi body).
Proof. intros H. unfold for_each. apply preserves_for; [apply _|]. intros i _. apply H. Qed.

Lemma preserves_lift {S T A} (Rs : relation S) (Rt : relation T)
  (get : T -> S) (set : S -> T -> T) (m : M S A) :
  (forall t s, Rs (get t) s -> Rt t (set s t)) ->
  preserves Rs m -> preserves Rt (lift get set m).
Proof.
  intros Hset Hm t. unfold lift. specialize (Hm (get t)).
  destruct (m (get t)) as [a s|msg s|]; try exact I; now apply Hset.
Qed.

Lemma preserves_float2bipolar {St} (R : relation St) `{!PreOrder R}
  prec emax in_ out :
  preserves R (float2bipolar (St := St) prec emax in_ out).
Proof.
  unfold float2bipolar. apply preserves_for; [apply _|].
  intros i a. apply preserves_bind; [apply _|apply preserves_vread; apply _|].
  intros x. apply preserves_vwrite; apply _.
Qed.

#[local] Instance same_shape_preorder : PreOrder same_shape.
Proof.
  split.
  - intros b. apply same_shape_refl.
  - intros b1 b2 b3. apply same_shape_trans.
Qed.

Lemma preserves_a_read index i : preserves same_shape (a_read index i).
Proof.
  unfold a_read.
  apply preserves_bind; [apply _|apply preserves_gets; apply _|]. intros l.
  apply preserves_bind; [apply _|apply preserves_vread; apply _|]. intros a.
  apply preserves_vread; apply _.
Qed.

Lemma preserves_a_write index i x : preserves same_shape (a_write index i x).
Proof.
  intros b. unfold a_write, bind, gets, modify, vread, vwrite, ret, undefined.
  destruct (a_ b !! Z.to_nat index) as [abuf|] eqn:E; [|exact I].
  destruct (decide (Z.to_nat i < length abuf)%nat); [|exact I].
  destruct (decide (Z.to_nat index < length (a_ b))%nat); [|exact I].
  apply same_shape_a_write; [apply same_shape_refl|assumption].
Qed.

Lemma preserves_out_write index i x : preserves same_shape (out_write index i x).
Proof.
  intros b. unfold out_write, bind, gets, modify, vread, vwrite, ret, undefined.
  destruct (output_ b !! Z.to_nat index) as [obuf|] eqn:E; [|exact I].
  destruct (decide (Z.to_nat i < length obuf)%nat); [|exact I].
  destruct (decide (Z.to_nat index < length (output_ b))%nat); [|exact I].
  apply same_shape_out_write; [apply same_shape_refl|assumption].
Qed.

#[local] Instance binarynet_scratch_only_preorder : PreOrder binarynet_scratch_only.
Proof.
  split.
  - intros l. exact (conj eq_refl (conj eq_refl (conj eq_refl (same_shape_refl _)))).
  - intros l1 l2 l3 (H1 & H2 & H3 & H4) (G1 & G2 & G3 & G4).
    unfold binarynet_scratch_only. rewrite G1, G2, G3.
    exact (conj H1 (conj H2 (conj H3 (same_shape_trans _ _ _ H4 G4)))).
Qed.

#[local] Instance fc_scratch_only_preorder : PreOrder fc_scratch_only.
Proof.
  split.
  - intros l. exact (conj eq_refl (conj eq_refl (same_shape_refl _))).
  - intros l1 l2 l3 (H1 & H2 & H3) (G1 & G2 & G3).
    unfold fc_scratch_only. rewrite G1, G2.
    exact (conj H1 (conj H2 (same_shape_trans _ _ _ H3 G3))).
Qed.

#[local] Instance conv_scratch_only_preorder : PreOrder conv_scratch_only.
Proof.
  split.
  - intros l. split; [now destruct l|apply same_shape_refl].
  - intros l1 l2 l3 (H1 & H2) (G1 & G2). split.
    + rewrite <- H1 at 2. rewrite <- G1. reflexivity.
    + exact (same_shape_trans _ _ _ H2 G2).
Qed.

Lemma binarynet_in_base_scratch {A} (m : M base A) :
  preserves same_shape m ->
  preserves binarynet_scratch_only (binarynet_layer.in_base m).
Proof.
  apply preserves_lift. intros l b Hb.
  exact (conj eq_refl (conj eq_refl (conj eq_refl Hb))).
Qed.

Lemma fc_in_base_scratch {A} (m : M base A) :
  preserves same_shape m ->
  preserves fc_scratch_only (binarized_fc_layer.in_base m).
Proof.
  apply preserves_lift. intros l b Hb.
  exact (conj eq_refl (conj eq_refl Hb)).
Qed.

Lemma conv_in_base_scratch {A} (m : M base A) :
  preserves same_shape m ->
  preserves conv_scratch_only (bnn_conv_layer.in_base m).
Proof.
  apply preserves_lift. intros l b Hb. split; [now destruct l|assumption].
Qed.

Lemma preserves_accumulate {St} (R : relation St) `{!Reflexive R} pop w x acc :
  preserves R (bnn_conv_layer.accumulate (St := St) pop w x acc).
Proof.
  intros s. unfold bnn_conv_layer.accumulate, bnn_conv_layer.int_add.
  destruct pop; destruct (in_int _); cbn; try exact I; reflexivity.
Qed.

Lemma fc_forward_scratch_only cbits prec emax in_ index :
  preserves fc_scratch_only
    (binarized_fc_layer.forward_propagation cbits prec emax in_ index).
Proof.
  unfold binarized_fc_layer.forward_propagation.
  repeat first
    [ apply preserves_gets; apply _
    | apply preserves_ret; apply _
    | apply preserves_vread; apply _
    | apply preserves_float2bipolar; apply _
    | apply fc_in_base_scratch;
      first [apply preserves_a_read|apply preserves_a_write|apply preserves_out_write]
    | apply preserves_for_each; [apply _|intros ?]
    | apply preserves_bind; [apply _| |intros ?] ].
Qed.

Lemma conv_forward_scratch_only sbits prec emax in_raw worker_index :
  preserves conv_scratch_only
    (bnn_conv_layer.forward_propagation sbits prec emax in_raw worker_index).
Proof.
  unfold bnn_conv_layer.forward_propagation.
  repeat first
    [ apply preserves_gets; apply _
    | apply preserves_ret; apply _
    | apply preserves_vread; apply _
    | apply preserves_float2bipolar; apply _
    | apply preserves_accumulate; apply _
    | apply conv_in_base_scratch; apply preserves_out_write
    | apply preserves_for_each; [apply _|intros ?]
    | apply preserves_for; [apply _|intros ? ?]
    | apply preserves_bind; [apply _| |intros ?]
    | progress cbv zeta ].
Qed.

Lemma binarynet_kernel_scratch_only sbits prec emax in_bin index isz osz :
  preserves binarynet_scratch_only
    (for_each osz
       (fun i =>
          binarynet_layer.in_base (a_write index i (float_of_Z prec emax 0)) ;;;
          for_each isz
            (fun c =>
               wb <- gets binarynet_layer.Wbin_ ;;
               w <- vread wb (wrap size_t_bits (wrap sbits (wrap sbits (c * osz) + i))) ;;
               x <- vread in_bin c ;;
               ai <- binarynet_layer.in_base (a_read index i) ;;
               binarynet_layer.in_base
                 (a_write index i
                    (fadd prec emax ai
                       (float_of_Z prec emax (if Bool.eqb w x then 1 else 0))))) ;;;
          ai <- binarynet_layer.in_base (a_read index i) ;;
          thrs <- gets binarynet_layer.Threshold_ ;;
          thr <- vread thrs i ;;
          binarynet_layer.in_base
            (out_write index i
               (float_of_Z prec emax
                  (if fge ai (float_of_Z prec emax thr) then 1 else -1)))) ;;;
     outs <- gets (fun l => output_ (binarynet_layer.base_ l)) ;;
     out <- vread outs index ;;
     nx <- gets (fun l => next_ (binarynet_layer.base_ l)) ;;
     ret (match nx with Some f => f out index | None => out end)).
Proof.
  repeat first
    [ apply preserves_gets; apply _
    | apply preserves_ret; apply _
    | apply preserves_vread; apply _
    | apply binarynet_in_base_scratch;
      first [apply preserves_a_read|apply preserves_a_write|apply preserves_out_write]
    | apply preserves_for_each; [apply _|intros ?]
    | apply preserves_bind; [apply _| |intros ?] ].
Qed.

(** X7: a forward pass that returns has changed nothing but the contents
    of the scratch vectors: in the binarized fully-connected layer, in the
    binarynet layer without offload hook and in the convolution layer, the
    weight bits, the thresholds, the sizes, the float weights and the link
    to the next layer are what they were, and every scratch vector has kept
    its length. *)
Theorem forward_changes_scratch_only :
  forall (cbits sbits prec emax : Z) (inf inb inc : vec_t) (index : Z)
         (lf lf' : binarized_fc_layer.t) (lb lb' : binarynet_layer.t)
         (lc lc' : bnn_conv_layer.t) (outf outb outc : vec_t),
    binarized_fc_layer.forward_propagation cbits prec emax inf index lf
      = Ok outf lf' ->
    binarynet_layer.Offload_ lb = None ->
    binarynet_layer.forward_propagation sbits prec emax inb index lb
      = Ok outb lb' ->
    bnn_conv_layer.forward_propagation sbits prec emax inc index lc
      = Ok outc lc' ->
    (binarized_fc_layer.Wbin_ lf' = binarized_fc_layer.Wbin_ lf /\
     same_shape (binarized_fc_layer.base_ lf) (binarized_fc_layer.base_ lf')) /\
    (binarynet_layer.Wbin_ lb' = binarynet_layer.Wbin_ lb /\
     binarynet_layer.Threshold_ lb' = binarynet_layer.Threshold_ lb /\
     same_shape (binarynet_layer.base_ lb) (binarynet_layer.base_ lb')) /\
    (bnn_conv_layer.set_base_ (bnn_conv_layer.base_ lc) lc' = lc /\
     same_shape (bnn_conv_layer.base_ lc) (bnn_conv_layer.base_ lc')).
Proof.
  intros cbits sbits prec emax inf inb inc index lf lf' lb lb' lc lc'
    outf outb outc Hf Hhook Hb Hc.
  split; [|split].
  - pose proof (fc_forward_scratch_only cbits prec emax inf index lf) as H.
    rewrite Hf in H. destruct H as (H1 & _ & H3). now split.
  - unfold binarynet_layer.forward_propagation in Hb.
    unfold bind at 1 2 3, gets at 1 2 in Hb.
    pose proof (preserves_float2bipolar binarynet_scratch_only prec emax inb
                  (replicate (Z.to_nat (in_size_ (binarynet_layer.base_ lb))) false)
                  lb) as H1.
    destruct (float2bipolar prec emax inb _ lb) as [in_bin s1| |];
      try discriminate Hb.
    unfold bind at 1, gets at 1 in Hb.
    destruct H1 as (G1 & G2 & G3 & G4).
    rewrite G3, Hhook in Hb.
    pose proof (binarynet_kernel_scratch_only sbits prec emax in_bin index
                  (in_size_ (binarynet_layer.base_ lb))
                  (out_size_ (binarynet_layer.base_ lb)) s1) as H2.
    match type of H2 with
    | match ?t with _ => _ end =>
        replace t with (Ok (St := binarynet_layer.t) outb lb') in H2
          by (symmetry; exact Hb)
    end.
    destruct H2 as (K1 & K2 & K3 & K4).
    rewrite K1, K2, G1, G2.
    exact (conj eq_refl (conj eq_refl (same_shape_trans _ _ _ G4 K4))).
  - pose proof (conv_forward_scratch_only sbits prec emax inc index lc) as H.
    rewrite Hc in H. exact H.
Qed.

Lemma forward_changes_scratch_only_witness :
  exists outb lb',
    binarynet_layer.forward_propagation 32 24 128 example_input 0
      example_binarynet_2x1 = Ok outb lb' /\
    binarynet_layer.Wbin_ lb' = binarynet_layer.Wbin_ example_binarynet_2x1 /\
    binarynet_layer.Threshold_ lb'
      = binarynet_layer.Threshold_ example_binarynet_2x1 /\
    same_shape (binarynet_layer.base_ example_binarynet_2x1)
      (binarynet_layer.base_ lb').
Proof.
  eexists _, _. split; [vm_compute; reflexivity|].
  eapply (forward_changes_scratch_only 32 32 24 128
            example_input example_input example_image 0
            (example_fc identity_activation) _ example_binarynet_2x1 _
            example_conv _);
    [vm_compute; reflexivity|reflexivity|vm_compute; reflexivity
    |vm_compute; reflexivity].
Defined.

(** ** The offload path *)

Lemma insert_next {A} (xs ys : list A) (i : nat) (x : A) :
  xs !! i = Some x -> (i < length ys)%nat ->
  <[i := x]> (take i xs ++ drop i ys) = take (S i) xs ++ drop (S i) ys.
Proof.
  intros Hx Hy.
  assert (Hi : (i < length xs)%nat) by (now apply lookup_lt_Some in Hx).
  rewrite insert_app_r_alt by (rewrite length_take; lia).
  rewrite length_take. replace (i - i `min` length xs)%nat with O by lia.
  rewrite (take_S_r _ _ _ Hx), <- app_assoc. f_equal.
  destruct (lookup_lt_is_Some_2 _ _ Hy) as [z Hz].
  rewrite (drop_S _ _ _ Hz). reflexivity.
Qed.

Lemma for_each_to_nat {St} (hi : Z) (body : Z -> M St unit) :
  for_each hi body = for_each (Z.of_nat (Z.to_nat hi)) body.
Proof. unfold for_each, for_. now rewrite Nat2Z.id. Qed.

(** X8: with an offload hook, [forward_propagation] hands the hook the
    sign bits of the input, the thresholds, the weight bits and [out_size_]
    cleared result bits; the thresholds and weight bits of the layer become
    what the hook left in its arguments, and the output vector is the image
    of the first [out_size_] result bits, [+1] for [true] and [-1] for
    [false].  The accumulators [a_] are not touched.  The hook must leave
    at least [out_size_] result bits. *)
Theorem forward_offload_output :
  forall (sbits prec emax : Z) (lb : binarynet_layer.t)
         (hook : binarynet_layer.BinMatVecMult) (in_ : vec_t) (index : Z)
         (inb' : list bool) (thrs' : list Z) (wb' res : list bool),
    let isz := Z.to_nat (in_size_ (binarynet_layer.base_ lb)) in
    let osz := Z.to_nat (out_size_ (binarynet_layer.base_ lb)) in
    binarynet_layer.Offload_ lb = Some hook ->
    (length in_ <= isz)%nat ->
    scratch_ready (binarynet_layer.base_ lb) index ->
    hook (refreshed in_ (replicate isz false)) (binarynet_layer.Threshold_ lb)
      (binarynet_layer.Wbin_ lb) (replicate osz false)
      = (inb', thrs', wb', res) ->
    (osz <= length res)%nat ->
    exists out l',
      binarynet_layer.forward_propagation sbits prec emax in_ index lb
        = Ok out l' /\
      binarynet_layer.Threshold_ l' = thrs' /\
      binarynet_layer.Wbin_ l' = wb' /\
      output_ (binarynet_layer.base_ l') !! Z.to_nat index
        = Some (bits_to_floats prec emax (take osz res)) /\
      a_ (binarynet_layer.base_ l') = a_ (binarynet_layer.base_ lb) /\
      (next_ (binarynet_layer.base_ lb) = None ->
       out = bits_to_floats prec emax (take osz res)).
Proof.
  intros sbits prec emax lb hook in_ index inb' thrs' wb' res isz osz
    Hhook Hin (_ & Hosz & _ & _ & obuf0 & Hob & Hol0) Hcall Hres.
  assert (Hol : length obuf0 = osz) by (subst osz; lia).
  set (img := bits_to_floats prec emax).
  set (b0 := binarynet_layer.base_ lb).
  set (s0 := binarynet_layer.set_Wbin_ wb' (binarynet_layer.set_Threshold_ thrs' lb)).
  set (st := fun i : nat =>
    binarynet_layer.set_base_
      (set_output_
         (fun _ => <[Z.to_nat index := img (take i res) ++ drop i obuf0]> (output_ b0))
         b0) s0).
  assert (Hidx : (Z.to_nat index < length (output_ b0))%nat)
    by (now apply lookup_lt_Some in Hob).
  destruct (for_each_inv (fun i s => s = st (Z.to_nat i))
              (fun i =>
                 r <- vread res i ;;
                 binarynet_layer.in_base
                   (out_write index i (float_of_Z prec emax (if r then 1 else -1))))
              (Z.of_nat osz) s0) as (s' & Hrun & ->).
  - lia.
  - subst st. cbn beta. change (Z.to_nat 0) with O. rewrite take_0, drop_0.
    subst img b0. unfold bits_to_floats. cbn [app fmap list_fmap].
    rewrite (list_insert_id _ _ _ Hob).
    subst s0. destruct lb as [[] ? ? ?]. reflexivity.
  - intros i s Hi ->.
    assert (Hir : (Z.to_nat i < length res)%nat) by lia.
    destruct (lookup_lt_is_Some_2 _ _ Hir) as [r Hr].
    eexists. split.
    + erewrite bind_Ok by (apply vread_Ok; exact Hr).
      apply lift_Ok. apply out_write_Ok.
      * subst st. cbn. now apply list_lookup_insert_eq.
      * rewrite length_app, length_drop. unfold img, bits_to_floats.
        rewrite length_fmap, length_take. lia.
    + subst st. cbn. unfold binarynet_layer.set_base_. cbn. f_equal.
      unfold set_output_. cbn. f_equal.
      rewrite list_insert_insert_eq. f_equal.
      replace (Z.to_nat (i + 1)) with (S (Z.to_nat i)) by lia.
      unfold img, bits_to_floats. rewrite !fmap_take.
      apply insert_next; [now rewrite list_lookup_fmap, Hr|lia].
  - rewrite Nat2Z.id in Hrun.
    assert (Hfinal : output_ (binarynet_layer.base_ (st osz)) !! Z.to_nat index
                     = Some (img (take osz res))).
    { subst st. cbn. rewrite list_lookup_insert_eq by assumption.
      rewrite drop_ge by lia. now rewrite app_nil_r. }
    exists (match next_ b0 with
            | Some f => f (img (take osz res)) index
            | None => img (take osz res)
            end), (st osz).
    split; [|repeat split; try assumption].
    + unfold binarynet_layer.forward_propagation.
      erewrite bind_Ok by (unfold gets; reflexivity).
      erewrite bind_Ok by (unfold gets; reflexivity).
      erewrite bind_Ok
        by (apply float2bipolar_refreshed; now rewrite length_replicate).
      erewrite bind_Ok by (unfold gets; reflexivity).
      rewrite Hhook.
      erewrite bind_Ok.
      2:{ erewrite bind_Ok by (unfold gets; reflexivity).
          erewrite bind_Ok by (unfold gets; reflexivity).
          fold isz osz. rewrite Hcall.
          erewrite bind_Ok by (unfold modify; reflexivity).
          erewrite bind_Ok by (unfold modify; reflexivity).
          rewrite (for_each_to_nat (out_size_ (binarynet_layer.base_ lb))).
          exact Hrun. }
      erewrite bind_Ok by (unfold gets; reflexivity).
      erewrite bind_Ok by (apply vread_Ok; exact Hfinal).
      erewrite bind_Ok by (unfold gets; reflexivity).
      reflexivity.
    + intros Hnone. fold b0 in Hnone. now rewrite Hnone.
Qed.

Lemma forward_offload_output_witness :
  exists out l',
    binarynet_layer.forward_propagation 32 24 128 example_input 0
      example_binarynet_hooked = Ok out l' /\
    binarynet_layer.Threshold_ l' = [0; 0] /\
    binarynet_layer.Wbin_ l' = replicate 4 false /\
    output_ (binarynet_layer.base_ l') !! Z.to_nat 0
      = Some (bits_to_floats 24 128 (take 2 [true; false])) /\
    a_ (binarynet_layer.base_ l')
      = a_ (binarynet_layer.base_ example_binarynet_hooked) /\
    (next_ (binarynet_layer.base_ example_binarynet_hooked) = None ->
     out = bits_to_floats 24 128 (take 2 [true; false])).
Proof.
  apply (forward_offload_output 32 24 128 example_binarynet_hooked example_hook
           example_input 0
           [true; false] [0; 0] (replicate 4 false) [true; false]);
    try reflexivity; try (simpl; lia).
  unfold scratch_ready. cbn.
  refine (conj _ (conj _ (conj _ (conj _ _)))); try lia;
    eexists; (split; [reflexivity|reflexivity]).
Defined.

(** ** Folding a batch normalisation, in general *)

Lemma fold_run (sbits prec emax : Z) (l : binarynet_layer.t) (index : Z)
  (mean gamma invstd beta : float_t) (t : Z) :
  let osz := out_size_ (binarynet_layer.base_ l) in
  let isz := in_size_ (binarynet_layer.base_ l) in
  let flip := flt (fmul prec emax gamma invstd) (float_of_Z prec emax 0) in
  sbits <= 64 ->
  trunc (fsub prec emax mean (fdiv prec emax beta (fmul prec emax gamma invstd)))
    = Some t ->
  in_int t = true ->
  (flip = true -> in_int (- t) = true) ->
  0 <= index < osz ->
  0 <= isz < 2 ^ sbits ->
  isz * osz <= Z.of_nat (length (binarynet_layer.Wbin_ l)) ->
  isz * osz <= 2 ^ sbits ->
  osz <= Z.of_nat (length (binarynet_layer.Threshold_ l)) ->
  exists l',
    binarynet_layer.set_threshold_from_batchnorm sbits prec emax
      index mean gamma invstd beta l = Ok tt l' /\
    binarynet_layer.base_ l' = binarynet_layer.base_ l /\
    binarynet_layer.Offload_ l' = binarynet_layer.Offload_ l /\
    binarynet_layer.Threshold_ l'
      = <[Z.to_nat index :=
            wrap size_t_bits (wrap size_t_bits (if flip then - t else t) + isz) / 2]>
          (binarynet_layer.Threshold_ l) /\
    length (binarynet_layer.Wbin_ l') = length (binarynet_layer.Wbin_ l) /\
    (forall c, 0 <= c < isz ->
       binarynet_layer.Wbin_ l' !! Z.to_nat (c * osz + index)
       = xorb flip <$> binarynet_layer.Wbin_ l !! Z.to_nat (c * osz + index)) /\
    (forall j : nat,
       (forall c, 0 <= c < isz -> j <> Z.to_nat (c * osz + index)) ->
       binarynet_layer.Wbin_ l' !! j = binarynet_layer.Wbin_ l !! j).
Proof.
  intros osz isz flip Hsb Htr Hint Hneg Hidx Hisz Hlen Hfit Hthr.
  unfold binarynet_layer.set_threshold_from_batchnorm.
  destruct flip eqn:Hflip; subst flip.
  - destruct (flip_column sbits l index isz) as
      (l1 & Hloop & Hb1 & Ht1 & Ho1 & Hl1 & Hcol & Hrest);
      try (fold osz; lia).
    exists (binarynet_layer.set_Threshold_
              (<[Z.to_nat index :=
                   wrap size_t_bits (wrap size_t_bits (- t) + isz) / 2]>
                 (binarynet_layer.Threshold_ l)) l1).
    refine (conj _ (conj Hb1 (conj Ho1 (conj _ (conj Hl1 (conj _ Hrest)))))).
    + cbv [bind ret gets modify float_to_int] in Hloop |- *.
      rewrite Htr. cbv beta iota. rewrite Hint. cbv beta iota.
      rewrite Hflip. cbv beta iota. rewrite (Hneg eq_refl). cbv beta iota.
      fold isz. rewrite Hloop.
      rewrite vwrite_Ok by (rewrite Ht1; lia).
      unfold binarynet_layer.fan_in_size. rewrite Hb1, Ht1. reflexivity.
    + reflexivity.
    + intros c Hc. etransitivity; [exact (Hcol c Hc)|].
      destruct (binarynet_layer.Wbin_ l !! _); reflexivity.
  - exists (binarynet_layer.set_Threshold_
              (<[Z.to_nat index :=
                   wrap size_t_bits (wrap size_t_bits t + isz) / 2]>
                 (binarynet_layer.Threshold_ l)) l).
    refine (conj _ (conj eq_refl (conj eq_refl (conj eq_refl
              (conj eq_refl (conj _ (fun _ _ => eq_refl))))))).
    + cbv [bind ret gets modify float_to_int].
      rewrite Htr. cbv beta iota. rewrite Hint. cbv beta iota.
      rewrite Hflip. cbv beta iota.
      rewrite vwrite_Ok by lia. reflexivity.
    + intros c Hc. cbn. destruct (_ !! _); reflexivity.
Qed.

Lemma fold_stored_value (t isz : Z) :
  - 2 ^ 64 <= t + isz < 2 ^ 64 ->
  wrap size_t_bits (wrap size_t_bits t + isz) / 2
  = (t + isz) / 2 + (if t + isz <? 0 then 2 ^ 63 else 0).
Proof.
  intros H. unfold wrap, size_t_bits.
  rewrite Zplus_mod_idemp_l.
  destruct (Z.ltb_spec (t + isz) 0) as [Hn|Hp].
  - replace ((t + isz) mod 2 ^ 64) with (t + isz + 2 ^ 64).
    + change (2 ^ 64) with (2 ^ 63 * 2). now rewrite Z.div_add by lia.
    + apply Z.mod_unique with (q := -1); lia.
  - rewrite Z.mod_small by lia. lia.
Qed.

(** X9: for any batch-normalisation parameters whose folded value
    [mean - beta / (gamma * invstd)] truncates to an [int] [t],
    [set_threshold_from_batchnorm] returns; it changes nothing but entry
    [index] of [Threshold_] and column [index] of [Wbin_].  With
    [t' = -t] when [gamma * invstd < 0] and [t' = t] otherwise, the entry
    becomes [(t' + fan_in) / 2] computed in [size_t]; each bit of the
    column is negated when [gamma * invstd < 0] and kept otherwise. *)
Theorem threshold_fold_general :
  forall (sbits prec emax : Z) (l : binarynet_layer.t) (index : Z)
         (mean gamma invstd beta : float_t) (t : Z),
    let osz := out_size_ (binarynet_layer.base_ l) in
    let isz := in_size_ (binarynet_layer.base_ l) in
    let flip := flt (fmul prec emax gamma invstd) (float_of_Z prec emax 0) in
    sbits <= 64 ->
    trunc (fsub prec emax mean
             (fdiv prec emax beta (fmul prec emax gamma invstd))) = Some t ->
    in_int t = true ->
    (flip = true -> in_int (- t) = true) ->
    0 <= index < osz ->
    0 <= isz < 2 ^ sbits ->
    isz * osz <= Z.of_nat (length (binarynet_layer.Wbin_ l)) ->
    isz * osz <= 2 ^ sbits ->
    osz <= Z.of_nat (length (binarynet_layer.Threshold_ l)) ->
    exists l',
      binarynet_layer.set_threshold_from_batchnorm sbits prec emax
        index mean gamma invstd beta l = Ok tt l' /\
      binarynet_layer.base_ l' = binarynet_layer.base_ l /\
      binarynet_layer.Offload_ l' = binarynet_layer.Offload_ l /\
      binarynet_layer.Threshold_ l'
        = <[Z.to_nat index :=
              wrap size_t_bits
                (wrap size_t_bits (if flip then - t else t) + isz) / 2]>
            (binarynet_layer.Threshold_ l) /\
      length (binarynet_layer.Wbin_ l') = length (binarynet_layer.Wbin_ l) /\
      (forall c, 0 <= c < isz ->
         binarynet_layer.Wbin_ l' !! Z.to_nat (c * osz + index)
         = xorb flip <$> binarynet_layer.Wbin_ l !! Z.to_nat (c * osz + index)) /\
      (forall j : nat,
         (forall c, 0 <= c < isz -> j <> Z.to_nat (c * osz + index)) ->
         binarynet_layer.Wbin_ l' !! j = binarynet_layer.Wbin_ l !! j).
Proof. intros. now apply fold_run. Qed.

Lemma threshold_fold_general_witness :
  exists l',
    binarynet_layer.set_threshold_from_batchnorm 32 24 128
      1 (float_of_Z 24 128 10) (float_of_Z 24 128 2)
      (float_of_Z 24 128 1) (float_of_Z 24 128 4) example_binarynet
      = Ok tt l' /\
    binarynet_layer.base_ l' = binarynet_layer.base_ example_binarynet /\
    binarynet_layer.Offload_ l' = binarynet_layer.Offload_ example_binarynet /\
    binarynet_layer.Threshold_ l'
      = <[Z.to_nat 1 :=
            wrap size_t_bits (wrap size_t_bits (if false then - 8 else 8) + 4) / 2]>
          (binarynet_layer.Threshold_ example_binarynet) /\
    length (binarynet_layer.Wbin_ l')
      = length (binarynet_layer.Wbin_ example_binarynet) /\
    (forall c, 0 <= c < 4 ->
       binarynet_layer.Wbin_ l' !! Z.to_nat (c * 2 + 1)
       = xorb false <$> binarynet_layer.Wbin_ example_binarynet
                          !! Z.to_nat (c * 2 + 1)) /\
    (forall j : nat,
       (forall c, 0 <= c < 4 -> j <> Z.to_nat (c * 2 + 1)) ->
       binarynet_layer.Wbin_ l' !! j
       = binarynet_layer.Wbin_ example_binarynet !! j).
Proof.
  apply (threshold_fold_general 32 24 128 example_binarynet 1
           (float_of_Z 24 128 10) (float_of_Z 24 128 2)
           (float_of_Z 24 128 1) (float_of_Z 24 128 4) 8).
  - lia.
  - vm_compute. reflexivity.
  - reflexivity.
  - vm_compute. discriminate.
  - now vm_compute.
  - now vm_compute.
  - now vm_compute.
  - now vm_compute.
  - now vm_compute.
Defined.

(** X10: the threshold that [set_threshold_from_batchnorm] stores is
    [(t' + fan_in) / 2] exactly when [t' + fan_in] is not negative, and
    that value plus [2^63] when it is negative, where [t'] is the folded
    [int] threshold after the sign adjustment: the sum is evaluated in
    [size_t], so a negative sum wraps before it is halved. *)
Theorem threshold_fold_stored_value :
  forall (sbits prec emax : Z) (l : binarynet_layer.t) (index : Z)
         (mean gamma invstd beta : float_t) (t : Z),
    let osz := out_size_ (binarynet_layer.base_ l) in
    let isz := in_size_ (binarynet_layer.base_ l) in
    let flip := flt (fmul prec emax gamma invstd) (float_of_Z prec emax 0) in
    let t' := if flip then - t else t in
    sbits <= 64 ->
    trunc (fsub prec emax mean
             (fdiv prec emax beta (fmul prec emax gamma invstd))) = Some t ->
    in_int t = true ->
    (flip = true -> in_int (- t) = true) ->
    0 <= index < osz ->
    0 <= isz < 2 ^ sbits ->
    isz < 2 ^ 63 ->
    isz * osz <= Z.of_nat (length (binarynet_layer.Wbin_ l)) ->
    isz * osz <= 2 ^ sbits ->
    osz <= Z.of_nat (length (binarynet_layer.Threshold_ l)) ->
    exists l',
      binarynet_layer.set_threshold_from_batchnorm sbits prec emax
        index mean gamma invstd beta l = Ok tt l' /\
      binarynet_layer.Threshold_ l' !! Z.to_nat index
        = Some ((t' + isz) / 2 + (if t' + isz <? 0 then 2 ^ 63 else 0)).
Proof.
  intros sbits prec emax l index mean gamma invstd beta t osz isz flip t'
    Hsb Htr Hint Hneg Hidx Hisz Hisz63 Hlen Hfit Hthr.
  destruct (fold_run sbits prec emax l index mean gamma invstd beta t)
    as (l' & Hrun & _ & _ & Ht & _); try assumption.
  exists l'. split; [exact Hrun|].
  rewrite Ht, list_lookup_insert_eq by lia. f_equal.
  fold isz flip t'. apply fold_stored_value.
  assert (Hr : in_int t' = true)
    by (subst t'; destruct flip; [now apply Hneg|assumption]).
  unfold in_int, INT_MIN, INT_MAX, int_bits in Hr.
  apply andb_prop in Hr as [H1 H2].
  apply Z.leb_le in H1, H2. cbn in H1, H2. lia.
Qed.

Lemma threshold_fold_stored_value_witness :
  exists l',
    binarynet_layer.set_threshold_from_batchnorm 32 24 128
      1 (float_of_Z 24 128 10) (float_of_Z 24 128 (-2))
      (float_of_Z 24 128 1) (float_of_Z 24 128 4) example_binarynet
      = Ok tt l' /\
    binarynet_layer.Threshold_ l' !! Z.to_nat 1
      = Some (((if true then - 12 else 12) + 4) / 2
              + (if (if true then - 12 else 12) + 4 <? 0 then 2 ^ 63 else 0)).
Proof.
  apply (threshold_fold_stored_value 32 24 128 example_binarynet 1
           (float_of_Z 24 128 10) (float_of_Z 24 128 (-2))
           (float_of_Z 24 128 1) (float_of_Z 24 128 4) 12).
  - lia.
  - vm_compute. reflexivity.
  - reflexivity.
  - reflexivity.
  - now vm_compute.
  - now vm_compute.
  - now vm_compute.
  - now vm_compute.
  - now vm_compute.
  - now vm_compute.
Defined.

(** X11: [set_threshold_from_batchnorm] is not idempotent on the weights.
    With [gamma * invstd < 0], a second call with the same arguments
    negates column [index] again: [Wbin_] is back to what it was before
    the first call, while [Threshold_] is as the first call left it. *)
Theorem threshold_fold_twice_restores_weights :
  forall (sbits prec emax : Z) (l : binarynet_layer.t) (index : Z)
         (mean gamma invstd beta : float_t) (t : Z),
    let osz := out_size_ (binarynet_layer.base_ l) in
    let isz := in_size_ (binarynet_layer.base_ l) in
    sbits <= 64 ->
    trunc (fsub prec emax mean
             (fdiv prec emax beta (fmul prec emax gamma invstd))) = Some t ->
    in_int t = true ->
    in_int (- t) = true ->
    flt (fmul prec emax gamma invstd) (float_of_Z prec emax 0) = true ->
    0 <= index < osz ->
    0 < isz < 2 ^ sbits ->
    isz * osz <= Z.of_nat (length (binarynet_layer.Wbin_ l)) ->
    isz * osz <= 2 ^ sbits ->
    osz <= Z.of_nat (length (binarynet_layer.Threshold_ l)) ->
    exists l' l'',
      binarynet_layer.set_threshold_from_batchnorm sbits prec emax
        index mean gamma invstd beta l = Ok tt l' /\
      binarynet_layer.set_threshold_from_batchnorm sbits prec emax
        index mean gamma invstd beta l' = Ok tt l'' /\
      binarynet_layer.Wbin_ l' <> binarynet_layer.Wbin_ l /\
      binarynet_layer.Wbin_ l'' = binarynet_layer.Wbin_ l /\
      binarynet_layer.Threshold_ l'' = binarynet_layer.Threshold_ l'.
Proof.
  intros sbits prec emax l index mean gamma invstd beta t osz isz
    Hsb Htr Hint Hneg Hflip Hidx Hisz Hlen Hfit Hthr.
  destruct (fold_run sbits prec emax l index mean gamma invstd beta t)
    as (l' & Hrun & Hb & Ho & Ht & Hl & Hcol & Hrest); try assumption;
    [intros _; assumption|fold isz; lia|].
  destruct (fold_run sbits prec emax l' index mean gamma invstd beta t)
    as (l'' & Hrun' & Hb' & Ho' & Ht' & Hl' & Hcol' & Hrest'); try assumption;
    try (rewrite ?Hb, ?Hl, ?Ht, ?length_insert; assumption);
    [intros _; assumption|rewrite Hb; fold isz; lia|].
  rewrite Hb in Hcol', Hrest', Ht'. fold osz isz in Hcol, Hrest, Hcol', Hrest', Ht, Ht'.
  rewrite Hflip in Hcol, Hcol', Ht, Ht'.
  exists l', l''. split; [exact Hrun|]. split; [exact Hrun'|]. split; [|split].
  - intros Heq.
    specialize (Hcol 0 ltac:(lia)). rewrite Heq in Hcol.
    destruct (binarynet_layer.Wbin_ l !! _) as [[]|] eqn:E; try discriminate.
    apply lookup_ge_None in E. nia.
  - apply list_eq. intros j.
    destruct (decide (Exists (fun c => j = Z.to_nat (c * osz + index)) (seqZ 0 isz)))
      as [He|Hn].
    + apply Exists_exists in He as (c & Hc & ->).
      apply elem_of_seqZ in Hc.
      rewrite (Hcol' c) by lia. rewrite (Hcol c) by lia.
      destruct (binarynet_layer.Wbin_ l !! _) as [[]|]; reflexivity.
    + rewrite Hrest', Hrest; [reflexivity| |];
        intros c Hc ->; apply Hn, Exists_exists; exists c;
        (split; [apply elem_of_seqZ; lia|reflexivity]).
  - rewrite Ht', Ht. apply list_insert_insert_eq.
Qed.

Lemma threshold_fold_twice_restores_weights_witness :
  exists l' l'',
    binarynet_layer.set_threshold_from_batchnorm 32 24 128
      1 (float_of_Z 24 128 10) (float_of_Z 24 128 (-2))
      (float_of_Z 24 128 1) (float_of_Z 24 128 4) example_binarynet
      = Ok tt l' /\
    binarynet_layer.set_threshold_from_batchnorm 32 24 128
      1 (float_of_Z 24 128 10) (float_of_Z 24 128 (-2))
      (float_of_Z 24 128 1) (float_of_Z 24 128 4) l' = Ok tt l'' /\
    binarynet_layer.Wbin_ l' <> binarynet_layer.Wbin_ example_binarynet /\
    binarynet_layer.Wbin_ l'' = binarynet_layer.Wbin_ example_binarynet /\
    binarynet_layer.Threshold_ l'' = binarynet_layer.Threshold_ l'.
Proof.
  apply (threshold_fold_twice_restores_weights 32 24 128 example_binarynet 1
           (float_of_Z 24 128 10) (float_of_Z 24 128 (-2))
           (float_of_Z 24 128 1) (float_of_Z 24 128 4) 12).
  - lia.
  - vm_compute. reflexivity.
  - reflexivity.
  - reflexivity.
  - vm_compute. reflexivity.
  - now vm_compute.
  - now vm_compute.
  - now vm_compute.
  - now vm_compute.
  - now vm_compute.
Defined.

(** X12: when [gamma * invstd] is a zero of either sign, the quotient
    [beta / (gamma * invstd)] is an infinity or NaN, so is the folded
    value, and its conversion to [int] is undefined:
    [set_threshold_from_batchnorm] has no defined behaviour for such a
    channel, whatever the other parameters and the state of the layer. *)
Theorem threshold_fold_zero_scale_undefined :
  forall (sbits prec emax : Z) (l : binarynet_layer.t) (index : Z)
         (mean gamma invstd beta : float_t) (sign : bool),
    fmul prec emax gamma invstd = S754_zero sign ->
    binarynet_layer.set_threshold_from_batchnorm sbits prec emax
      index mean gamma invstd beta l = Undefined.
Proof.
  intros sbits prec emax l index mean gamma invstd beta sign Hz.
  unfold binarynet_layer.set_threshold_from_batchnorm, bind, float_to_int.
  rewrite Hz.
  assert (Hq : trunc (fsub prec emax mean (fdiv prec emax beta (S754_zero sign)))
               = None).
  { unfold fsub, fdiv.
    destruct beta as [sb|[]| |sb mb eb], mean as [sm|[]| |sm mm em], sign;
      try destruct sb; reflexivity. }
  rewrite Hq. reflexivity.
Qed.

Lemma threshold_fold_zero_scale_undefined_witness :
  binarynet_layer.set_threshold_from_batchnorm 32 24 128
    1 (float_of_Z 24 128 10) (float_of_Z 24 128 0)
    (float_of_Z 24 128 1) (float_of_Z 24 128 4) example_binarynet = Undefined.
Proof.
  apply (threshold_fold_zero_scale_undefined 32 24 128 example_binarynet 1
           (float_of_Z 24 128 10) (float_of_Z 24 128 0)
           (float_of_Z 24 128 1) (float_of_Z 24 128 4) false).
  vm_compute. reflexivity.
Defined.

(** ** [load] on streams that end early *)

Lemma extract_bool_nothing (is_ : istream) :
  failbit is_ = true \/ skip_ws (unread is_) = [] ->
  exists is', extract_bool is_ = (None, is') /\ failbit is' = true.
Proof.
  intros H. unfold extract_bool, extract_long, sentry.
  destruct (failbit is_) eqn:E.
  - now exists is_.
  - destruct H as [H|H]; [discriminate|]. rewrite H. now exists (failed []).
Qed.

Lemma extract_ulong_nothing (is_ : istream) :
  failbit is_ = true \/ skip_ws (unread is_) = [] ->
  exists is', extract_ulong is_ = (None, is') /\ failbit is' = true.
Proof.
  intros H. unfold extract_ulong, sentry.
  destruct (failbit is_) eqn:E.
  - now exists is_.
  - destruct H as [H|H]; [discriminate|]. rewrite H. now exists (failed []).
Qed.

Lemma load_thresholds_nothing (thrs : list Z) :
  forall is_ : istream,
    failbit is_ = true \/ skip_ws (unread is_) = [] ->
    exists is',
      binarynet_layer.load_thresholds thrs is_ = (thrs, is') /\
      (thrs <> [] -> failbit is' = true).
Proof.
  induction thrs as [|thr thrs IH]; intros is_ H.
  - exists is_. now split.
  - cbn [binarynet_layer.load_thresholds].
    destruct (extract_ulong_nothing is_ H) as (is1 & -> & Hf).
    destruct (IH is1 (or_introl Hf)) as (is2 & Heq & Hf2).
    rewrite Heq. exists is2. split; [reflexivity|]. intros _.
    destruct thrs; [|now apply Hf2].
    cbn in Heq. now injection Heq as <-.
Qed.

(** X13: when the stream gives nothing at the first extraction (its fail
    bit is already set, or nothing but white space is left) and the layer
    expects at least one weight bit, [load] assigns the local [bool w],
    which was never written, to [Wbin_[0]]: the call has undefined
    behaviour. *)
Theorem load_empty_stream_undefined :
  forall (sbits : Z) (is_ : istream) (l : binarynet_layer.t),
    failbit is_ = true \/ skip_ws (unread is_) = [] ->
    0 < wrap sbits (in_size_ (binarynet_layer.base_ l)
                    * out_size_ (binarynet_layer.base_ l)) ->
    binarynet_layer.load sbits is_ l = Undefined.
Proof.
  intros sbits is_ l H Hn.
  destruct (extract_bool_nothing is_ H) as (is' & Hx & _).
  unfold binarynet_layer.load, bind at 1, gets, for_.
  destruct (Z.to_nat (wrap sbits _)) as [|n] eqn:E; [lia|].
  cbn [for_from]. unfold bind. rewrite Hx. reflexivity.
Qed.

Lemma load_empty_stream_undefined_witness :
  binarynet_layer.load 32 (good [" "%char; newline]) example_binarynet_1x2
  = Undefined.
Proof.
  apply (load_empty_stream_undefined 32 (good [" "%char; newline])
           example_binarynet_1x2).
  - right. reflexivity.
  - now vm_compute.
Defined.

Lemma load_bits_truncated (ws0 : list bool) (x : bool) (tail : list ascii)
  (l0 : binarynet_layer.t) (n : nat) :
  (length ws0 < n)%nat ->
  length (binarynet_layer.Wbin_ l0) = n ->
  skip_ws tail = [] ->
  forall (is_ : istream),
    failbit is_ = false ->
    skip_ws (unread is_) = skip_ws (bits_text (ws0 ++ [x]) ++ tail) ->
    exists w is',
      for_ (Z.of_nat n)
        (fun i '(w, is_) =>
           let '(v, is_) := extract_bool is_ in
           let w := match v with Some x => Some x | None => w end in
           match w with
           | None => undefined
           | Some x =>
               wb <- gets binarynet_layer.Wbin_ ;;
               wb' <- vwrite wb i x ;;
               modify (binarynet_layer.set_Wbin_ wb') ;;;
               ret (w, is_)
           end)
        (None, is_) l0
      = Ok (w, is')
          (binarynet_layer.set_Wbin_
             (ws0 ++ replicate (n - length ws0) x) l0) /\
      (failbit is' = true \/ skip_ws (unread is') = []).
Proof.
  intros Hk Hlen Htail is_ Hgood Hs.
  set (ws := ws0 ++ [x]).
  set (full := ws0 ++ replicate (n - length ws0) x).
  assert (Hfull : length full = n)
    by (subst full; rewrite length_app, length_replicate; lia).
  assert (Hpre : forall j, (j < length ws)%nat -> full !! j = ws !! j).
  { intros j Hj. subst full ws. rewrite length_app in Hj. cbn in Hj.
    destruct (decide (j < length ws0)%nat).
    - now rewrite !lookup_app_l by assumption.
    - rewrite !lookup_app_r by lia.
      replace (j - length ws0)%nat with O by lia.
      destruct (n - length ws0)%nat eqn:E; [lia|reflexivity]. }
  assert (Hpost : forall j, (length ws0 <= j < n)%nat -> full !! j = Some x).
  { intros j Hj. subst full. rewrite lookup_app_r by lia.
    apply lookup_replicate_2. lia. }
  assert (Hwl : length ws = S (length ws0))
    by (subst ws; rewrite length_app; cbn; lia).
  pose (P := fun (j : Z) (st : option bool * istream) (s : binarynet_layer.t) =>
    s = binarynet_layer.set_Wbin_
          (take (Z.to_nat j) full ++ drop (Z.to_nat j) (binarynet_layer.Wbin_ l0)) l0 /\
    (j <= Z.of_nat (length ws) ->
       failbit (snd st) = false /\
       skip_ws (unread (snd st))
       = skip_ws (bits_text (drop (Z.to_nat j) ws) ++ tail)) /\
    (Z.of_nat (length ws) < j -> failbit (snd st) = true) /\
    (Z.of_nat (length ws) <= j -> fst st = Some x)).
  match goal with
  | |- exists w is', for_ ?n ?body ?init ?s = _ /\ _ =>
      destruct (for_inv P body n init s) as ([w is'] & s' & Hrun & HP)
  end.
  - lia.
  - unfold P. cbn. rewrite drop_0.
    refine (conj _ (conj (fun _ => conj Hgood Hs) (conj _ _))); [|lia|lia].
    destruct l0. reflexivity.
  - intros j [w isj] s Hj (-> & Hlow & Hhigh & Hw). cbn [fst snd] in *.
    assert (Hd : (Z.to_nat j < length (binarynet_layer.Wbin_ l0))%nat) by lia.
    destruct (lookup_lt_is_Some_2 _ _ Hd) as [y Hy].
    assert (Hstate : forall b, full !! Z.to_nat j = Some b ->
      <[Z.to_nat j := b]>
        (take (Z.to_nat j) full ++ drop (Z.to_nat j) (binarynet_layer.Wbin_ l0))
      = take (Z.to_nat (j + 1)) full
          ++ drop (Z.to_nat (j + 1)) (binarynet_layer.Wbin_ l0)).
    { intros b Hb. replace (Z.to_nat (j + 1)) with (S (Z.to_nat j)) by lia.
      apply insert_next; [assumption|lia]. }
    assert (Hwr : forall b,
      vwrite (St := binarynet_layer.t)
        (take (Z.to_nat j) full ++ drop (Z.to_nat j) (binarynet_layer.Wbin_ l0))
        j b
        (binarynet_layer.set_Wbin_
           (take (Z.to_nat j) full ++ drop (Z.to_nat j) (binarynet_layer.Wbin_ l0)) l0)
      = Ok (<[Z.to_nat j := b]>
              (take (Z.to_nat j) full
                 ++ drop (Z.to_nat j) (binarynet_layer.Wbin_ l0)))
           (binarynet_layer.set_Wbin_
              (take (Z.to_nat j) full
                 ++ drop (Z.to_nat j) (binarynet_layer.Wbin_ l0)) l0)).
    { intros b. apply vwrite_Ok.
      rewrite length_app, length_take, length_drop. lia. }
    destruct (decide (j < Z.of_nat (length ws))) as [Hin|Hout].
    + destruct Hlow as [Hg Hsk]; [lia|].
      assert (Hjn : (Z.to_nat j < length ws)%nat) by lia.
      destruct (lookup_lt_is_Some_2 _ _ Hjn) as [b Hb].
      rewrite (drop_S _ _ _ Hb) in Hsk.
      cbn [bits_text flat_map] in Hsk. rewrite <- !app_assoc in Hsk.
      rewrite skip_ws_printed in Hsk by (destruct b; lia).
      rewrite (istream_good isj Hg).
      rewrite (extract_bool_printed b _ _ Hsk).
      eexists (_, _), _. split.
      * unfold bind, gets, modify, ret.
        cbn [binarynet_layer.Wbin_ binarynet_layer.set_Wbin_].
        rewrite Hwr. reflexivity.
      * unfold P. cbn [fst snd failbit unread good].
        change (binarynet_layer.set_Wbin_ ?a (binarynet_layer.set_Wbin_ ?b l0))
          with (binarynet_layer.set_Wbin_ a l0).
        rewrite Hstate by (now rewrite Hpre).
        refine (conj eq_refl (conj (fun _ => conj eq_refl _) (conj _ _))).
        -- replace (Z.to_nat (j + 1)) with (S (Z.to_nat j)) by lia.
           reflexivity.
        -- lia.
        -- intros Hge. assert (Hlast : Z.to_nat j = length ws0) by lia.
           rewrite Hlast in Hb. subst ws.
           rewrite lookup_app_r, Nat.sub_diag in Hb by lia.
           cbn in Hb. now rewrite <- Hb.
    + assert (Hwx : w = Some x) by (apply Hw; lia).
      assert (Hno : failbit isj = true \/ skip_ws (unread isj) = []).
      { destruct (decide (j = Z.of_nat (length ws))) as [->|Hne].
        - right. destruct Hlow as [_ Hsk]; [lia|].
          rewrite Nat2Z.id, drop_all in Hsk. cbn in Hsk. now rewrite Hsk.
        - left. apply Hhigh. lia. }
      destruct (extract_bool_nothing isj Hno) as (is1 & -> & Hf1).
      subst w.
      eexists (_, _), _. split.
      * unfold bind, gets, modify, ret.
        cbn [binarynet_layer.Wbin_ binarynet_layer.set_Wbin_].
        rewrite Hwr. reflexivity.
      * unfold P. cbn [fst snd].
        change (binarynet_layer.set_Wbin_ ?a (binarynet_layer.set_Wbin_ ?b l0))
          with (binarynet_layer.set_Wbin_ a l0).
        rewrite Hstate by (apply Hpost; lia).
        refine (conj eq_refl (conj _ (conj (fun _ => Hf1) (fun _ => eq_refl)))).
        lia.
  - destruct HP as (-> & Hlow & Hhigh & Hw). cbn [fst snd] in *.
    exists w, is'. split.
    + rewrite Hrun. f_equal. f_equal.
      rewrite Nat2Z.id, <- Hfull, firstn_all, drop_ge by lia. apply app_nil_r.
    + destruct (decide (Z.of_nat n = Z.of_nat (length ws))) as [He|Hne].
      * right. destruct Hlow as [_ Hsk]; [lia|].
        rewrite He, Nat2Z.id, drop_all in Hsk. cbn in Hsk. now rewrite Hsk.
      * left. apply Hhigh. lia.
Qed.

(** X14: on a stream that holds fewer weight-bit tokens than the layer
    expects (the bits [ws0], then [x], then white space only), [load]
    returns: it stores the bits that were there, then repeats the last
    bit read, [x], in every remaining position of [Wbin_]; it leaves
    [Threshold_] as it was and the stream with its fail bit set. *)
Theorem load_truncated_repeats_last_bit :
  forall (sbits : Z) (ws0 : list bool) (x : bool) (tail : list ascii)
         (l : binarynet_layer.t),
    let n := length (binarynet_layer.Wbin_ l) in
    wrap sbits (in_size_ (binarynet_layer.base_ l)
                * out_size_ (binarynet_layer.base_ l)) = Z.of_nat n ->
    (length ws0 < n)%nat ->
    skip_ws tail = [] ->
    binarynet_layer.Threshold_ l <> [] ->
    exists is',
      binarynet_layer.load sbits (good (bits_text (ws0 ++ [x]) ++ tail)) l
      = Ok is' (binarynet_layer.set_Wbin_
                  (ws0 ++ replicate (n - length ws0) x) l) /\
      failbit is' = true.
Proof.
  intros sbits ws0 x tail l n Hn Hk Htail Hthr.
  destruct (load_bits_truncated ws0 x tail l n Hk eq_refl Htail
              (good (bits_text (ws0 ++ [x]) ++ tail)) eq_refl eq_refl)
    as (w & is1 & Hrun & Hend).
  destruct (load_thresholds_nothing (binarynet_layer.Threshold_ l) is1 Hend)
    as (is2 & Hrun2 & Hf).
  exists is2. split; [|now apply Hf].
  unfold binarynet_layer.load.
  erewrite bind_Ok by (unfold gets; reflexivity).
  rewrite Hn.
  erewrite bind_Ok by exact Hrun.
  erewrite bind_Ok by (unfold gets; reflexivity).
  cbn [snd binarynet_layer.Threshold_ binarynet_layer.set_Wbin_].
  rewrite Hrun2. unfold bind, modify, ret. destruct l; reflexivity.
Qed.

Lemma load_truncated_repeats_last_bit_witness :
  exists is',
    binarynet_layer.load 32 (good (bits_text ([] ++ [false]) ++ [])) example_binarynet_1x2
    = Ok is' (binarynet_layer.set_Wbin_
                ([] ++ replicate (length (binarynet_layer.Wbin_ example_binarynet_1x2)
                                  - length (@nil bool)) false)
                example_binarynet_1x2) /\
    failbit is' = true.
Proof.
  apply (load_truncated_repeats_last_bit 32 [] false [] example_binarynet_1x2).
  - reflexivity.
  - simpl. lia.
  - reflexivity.
  - discriminate.
Defined.

(** X15: [save] loses nothing.  Two layers with as many weight bits and
    as many thresholds, thresholds within [unsigned long], that write the
    same text hold the same weight bits and the same thresholds. *)
Theorem save_injective :
  forall (l1 l2 : binarynet_layer.t),
    length (binarynet_layer.Wbin_ l1) = length (binarynet_layer.Wbin_ l2) ->
    length (binarynet_layer.Threshold_ l1)
      = length (binarynet_layer.Threshold_ l2) ->
    Forall (fun thr => 0 <= thr <= ULONG_MAX) (binarynet_layer.Threshold_ l1) ->
    Forall (fun thr => 0 <= thr <= ULONG_MAX) (binarynet_layer.Threshold_ l2) ->
    binarynet_layer.save l1 [] = binarynet_layer.save l2 [] ->
    binarynet_layer.Wbin_ l1 = binarynet_layer.Wbin_ l2 /\
    binarynet_layer.Threshold_ l1 = binarynet_layer.Threshold_ l2.
Proof.
  intros l1 l2 Hw Ht Ha1 Ha2 Hsave.
  rewrite !save_text in Hsave. cbn [app] in Hsave.
  destruct (load_bits_printed 64 (binarynet_layer.Wbin_ l1)
              (thrs_text (binarynet_layer.Threshold_ l1)) l1 eq_refl
              (good (bits_text (binarynet_layer.Wbin_ l1)
                       ++ thrs_text (binarynet_layer.Threshold_ l1))))
    as (w1 & is1 & Hrun1 & Hg1 & Hs1); [reflexivity|reflexivity|].
  destruct (load_bits_printed 64 (binarynet_layer.Wbin_ l2)
              (thrs_text (binarynet_layer.Threshold_ l2)) l1 Hw
              (good (bits_text (binarynet_layer.Wbin_ l2)
                       ++ thrs_text (binarynet_layer.Threshold_ l2))))
    as (w2 & is2 & Hrun2 & Hg2 & Hs2); [reflexivity|reflexivity|].
  rewrite <- Hsave, <- Hw in Hrun2. rewrite Hrun1 in Hrun2.
  injection Hrun2 as _ His Hbits.
  split; [exact Hbits|]. subst is2.
  destruct (load_thresholds_printed [] (binarynet_layer.Threshold_ l1)
              (binarynet_layer.Threshold_ l1) is1 eq_refl Ha1 Hg1)
    as (i1 & Hr1 & _); [now rewrite app_nil_r|].
  destruct (load_thresholds_printed [] (binarynet_layer.Threshold_ l2)
              (binarynet_layer.Threshold_ l1) is1 Ht Ha2 Hg2)
    as (i2 & Hr2 & _); [now rewrite app_nil_r|].
  rewrite Hr1 in Hr2. now injection Hr2.
Qed.

Lemma save_injective_witness :
  binarynet_layer.Wbin_ example_binarynet_1x2
    = binarynet_layer.Wbin_
        (binarynet_layer.set_base_ (example_base 2 1) example_binarynet_1x2) /\
  binarynet_layer.Threshold_ example_binarynet_1x2
    = binarynet_layer.Threshold_
        (binarynet_layer.set_base_ (example_base 2 1) example_binarynet_1x2).
Proof.
  apply (save_injective example_binarynet_1x2
           (binarynet_layer.set_base_ (example_base 2 1) example_binarynet_1x2));
    try reflexivity; repeat constructor; vm_compute; discriminate.
Defined.

(** ** The weight file of the convolution layer *)

Lemma stored_word_prefix (c1 c2 : list Byte.byte) (n line : nat) :
  (line < n)%nat ->
  take (8 * n) c1 = take (8 * n) c2 ->
  stored_word c1 line = stored_word c2 line.
Proof.
  intros Hl Heq. unfold stored_word. f_equal.
  rewrite !take_drop_commute.
  replace (take (8 * line + 8) c1) with (take (8 * line + 8) (take (8 * n) c1))
    by (rewrite take_take; f_equal; lia).
  replace (take (8 * line + 8) c2) with (take (8 * line + 8) (take (8 * n) c2))
    by (rewrite take_take; f_equal; lia).
  now rewrite Heq.
Qed.

Lemma stored_word_past_end (content : list Byte.byte) (line : nat) :
  (length content <= 8 * line)%nat ->
  stored_word content line = replicate 8 Byte.x00.
Proof.
  intros H. unfold stored_word. now rewrite drop_ge by assumption.
Qed.

(** X16: what [loadFromBinaryFile] stores depends on the first
    [8 * Wbin_.size()] bytes of the file and on nothing else: two files
    that agree on these bytes, loaded into layers that differ in the
    previous content of [Wbin_] only, leave the same layer. *)
Theorem loadFromBinaryFile_prefix_only :
  forall (big_endian : bool) (fs1 fs2 : string -> option (list Byte.byte))
         (file1 file2 : string) (c1 c2 : list Byte.byte)
         (l : bnn_conv_layer.t) (wb1 wb2 : list bool),
    fs1 file1 = Some c1 ->
    fs2 file2 = Some c2 ->
    length wb1 = length wb2 ->
    take (8 * length wb1) c1 = take (8 * length wb1) c2 ->
    exists l',
      bnn_conv_layer.loadFromBinaryFile big_endian fs1 file1
        (bnn_conv_layer.set_Wbin_ wb1 l) = Ok tt l' /\
      bnn_conv_layer.loadFromBinaryFile big_endian fs2 file2
        (bnn_conv_layer.set_Wbin_ wb2 l) = Ok tt l'.
Proof.
  intros be fs1 fs2 file1 file2 c1 c2 l wb1 wb2 H1 H2 Hlen Hpre.
  destruct (loadFromBinaryFile_returns be fs1 file1 c1
              (bnn_conv_layer.set_Wbin_ wb1 l) H1) as (r1 & Hr1 & Hl1 & Hb1).
  destruct (loadFromBinaryFile_returns be fs2 file2 c2
              (bnn_conv_layer.set_Wbin_ wb2 l) H2) as (r2 & Hr2 & Hl2 & Hb2).
  cbn [bnn_conv_layer.Wbin_ bnn_conv_layer.set_Wbin_] in Hl1, Hl2, Hb1, Hb2.
  exists (bnn_conv_layer.set_Wbin_ r1 l).
  split; [exact Hr1|]. rewrite Hr2.
  replace r2 with r1; [reflexivity|].
  apply list_eq. intros line.
  destruct (decide (line < length wb1)%nat) as [Hin|Hout].
  - rewrite Hb1 by assumption. rewrite Hb2 by lia.
    now rewrite (stored_word_prefix c1 c2 (length wb1) line Hin Hpre).
  - rewrite !lookup_ge_None_2 by lia. reflexivity.
Qed.

Lemma loadFromBinaryFile_prefix_only_witness :
  exists l',
    bnn_conv_layer.loadFromBinaryFile false example_fs "weights.bin"
      (bnn_conv_layer.set_Wbin_ [true; true] example_conv) = Ok tt l' /\
    bnn_conv_layer.loadFromBinaryFile false
      (fun _ => Some (take 16 example_file)) "other.bin"
      (bnn_conv_layer.set_Wbin_ [false; true] example_conv) = Ok tt l'.
Proof.
  apply (loadFromBinaryFile_prefix_only false example_fs
           (fun _ => Some (take 16 example_file)) "weights.bin" "other.bin"
           example_file (take 16 example_file) example_conv
           [true; true] [false; true]); reflexivity.
Defined.

(** X17: [loadFromBinaryFile] does not look at the state of the stream
    after [read].  A weight whose 8 bytes lie entirely past the end of the
    file is stored as [false]; a file shorter than the store is not
    reported, the call returns normally. *)
Theorem loadFromBinaryFile_short_file_clears :
  forall (big_endian : bool) (fs : string -> option (list Byte.byte))
         (fileName : string) (content : list Byte.byte) (l : bnn_conv_layer.t),
    fs fileName = Some content ->
    exists l',
      bnn_conv_layer.loadFromBinaryFile big_endian fs fileName l = Ok tt l' /\
      forall line : nat,
        (line < length (bnn_conv_layer.Wbin_ l))%nat ->
        (length content <= 8 * line)%nat ->
        bnn_conv_layer.Wbin_ l' !! line = Some false.
Proof.
  intros be fs fileName content l Hopen.
  destruct (loadFromBinaryFile_returns be fs fileName content l Hopen)
    as (wb' & Hrun & Hlen & Hbits).
  eexists. split; [exact Hrun|].
  intros line Hl Hpast. cbn [bnn_conv_layer.Wbin_ bnn_conv_layer.set_Wbin_].
  rewrite (Hbits line Hl), (stored_word_past_end content line Hpast).
  destruct be; reflexivity.
Qed.

Lemma loadFromBinaryFile_short_file_clears_witness :
  exists l',
    bnn_conv_layer.loadFromBinaryFile false example_short_fs "short.bin"
      (bnn_conv_layer.set_Wbin_ [true; true; true; true] example_conv)
    = Ok tt l' /\
    forall line : nat,
      (line < 4)%nat ->
      (length example_short_file <= 8 * line)%nat ->
      bnn_conv_layer.Wbin_ l' !! line = Some false.
Proof.
  apply (loadFromBinaryFile_short_file_clears false example_short_fs "short.bin"
           example_short_file
           (bnn_conv_layer.set_Wbin_ [true; true; true; true] example_conv)).
  reflexivity.
Defined.

(** X18: the constructor given the name of a file that can be opened
    returns a layer with the geometry of its arguments whose store has
    [out_channels * in_channels * k * k] bits (the product evaluated in
    [serial_size_t]), bit [line] being [true] iff the [line]-th 8-byte word
    of the file is 1. *)
Theorem constructor_loads_weight_file :
  forall (sbits : Z) (big_endian : bool)
         (fs : string -> option (list Byte.byte)) (b : base)
         (iw ih k ic oc : Z) (pop : bool) (file : string)
         (content : list Byte.byte),
    let n := Z.to_nat (umul sbits (umul sbits (umul sbits oc ic) k) k) in
    file <> EmptyString ->
    fs file = Some content ->
    exists l,
      bnn_conv_layer.bnn_conv_layer sbits big_endian fs b iw ih k ic oc pop file
        = Ok tt l /\
      bnn_conv_layer.base_ l = set_parallelize false b /\
      bnn_conv_layer.use_popcount_ l = pop /\
      bnn_conv_layer.out_width_ l = uadd sbits (usub sbits iw k) 1 /\
      bnn_conv_layer.out_height_ l = uadd sbits (usub sbits ih k) 1 /\
      length (bnn_conv_layer.Wbin_ l) = n /\
      forall line : nat,
        (line < n)%nat ->
        bnn_conv_layer.Wbin_ l !! line
        = Some (decode big_endian (stored_word content line) =? 1).
Proof.
  intros sbits be fs b iw ih k ic oc pop file content n Hname Hopen.
  unfold bnn_conv_layer.bnn_conv_layer.
  apply String.eqb_neq in Hname. rewrite Hname.
  set (l0 := {| bnn_conv_layer.base_ := _ |}).
  destruct (loadFromBinaryFile_returns be fs file content l0 Hopen)
    as (wb' & Hrun & Hlen & Hbits).
  cbn [l0 bnn_conv_layer.Wbin_] in Hlen, Hbits.
  rewrite length_replicate in Hlen, Hbits. fold n in Hlen, Hbits.
  exists (bnn_conv_layer.set_Wbin_ wb' l0).
  refine (conj Hrun (conj eq_refl (conj eq_refl (conj eq_refl
            (conj eq_refl (conj Hlen Hbits)))))).
Qed.

Lemma constructor_loads_weight_file_witness :
  exists l,
    bnn_conv_layer.bnn_conv_layer 32 false example_fs example_conv_base
      3 3 2 1 1 false "weights.bin" = Ok tt l /\
    bnn_conv_layer.base_ l = set_parallelize false example_conv_base /\
    bnn_conv_layer.use_popcount_ l = false /\
    bnn_conv_layer.out_width_ l = uadd 32 (usub 32 3 2) 1 /\
    bnn_conv_layer.out_height_ l = uadd 32 (usub 32 3 2) 1 /\
    length (bnn_conv_layer.Wbin_ l)
      = Z.to_nat (umul 32 (umul 32 (umul 32 1 1) 2) 2) /\
    forall line : nat,
      (line < Z.to_nat (umul 32 (umul 32 (umul 32 1 1) 2) 2))%nat ->
      bnn_conv_layer.Wbin_ l !! line
      = Some (decode false (stored_word example_file line) =? 1).
Proof.
  apply (constructor_loads_weight_file 32 false example_fs example_conv_base
           3 3 2 1 1 false "weights.bin" example_file).
  - discriminate.
  - reflexivity.
Defined.

(** X19: the constructor of the convolution layer throws exactly when
    it is given a non-empty file name that cannot be opened, and then with
    the message of [loadFromBinaryFile]; it returns a layer exactly when
    the name is empty or the file can be opened. *)
Theorem constructor_throws_iff_unopenable :
  forall (sbits : Z) (big_endian : bool)
         (fs : string -> option (list Byte.byte)) (b : base)
         (iw ih k ic oc : Z) (pop : bool) (file : string),
    let r := bnn_conv_layer.bnn_conv_layer sbits big_endian fs b
               iw ih k ic oc pop file in
    ((exists msg l, r = Throw msg l)
       <-> file <> EmptyString /\ fs file = None) /\
    (forall msg l, r = Throw msg l -> msg = "Could not open file"%string) /\
    ((exists l, r = Ok tt l) <-> file = EmptyString \/ fs file <> None).
Proof.
  intros sbits be fs b iw ih k ic oc pop file r. subst r.
  unfold bnn_conv_layer.bnn_conv_layer.
  set (l0 := {| bnn_conv_layer.base_ := _ |}).
  destruct (String.eqb_spec file EmptyString) as [->|Hne].
  - split; [split|split; [|split]].
    + intros (msg & l & H). discriminate H.
    + intros [H _]. now contradiction H.
    + intros msg l H. discriminate H.
    + intros _. now left.
    + intros _. now exists l0.
  - destruct (fs file) as [content|] eqn:E.
    + destruct (loadFromBinaryFile_returns be fs file content l0 E)
        as (wb' & Hrun & _).
      rewrite Hrun. split; [split|split; [|split]].
      * intros (msg & l & H). discriminate H.
      * intros [_ H]. discriminate H.
      * intros msg l H. discriminate H.
      * intros _. now right.
      * intros _. eexists. reflexivity.
    + unfold bnn_conv_layer.loadFromBinaryFile. rewrite E.
      split; [split|split; [|split]].
      * intros _. now split.
      * intros _. eexists _, _. reflexivity.
      * intros msg l H. unfold throw in H. now injection H as <- _.
      * intros (l & H). discriminate H.
      * intros [H|H]; [contradiction|now contradiction H].
Qed.

(** ** Range of the convolution outputs *)

Lemma matches_bounds (ps : list (bool * bool)) :
  0 <= matches ps <= Z.of_nat (length ps).
Proof.
  unfold matches. split; [lia|].
  apply inj_le. apply length_filter.
Qed.

Lemma spec_conv_acc_bounds (l : bnn_conv_layer.t) (in_bin : list bool)
  (oc oy ox : Z) :
  0 <= bnn_conv_layer.window_size_ l ->
  0 <= bnn_conv_layer.in_channels_ l ->
  let n := bnn_conv_layer.in_channels_ l * bnn_conv_layer.window_size_ l
           * bnn_conv_layer.window_size_ l in
  (if bnn_conv_layer.use_popcount_ l then 0 else - n)
    <= spec_conv_acc l in_bin oc oy ox <= n.
Proof.
  intros Hk HI n. unfold spec_conv_acc. rewrite sum_match_rule.
  pose proof (matches_bounds (window_pairs l in_bin oc oy ox)) as Hm.
  rewrite (window_pairs_length l in_bin oc oy ox Hk HI) in *. fold n in Hm |- *.
  destruct (bnn_conv_layer.use_popcount_ l); lia.
Qed.

Lemma conv_forward_run (sbits prec emax : Z) (l : bnn_conv_layer.t)
  (in_raw : vec_t) (worker_index : Z) :
  conv_geometry sbits l ->
  Z.of_nat (length in_raw)
    = bnn_conv_layer.in_width_ l * bnn_conv_layer.in_height_ l
      * bnn_conv_layer.in_channels_ l ->
  conv_ready l (bnn_conv_layer.base_ l) worker_index ->
  exists out l' obuf,
    bnn_conv_layer.forward_propagation sbits prec emax in_raw worker_index l
      = Ok out l' /\
    output_ (bnn_conv_layer.base_ l') !! Z.to_nat worker_index = Some obuf /\
    (next_ (bnn_conv_layer.base_ l) = None -> out = obuf) /\
    forall oc oy ox,
      in_out_range l oc oy ox ->
      obuf !! Z.to_nat (out_index l oc oy ox)
      = Some (float_of_Z prec emax
                (spec_conv_acc l (non_negative <$> in_raw) oc oy ox)).
Proof.
  intros Hgeo Hraw Hready.
  pose proof Hgeo as (Hsb & Hk & HkH & HI & HO & How & Hoh & Hin & Hwt & Hout & _).
  set (in_bin := non_negative <$> in_raw).
  assert (Hinb : Z.of_nat (length in_bin)
                 = bnn_conv_layer.in_width_ l * bnn_conv_layer.in_height_ l
                   * bnn_conv_layer.in_channels_ l)
    by (subst in_bin; now rewrite length_fmap).
  destruct (conv_loops sbits prec emax l in_bin worker_index Hgeo Hinb Hready)
    as (s' & Hrun & Hw & Hs & Hwr).
  destruct (conv_ready_shape l _ _ worker_index Hs Hready) as (Hwi & obuf & Hob & Hol).
  exists (match next_ (bnn_conv_layer.base_ s') with
          | Some f => f obuf worker_index
          | None => obuf
          end), s', obuf.
  split; [|split; [exact Hob|split]].
  - unfold bnn_conv_layer.forward_propagation.
    erewrite bind_Ok
      by (apply float2bipolar_same_length; now rewrite length_replicate).
    fold in_bin.
    erewrite bind_Ok by (unfold gets; reflexivity).
    cbv zeta.
    erewrite bind_Ok by exact Hrun.
    erewrite bind_Ok by (unfold gets; reflexivity).
    erewrite bind_Ok by (apply vread_Ok; exact Hob).
    erewrite bind_Ok by (unfold gets; reflexivity).
    reflexivity.
  - intros Hnone. destruct Hs as (_ & _ & _ & Hnx & _).
    now rewrite Hnx, Hnone.
  - intros oc oy ox Hr. apply (Hwr obuf Hob oc oy ox Hr).
    destruct Hr as (Hoc & Hoy & Hox).
    rewrite <- Hoh, <- How in Hout.
    destruct (output_index sbits _ _ _ oc oy ox Hsb Hout Hoc Hoy Hox) as [_ Hir].
    unfold out_index. lia.
Qed.

(** X20: every element that [forward_propagation] of the convolution
    layer writes is the [float_t] of an integer between [-fan_in_size()]
    and [fan_in_size()], and of one between [0] and [fan_in_size()] in
    popcount mode. *)
Theorem conv_forward_output_bounded :
  forall (sbits prec emax : Z) (l : bnn_conv_layer.t) (in_raw : vec_t)
         (worker_index : Z),
    32 <= sbits ->
    conv_geometry sbits l ->
    Z.of_nat (length in_raw)
      = bnn_conv_layer.in_width_ l * bnn_conv_layer.in_height_ l
        * bnn_conv_layer.in_channels_ l ->
    conv_ready l (bnn_conv_layer.base_ l) worker_index ->
    exists out l' obuf,
      bnn_conv_layer.forward_propagation sbits prec emax in_raw worker_index l
        = Ok out l' /\
      output_ (bnn_conv_layer.base_ l') !! Z.to_nat worker_index = Some obuf /\
      forall oc oy ox,
        in_out_range l oc oy ox ->
        exists acc,
          obuf !! Z.to_nat (out_index l oc oy ox)
            = Some (float_of_Z prec emax acc) /\
          (if bnn_conv_layer.use_popcount_ l then 0
           else - bnn_conv_layer.fan_in_size sbits l) <= acc
            <= bnn_conv_layer.fan_in_size sbits l.
Proof.
  intros sbits prec emax l in_raw worker_index H32 Hgeo Hraw Hready.
  destruct (conv_forward_run sbits prec emax l in_raw worker_index Hgeo Hraw Hready)
    as (out & l' & obuf & Hrun & Hob & _ & Hel).
  exists out, l', obuf. split; [exact Hrun|]. split; [exact Hob|].
  intros oc oy ox Hr. eexists. split; [apply Hel; exact Hr|].
  destruct Hgeo as (Hsb & Hk & HkH & HI & HO & How & Hoh & Hin & Hwt & Hout & Hfan & _).
  assert (Hf : bnn_conv_layer.fan_in_size sbits l
               = bnn_conv_layer.in_channels_ l * bnn_conv_layer.window_size_ l
                 * bnn_conv_layer.window_size_ l).
  { unfold bnn_conv_layer.fan_in_size.
    unfold INT_MAX, int_bits in Hfan. cbn in Hfan.
    assert (Hp : 2 ^ 32 <= 2 ^ sbits) by (apply Z.pow_le_mono_r; lia).
    rewrite (umul_small sbits (bnn_conv_layer.in_channels_ l)) by nia.
    apply umul_small. nia. }
  rewrite Hf. apply spec_conv_acc_bounds; lia.
Qed.

Lemma conv_forward_output_bounded_witness :
  exists out l' obuf,
    bnn_conv_layer.forward_propagation 32 24 128 example_image 0 example_conv
      = Ok out l' /\
    output_ (bnn_conv_layer.base_ l') !! Z.to_nat 0 = Some obuf /\
    forall oc oy ox,
      in_out_range example_conv oc oy ox ->
      exists acc,
        obuf !! Z.to_nat (out_index example_conv oc oy ox)
          = Some (float_of_Z 24 128 acc) /\
        (if bnn_conv_layer.use_popcount_ example_conv then 0
         else - bnn_conv_layer.fan_in_size 32 example_conv) <= acc
          <= bnn_conv_layer.fan_in_size 32 example_conv.
Proof.
  apply (conv_forward_output_bounded 32 24 128 example_conv example_image 0).
  - lia.
  - now vm_compute.
  - reflexivity.
  - split; [lia|]. eexists. split; reflexivity.
Defined.

(** ** An index that is not checked *)

Lemma for_from_ok_or_undefined {St A} (P : St -> Prop)
  (body : Z -> A -> M St A) :
  (forall i a s, P s ->
     body i a s = Undefined \/ exists a' s', body i a s = Ok a' s' /\ P s') ->
  forall n i a s, P s ->
    for_from n i body a s = Undefined \/
    exists a' s', for_from n i body a s = Ok a' s' /\ P s'.
Proof.
  intros Hbody. induction n as [|n IH]; intros i a s HP.
  - right. now exists a, s.
  - cbn [for_from]. unfold bind.
    destruct (Hbody i a s HP) as [->|(a1 & s1 & -> & HP1)]; [now left|].
    apply IH. exact HP1.
Qed.

(** X21: [set_threshold_from_batchnorm] does not check [index].  With
    an index at or beyond the end of [Threshold_] no call returns and none
    throws: whatever the parameters, the behaviour is undefined, at the
    latest at the store to [Threshold_[index]]. *)
Theorem threshold_fold_index_unchecked :
  forall (sbits prec emax : Z) (l : binarynet_layer.t) (index : Z)
         (mean gamma invstd beta : float_t),
    Z.of_nat (length (binarynet_layer.Threshold_ l)) <= index ->
    binarynet_layer.set_threshold_from_batchnorm sbits prec emax
      index mean gamma invstd beta l = Undefined.
Proof.
  intros sbits prec emax l index mean gamma invstd beta Hidx.
  unfold binarynet_layer.set_threshold_from_batchnorm, float_to_int.
  unfold bind at 1.
  destruct (trunc _) as [t|]; [|reflexivity].
  destruct (in_int t); [|reflexivity]. unfold ret at 1.
  assert (Hstore : forall (v : Z) (s : binarynet_layer.t),
            binarynet_layer.Threshold_ s = binarynet_layer.Threshold_ l ->
            (fan_in <- gets (binarynet_layer.fan_in_size) ;;
             thrs <- gets binarynet_layer.Threshold_ ;;
             thrs' <- vwrite thrs index
                        (wrap size_t_bits (wrap size_t_bits v + fan_in) / 2) ;;
             modify (binarynet_layer.set_Threshold_ thrs')) s = Undefined).
  { intros v s Hs. unfold bind, gets, vwrite. rewrite Hs.
    destruct (decide _) as [Hlt|]; [lia|reflexivity]. }
  unfold bind at 1.
  destruct (flt _ _).
  - unfold bind at 1.
    destruct (in_int (- t)); [|reflexivity]. unfold ret at 1.
    unfold bind at 1, gets at 1. unfold bind at 1.
    unfold for_each, for_.
    match goal with
    | |- context [for_from ?n ?i ?body ?a ?s] =>
        assert (Hbody : forall j b s0,
                  binarynet_layer.Threshold_ s0 = binarynet_layer.Threshold_ l ->
                  body j b s0 = Undefined \/
                  exists b' s1, body j b s0 = Ok b' s1 /\
                    binarynet_layer.Threshold_ s1 = binarynet_layer.Threshold_ l);
        [|destruct (for_from_ok_or_undefined
                      (fun s' => binarynet_layer.Threshold_ s'
                                 = binarynet_layer.Threshold_ l)
                      body Hbody n i a s eq_refl)
            as [->|(a' & s' & -> & Hs)]]
    end.
    + intros i [] s Hs. unfold bind, gets, vread, vwrite, modify, ret, undefined.
      destruct (_ !! _); [|now left].
      destruct (decide _); [|now left].
      right. eexists _, _. split; [reflexivity|exact Hs].
    + reflexivity.
    + unfold ret. apply Hstore. exact Hs.
  - unfold ret. apply Hstore. reflexivity.
Qed.

Lemma threshold_fold_index_unchecked_witness :
  binarynet_layer.set_threshold_from_batchnorm 32 24 128
    2 (float_of_Z 24 128 10) (float_of_Z 24 128 2)
    (float_of_Z 24 128 1) (float_of_Z 24 128 4) example_binarynet = Undefined.
Proof.
  apply (threshold_fold_index_unchecked 32 24 128 example_binarynet 2).
  now vm_compute.
Defined.

(** ** What the fully-connected kernels compute *)

Lemma range_from_snoc (n : nat) :
  forall lo, range_from (S n) lo = range_from n lo ++ [lo + Z.of_nat n].
Proof.
  induction n as [|n IH]; intros lo.
  - cbn. now rewrite Z.add_0_r.
  - change (range_from (S (S n)) lo) with (lo :: range_from (S n) (lo + 1)).
    rewrite IH. cbn [range_from app]. do 3 f_equal. lia.
Qed.

Lemma column_acc_succ (prec emax miss : Z) (wb in_bin : list bool)
  (osz i : Z) (n : nat) :
  column_acc prec emax miss wb in_bin osz i (S n)
  = fadd prec emax (column_acc prec emax miss wb in_bin osz i n)
      (float_of_Z prec emax
         (if Bool.eqb (bit wb (Z.of_nat n * osz + i)) (bit in_bin (Z.of_nat n))
          then 1 else miss)).
Proof.
  unfold column_acc. rewrite range_from_snoc, fold_left_app. cbn.
  reflexivity.
Qed.

Lemma binarynet_column (sbits prec emax : Z) (s0 : binarynet_layer.t)
  (in_bin : list bool) (index i : Z) (abuf0 : vec_t) :
  let isz := in_size_ (binarynet_layer.base_ s0) in
  let osz := out_size_ (binarynet_layer.base_ s0) in
  sbits <= 64 ->
  0 <= isz ->
  isz * osz <= 2 ^ sbits ->
  Z.of_nat (length (binarynet_layer.Wbin_ s0)) = isz * osz ->
  Z.of_nat (length in_bin) = isz ->
  0 <= i < osz ->
  a_ (binarynet_layer.base_ s0) !! Z.to_nat index = Some abuf0 ->
  (Z.to_nat i < length abuf0)%nat ->
  for_each isz
    (fun c =>
       wb <- gets binarynet_layer.Wbin_ ;;
       w <- vread wb (wrap size_t_bits (wrap sbits (wrap sbits (c * osz) + i))) ;;
       x <- vread in_bin c ;;
       ai <- binarynet_layer.in_base (a_read index i) ;;
       binarynet_layer.in_base
         (a_write index i
            (fadd prec emax ai
               (float_of_Z prec emax (if Bool.eqb w x then 1 else 0)))))
    (binarynet_with_acc s0 index i abuf0 (float_of_Z prec emax 0))
  = Ok tt (binarynet_with_acc s0 index i abuf0
             (column_acc prec emax 0 (binarynet_layer.Wbin_ s0) in_bin osz i
                (Z.to_nat isz))).
Proof.
  intros isz osz Hsb Hisz Hfit Hwb Hin Hi Hab Hlt.
  assert (Hp : 2 ^ sbits <= 2 ^ 64) by (apply Z.pow_le_mono_r; lia).
  assert (Hidx : (Z.to_nat index < length (a_ (binarynet_layer.base_ s0)))%nat)
    by (now apply lookup_lt_Some in Hab).
  match goal with
  | |- for_each ?n ?body ?s = _ =>
      destruct (for_each_inv
        (fun c s' =>
           s' = binarynet_with_acc s0 index i abuf0
                  (column_acc prec emax 0 (binarynet_layer.Wbin_ s0) in_bin osz i
                     (Z.to_nat c)))
        body n s) as (s' & Hrun & ->)
  end.
  - exact Hisz.
  - reflexivity.
  - intros c s Hc ->.
    assert (Hco : 0 <= c * osz) by nia.
    assert (Hco' : c * osz + osz <= isz * osz) by nia.
    set (acc := column_acc prec emax 0 (binarynet_layer.Wbin_ s0) in_bin osz i
                  (Z.to_nat c)).
    eexists. split.
    + erewrite bind_Ok by (unfold gets; reflexivity).
      rewrite (wrap_small sbits (c * osz)) by lia.
      rewrite (wrap_small sbits) by lia.
      rewrite (wrap_small size_t_bits) by (unfold size_t_bits; lia).
      cbn [binarynet_with_acc binarynet_layer.Wbin_ binarynet_layer.set_base_].
      erewrite bind_Ok by (apply vread_bit; lia).
      erewrite bind_Ok by (apply vread_bit; lia).
      erewrite bind_Ok.
      2:{ apply lift_Ok.
          apply (a_read_Ok _ _ _ (<[Z.to_nat i := acc]> abuf0)).
          - cbn. now apply list_lookup_insert_eq.
          - now apply list_lookup_insert_eq. }
      apply lift_Ok.
      apply (a_write_Ok _ _ _ (<[Z.to_nat i := acc]> abuf0)).
      * cbn. now apply list_lookup_insert_eq.
      * now rewrite length_insert.
    + replace (Z.to_nat (c + 1)) with (S (Z.to_nat c)) by lia.
      rewrite column_acc_succ, Z2Nat.id by lia. fold acc.
      unfold binarynet_with_acc, binarynet_layer.set_base_, set_a_. cbn.
      now rewrite !list_insert_insert_eq.
  - exact Hrun.
Qed.

Lemma binarynet_kernel_values (sbits prec emax : Z) (l : binarynet_layer.t)
  (in_bin : list bool) (index : Z) :
  let isz := in_size_ (binarynet_layer.base_ l) in
  let osz := out_size_ (binarynet_layer.base_ l) in
  let acc := fun i =>
    column_acc prec emax 0 (binarynet_layer.Wbin_ l) in_bin osz i (Z.to_nat isz) in
  sbits <= 64 ->
  isz * osz <= 2 ^ sbits ->
  Z.of_nat (length (binarynet_layer.Wbin_ l)) = isz * osz ->
  Z.of_nat (length (binarynet_layer.Threshold_ l)) = osz ->
  Z.of_nat (length in_bin) = isz ->
  scratch_ready (binarynet_layer.base_ l) index ->
  exists s' abuf obuf,
    for_each osz
      (fun i =>
         binarynet_layer.in_base (a_write index i (float_of_Z prec emax 0)) ;;;
         for_each isz
           (fun c =>
              wb <- gets binarynet_layer.Wbin_ ;;
              w <- vread wb (wrap size_t_bits (wrap sbits (wrap sbits (c * osz) + i))) ;;
              x <- vread in_bin c ;;
              ai <- binarynet_layer.in_base (a_read index i) ;;
              binarynet_layer.in_base
                (a_write index i
                   (fadd prec emax ai
                      (float_of_Z prec emax (if Bool.eqb w x then 1 else 0))))) ;;;
         ai <- binarynet_layer.in_base (a_read index i) ;;
         thrs <- gets binarynet_layer.Threshold_ ;;
         thr <- vread thrs i ;;
         binarynet_layer.in_base
           (out_write index i
              (float_of_Z prec emax
                 (if fge ai (float_of_Z prec emax thr) then 1 else -1)))) l
    = Ok tt s' /\
    same_shape (binarynet_layer.base_ l) (binarynet_layer.base_ s') /\
    a_ (binarynet_layer.base_ s') !! Z.to_nat index = Some abuf /\
    output_ (binarynet_layer.base_ s') !! Z.to_nat index = Some obuf /\
    forall i thr,
      0 <= i < osz ->
      binarynet_layer.Threshold_ l !! Z.to_nat i = Some thr ->
      abuf !! Z.to_nat i = Some (acc i) /\
      obuf !! Z.to_nat i
      = Some (float_of_Z prec emax
                (if fge (acc i) (float_of_Z prec emax thr) then 1 else -1)).
Proof.
  intros isz osz acc Hsb Hfit Hwb Hthr Hin Hready.
  pose proof Hready as (Hisz & Hosz & Hidx & (abuf0 & Hab0 & Hal0) & (obuf0 & Hob0 & Hol0)).
  fold isz in Hisz. fold osz in Hosz, Hal0, Hol0.
  pose (Q := fun (i : Z) (s : binarynet_layer.t) =>
    binarynet_layer.Wbin_ s = binarynet_layer.Wbin_ l /\
    binarynet_layer.Threshold_ s = binarynet_layer.Threshold_ l /\
    same_shape (binarynet_layer.base_ l) (binarynet_layer.base_ s) /\
    exists abuf obuf,
      a_ (binarynet_layer.base_ s) !! Z.to_nat index = Some abuf /\
      output_ (binarynet_layer.base_ s) !! Z.to_nat index = Some obuf /\
      Z.of_nat (length abuf) = osz /\ Z.of_nat (length obuf) = osz /\
      forall j thr,
        0 <= j < i ->
        binarynet_layer.Threshold_ l !! Z.to_nat j = Some thr ->
        abuf !! Z.to_nat j = Some (acc j) /\
        obuf !! Z.to_nat j
        = Some (float_of_Z prec emax
                  (if fge (acc j) (float_of_Z prec emax thr) then 1 else -1))).
  match goal with
  | |- exists s' abuf obuf, for_each ?n ?body ?s0 = _ /\ _ =>
      destruct (for_each_inv Q body n s0)
        as (s' & Hrun & _ & _ & Hs & abuf & obuf & Hab & Hob & _ & _ & Hval)
  end.
  - exact Hosz.
  - refine (conj eq_refl (conj eq_refl (conj (same_shape_refl _) _))).
    exists abuf0, obuf0.
    refine (conj Hab0 (conj Hob0 (conj Hal0 (conj Hol0 _)))).
    intros j thr Hj. lia.
  - intros i s Hi (Hw & Ht & Hs & abuf & obuf & Hab & Hob & Hal & Hol & Hval).
    pose proof Hs as (Hsi & Hso & _).
    assert (Hia : (Z.to_nat i < length abuf)%nat) by lia.
    assert (Hio : (Z.to_nat i < length obuf)%nat) by lia.
    assert (Hit : (Z.to_nat i < length (binarynet_layer.Threshold_ l))%nat) by lia.
    destruct (lookup_lt_is_Some_2 _ _ Hit) as [thr Hthri].
    assert (Hna : (Z.to_nat index < length (a_ (binarynet_layer.base_ s)))%nat)
      by (now apply lookup_lt_Some in Hab).
    assert (Hno : (Z.to_nat index < length (output_ (binarynet_layer.base_ s)))%nat)
      by (now apply lookup_lt_Some in Hob).
    set (s2 := binarynet_with_acc s index i abuf (acc i)).
    set (v := float_of_Z prec emax
                (if fge (acc i) (float_of_Z prec emax thr) then 1 else -1)).
    exists (binarynet_layer.set_base_
              (set_output_
                 (fun _ => <[Z.to_nat index := <[Z.to_nat i := v]> obuf]>
                             (output_ (binarynet_layer.base_ s2)))
                 (binarynet_layer.base_ s2)) s2).
    split.
    + erewrite bind_Ok
        by (apply lift_Ok; apply (a_write_Ok _ _ _ _ _ Hab Hia)).
      erewrite bind_Ok.
      2:{ pose proof (binarynet_column sbits prec emax s in_bin index i abuf) as Hcol.
          cbv zeta in Hcol. rewrite Hsi, Hso, Hw in Hcol.
          fold isz osz in Hcol. apply Hcol; try assumption; lia. }
      fold (acc i). fold s2.
      erewrite bind_Ok.
      2:{ apply lift_Ok.
          apply (a_read_Ok _ _ _ (<[Z.to_nat i := acc i]> abuf)).
          - cbn. now apply list_lookup_insert_eq.
          - now apply list_lookup_insert_eq. }
      erewrite bind_Ok by (unfold gets; reflexivity).
      cbn [s2 binarynet_with_acc binarynet_layer.Threshold_ binarynet_layer.set_base_].
      rewrite Ht.
      erewrite bind_Ok by (apply vread_Ok; exact Hthri).
      apply lift_Ok. apply (out_write_Ok _ _ _ obuf); [exact Hob|exact Hio].
    + unfold Q. cbn.
      refine (conj Hw (conj Ht (conj _ _))).
      * apply (same_shape_out_write (binarynet_layer.base_ l)
                 (set_a_ (fun _ => <[Z.to_nat index := <[Z.to_nat i := acc i]> abuf]>
                                     (a_ (binarynet_layer.base_ s)))
                    (binarynet_layer.base_ s)) index i v obuf); [|exact Hob].
        apply (same_shape_a_write _ _ index i (acc i) abuf); assumption.
      * exists (<[Z.to_nat i := acc i]> abuf), (<[Z.to_nat i := v]> obuf).
        rewrite !list_lookup_insert_eq by assumption.
        rewrite !length_insert.
        refine (conj eq_refl (conj eq_refl (conj Hal (conj Hol _)))).
        intros j thr' Hj Hthr'.
        destruct (decide (j = i)) as [->|Hne].
        -- rewrite !list_lookup_insert_eq by assumption.
           rewrite Hthri in Hthr'. injection Hthr' as <-. now split.
        -- rewrite !list_lookup_insert_ne by lia.
           apply Hval; [lia|assumption].
  - exists s', abuf, obuf.
    refine (conj Hrun (conj Hs (conj Hab (conj Hob Hval)))).
Qed.

(** X22: without offload hook and within the range where the index
    arithmetic does not wrap, [forward_propagation] of the binarynet layer
    returns; it leaves in [a_[index][i]] the accumulator of column [i] (the
    [float_t] additions, in row order from [0], of [1] for every row [c]
    whose weight bit [c * out_size_ + i] equals the sign bit of input [c])
    and in the output vector [+1] where this accumulator is at least
    [Threshold_[i]] and [-1] elsewhere. *)
Theorem binarynet_forward_thresholds :
  forall (sbits prec emax : Z) (l : binarynet_layer.t) (in_ : vec_t)
         (index : Z),
    let isz := in_size_ (binarynet_layer.base_ l) in
    let osz := out_size_ (binarynet_layer.base_ l) in
    let in_bin := refreshed in_ (replicate (Z.to_nat isz) false) in
    sbits <= 64 ->
    isz < 2 ^ sbits ->
    isz * osz <= 2 ^ sbits ->
    osz <= INT_MAX ->
    Z.of_nat (length (binarynet_layer.Wbin_ l)) = isz * osz ->
    Z.of_nat (length (binarynet_layer.Threshold_ l)) = osz ->
    Z.of_nat (length in_) <= isz ->
    scratch_ready (binarynet_layer.base_ l) index ->
    binarynet_layer.Offload_ l = None ->
    exists out l' abuf obuf,
      binarynet_layer.forward_propagation sbits prec emax in_ index l
        = Ok out l' /\
      a_ (binarynet_layer.base_ l') !! Z.to_nat index = Some abuf /\
      output_ (binarynet_layer.base_ l') !! Z.to_nat index = Some obuf /\
      (next_ (binarynet_layer.base_ l) = None -> out = obuf) /\
      forall i thr,
        0 <= i < osz ->
        binarynet_layer.Threshold_ l !! Z.to_nat i = Some thr ->
        let acc :=
          column_acc prec emax 0 (binarynet_layer.Wbin_ l) in_bin osz i
            (Z.to_nat isz) in
        abuf !! Z.to_nat i = Some acc /\
        obuf !! Z.to_nat i
        = Some (float_of_Z prec emax
                  (if fge acc (float_of_Z prec emax thr) then 1 else -1)).
Proof.
  intros sbits prec emax l in_ index isz osz in_bin
    Hsb Hisz Hfit Hosz Hwb Hthr Hin Hready Hhook.
  assert (Hi0 : 0 <= isz) by (destruct Hready; assumption).
  assert (Hlen : Z.of_nat (length in_bin) = isz).
  { subst in_bin. rewrite refreshed_length; rewrite length_replicate; lia. }
  destruct (binarynet_kernel_values sbits prec emax l in_bin index
              Hsb Hfit Hwb Hthr Hlen Hready)
    as (s' & abuf & obuf & Hrun & Hs & Hab & Hob & Hval).
  exists (match next_ (binarynet_layer.base_ s') with
          | Some f => f obuf index
          | None => obuf
          end), s', abuf, obuf.
  refine (conj _ (conj Hab (conj Hob (conj _ Hval)))).
  - unfold binarynet_layer.forward_propagation.
    erewrite bind_Ok by (unfold gets; reflexivity).
    erewrite bind_Ok by (unfold gets; reflexivity).
    erewrite bind_Ok
      by (apply float2bipolar_refreshed; rewrite length_replicate; lia).
    erewrite bind_Ok by (unfold gets; reflexivity).
    rewrite Hhook.
    erewrite bind_Ok by exact Hrun.
    erewrite bind_Ok by (unfold gets; reflexivity).
    erewrite bind_Ok by (apply vread_Ok; exact Hob).
    erewrite bind_Ok by (unfold gets; reflexivity).
    reflexivity.
  - intros Hnone. destruct Hs as (_ & _ & _ & Hnx & _).
    now rewrite Hnx, Hnone.
Qed.

Lemma binarynet_forward_thresholds_witness :
  exists out l' abuf obuf,
    binarynet_layer.forward_propagation 32 24 128 example_input 0
      example_binarynet_2x1 = Ok out l' /\
    a_ (binarynet_layer.base_ l') !! Z.to_nat 0 = Some abuf /\
    output_ (binarynet_layer.base_ l') !! Z.to_nat 0 = Some obuf /\
    (next_ (binarynet_layer.base_ example_binarynet_2x1) = None -> out = obuf) /\
    forall i thr,
      0 <= i < 1 ->
      binarynet_layer.Threshold_ example_binarynet_2x1 !! Z.to_nat i = Some thr ->
      let acc :=
        column_acc 24 128 0 (binarynet_layer.Wbin_ example_binarynet_2x1)
          (refreshed example_input (replicate (Z.to_nat 2) false)) 1 i
          (Z.to_nat 2) in
      abuf !! Z.to_nat i = Some acc /\
      obuf !! Z.to_nat i
      = Some (float_of_Z 24 128
                (if fge acc (float_of_Z 24 128 thr) then 1 else -1)).
Proof.
  apply (binarynet_forward_thresholds 32 24 128 example_binarynet_2x1
           example_input 0); try reflexivity; try (now vm_compute).
  unfold scratch_ready. cbn.
  refine (conj _ (conj _ (conj _ (conj _ _)))); try lia;
    eexists; (split; [reflexivity|reflexivity]).
Defined.

Lemma fc_column (cbits prec emax : Z) (s0 : binarized_fc_layer.t)
  (in_bin : list bool) (index i : Z) (abuf0 : vec_t) :
  let isz := in_size_ (binarized_fc_layer.base_ s0) in
  let osz := out_size_ (binarized_fc_layer.base_ s0) in
  cbits <= 64 ->
  0 <= isz ->
  isz * osz <= 2 ^ cbits ->
  Z.of_nat (length (binarized_fc_layer.Wbin_ s0)) = isz * osz ->
  Z.of_nat (length in_bin) = isz ->
  0 <= i < osz ->
  a_ (binarized_fc_layer.base_ s0) !! Z.to_nat index = Some abuf0 ->
  (Z.to_nat i < length abuf0)%nat ->
  for_each isz
    (fun c =>
       wb <- gets binarized_fc_layer.Wbin_ ;;
       w <- vread wb (wrap size_t_bits (uadd cbits (umul cbits c osz) i)) ;;
       x <- vread in_bin c ;;
       ai <- binarized_fc_layer.in_base (a_read index i) ;;
       binarized_fc_layer.in_base
         (a_write index i
            (fadd prec emax ai
               (float_of_Z prec emax (if Bool.eqb w x then 1 else -1)))))
    (fc_with_acc s0 index i abuf0 (float_of_Z prec emax 0))
  = Ok tt (fc_with_acc s0 index i abuf0
             (column_acc prec emax (-1) (binarized_fc_layer.Wbin_ s0) in_bin osz i
                (Z.to_nat isz))).
Proof.
  intros isz osz Hsb Hisz Hfit Hwb Hin Hi Hab Hlt.
  assert (Hp : 2 ^ cbits <= 2 ^ 64) by (apply Z.pow_le_mono_r; lia).
  assert (Hidx : (Z.to_nat index < length (a_ (binarized_fc_layer.base_ s0)))%nat)
    by (now apply lookup_lt_Some in Hab).
  match goal with
  | |- for_each ?n ?body ?s = _ =>
      destruct (for_each_inv
        (fun c s' =>
           s' = fc_with_acc s0 index i abuf0
                  (column_acc prec emax (-1) (binarized_fc_layer.Wbin_ s0) in_bin
                     osz i (Z.to_nat c)))
        body n s) as (s' & Hrun & ->)
  end.
  - exact Hisz.
  - reflexivity.
  - intros c s Hc ->.
    assert (Hco : 0 <= c * osz) by nia.
    assert (Hco' : c * osz + osz <= isz * osz) by nia.
    set (acc := column_acc prec emax (-1) (binarized_fc_layer.Wbin_ s0) in_bin
                  osz i (Z.to_nat c)).
    eexists. split.
    + erewrite bind_Ok by (unfold gets; reflexivity).
      rewrite (umul_small cbits c osz) by lia.
      rewrite uadd_small by lia.
      rewrite (wrap_small size_t_bits) by (unfold size_t_bits; lia).
      cbn [fc_with_acc binarized_fc_layer.Wbin_ binarized_fc_layer.set_base_].
      erewrite bind_Ok by (apply vread_bit; lia).
      erewrite bind_Ok by (apply vread_bit; lia).
      erewrite bind_Ok.
      2:{ apply lift_Ok.
          apply (a_read_Ok _ _ _ (<[Z.to_nat i := acc]> abuf0)).
          - cbn. now apply list_lookup_insert_eq.
          - now apply list_lookup_insert_eq. }
      apply lift_Ok.
      apply (a_write_Ok _ _ _ (<[Z.to_nat i := acc]> abuf0)).
      * cbn. now apply list_lookup_insert_eq.
      * now rewrite length_insert.
    + replace (Z.to_nat (c + 1)) with (S (Z.to_nat c)) by lia.
      rewrite column_acc_succ, Z2Nat.id by lia. fold acc.
      unfold fc_with_acc, binarized_fc_layer.set_base_, set_a_. cbn.
      now rewrite !list_insert_insert_eq.
  - exact Hrun.
Qed.

Lemma fc_accumulate_values (cbits prec emax : Z) (l : binarized_fc_layer.t)
  (in_bin : list bool) (index : Z) :
  let isz := in_size_ (binarized_fc_layer.base_ l) in
  let osz := out_size_ (binarized_fc_layer.base_ l) in
  let acc := fun i =>
    column_acc prec emax (-1) (binarized_fc_layer.Wbin_ l) in_bin osz i
      (Z.to_nat isz) in
  cbits <= 64 ->
  isz * osz <= 2 ^ cbits ->
  Z.of_nat (length (binarized_fc_layer.Wbin_ l)) = isz * osz ->
  Z.of_nat (length in_bin) = isz ->
  scratch_ready (binarized_fc_layer.base_ l) index ->
  exists s' abuf,
    for_each osz
      (fun i =>
         binarized_fc_layer.in_base (a_write index i (float_of_Z prec emax 0)) ;;;
         for_each isz
           (fun c =>
              wb <- gets binarized_fc_layer.Wbin_ ;;
              w <- vread wb (wrap size_t_bits (uadd cbits (umul cbits c osz) i)) ;;
              x <- vread in_bin c ;;
              ai <- binarized_fc_layer.in_base (a_read index i) ;;
              binarized_fc_layer.in_base
                (a_write index i
                   (fadd prec emax ai
                      (float_of_Z prec emax (if Bool.eqb w x then 1 else -1)))))) l
    = Ok tt s' /\
    binarized_fc_layer.h_ s' = binarized_fc_layer.h_ l /\
    same_shape (binarized_fc_layer.base_ l) (binarized_fc_layer.base_ s') /\
    a_ (binarized_fc_layer.base_ s') !! Z.to_nat index = Some abuf /\
    Z.of_nat (length abuf) = osz /\
    forall i, 0 <= i < osz -> abuf !! Z.to_nat i = Some (acc i).
Proof.
  intros isz osz acc Hsb Hfit Hwb Hin Hready.
  pose proof Hready as (Hisz & Hosz & Hidx & (abuf0 & Hab0 & Hal0) & _).
  fold isz in Hisz. fold osz in Hosz, Hal0.
  pose (Q := fun (i : Z) (s : binarized_fc_layer.t) =>
    binarized_fc_layer.Wbin_ s = binarized_fc_layer.Wbin_ l /\
    binarized_fc_layer.h_ s = binarized_fc_layer.h_ l /\
    same_shape (binarized_fc_layer.base_ l) (binarized_fc_layer.base_ s) /\
    exists abuf,
      a_ (binarized_fc_layer.base_ s) !! Z.to_nat index = Some abuf /\
      Z.of_nat (length abuf) = osz /\
      forall j, 0 <= j < i -> abuf !! Z.to_nat j = Some (acc j)).
  match goal with
  | |- exists s' abuf, for_each ?n ?body ?s0 = _ /\ _ =>
      destruct (for_each_inv Q body n s0)
        as (s' & Hrun & _ & Hh & Hs & abuf & Hab & Hal & Hval)
  end.
  - exact Hosz.
  - refine (conj eq_refl (conj eq_refl (conj (same_shape_refl _) _))).
    exists abuf0. refine (conj Hab0 (conj Hal0 _)). intros j Hj. lia.
  - intros i s Hi (Hw & Hh & Hs & abuf & Hab & Hal & Hval).
    pose proof Hs as (Hsi & Hso & _).
    assert (Hia : (Z.to_nat i < length abuf)%nat) by lia.
    exists (fc_with_acc s index i abuf (acc i)).
    split.
    + erewrite bind_Ok
        by (apply lift_Ok; apply (a_write_Ok _ _ _ _ _ Hab Hia)).
      pose proof (fc_column cbits prec emax s in_bin index i abuf) as Hcol.
      cbv zeta in Hcol. rewrite Hsi, Hso, Hw in Hcol.
      fold isz osz in Hcol. apply Hcol; try assumption; lia.
    + unfold Q. cbn.
      refine (conj Hw (conj Hh (conj _ _))).
      * apply (same_shape_a_write _ _ index i (acc i) abuf); assumption.
      * exists (<[Z.to_nat i := acc i]> abuf).
        rewrite list_lookup_insert_eq by (now apply lookup_lt_Some in Hab).
        rewrite length_insert.
        refine (conj eq_refl (conj Hal _)).
        intros j Hj.
        destruct (decide (j = i)) as [->|Hne].
        -- now rewrite list_lookup_insert_eq by assumption.
        -- rewrite list_lookup_insert_ne by lia. apply Hval. lia.
  - exists s', abuf.
    refine (conj Hrun (conj Hh (conj Hs (conj Hab (conj Hal Hval))))).
Qed.

Lemma fc_activate_values (prec emax : Z) (s : binarized_fc_layer.t)
  (index : Z) (abuf : vec_t) :
  let osz := out_size_ (binarized_fc_layer.base_ s) in
  scratch_ready (binarized_fc_layer.base_ s) index ->
  a_ (binarized_fc_layer.base_ s) !! Z.to_nat index = Some abuf ->
  exists s' obuf,
    for_each osz
      (fun i =>
         h <- gets binarized_fc_layer.h_ ;;
         as_ <- gets (fun l => a_ (binarized_fc_layer.base_ l)) ;;
         a <- vread as_ index ;;
         binarized_fc_layer.in_base (out_write index i (h a i))) s
    = Ok tt s' /\
    same_shape (binarized_fc_layer.base_ s) (binarized_fc_layer.base_ s') /\
    a_ (binarized_fc_layer.base_ s') = a_ (binarized_fc_layer.base_ s) /\
    output_ (binarized_fc_layer.base_ s') !! Z.to_nat index = Some obuf /\
    forall i, 0 <= i < osz ->
      obuf !! Z.to_nat i = Some (binarized_fc_layer.h_ s abuf i).
Proof.
  intros osz Hready Hab.
  pose proof Hready as (_ & Hosz & _ & _ & (obuf0 & Hob0 & Hol0)).
  fold osz in Hosz, Hol0.
  pose (Q := fun (i : Z) (s' : binarized_fc_layer.t) =>
    binarized_fc_layer.h_ s' = binarized_fc_layer.h_ s /\
    same_shape (binarized_fc_layer.base_ s) (binarized_fc_layer.base_ s') /\
    a_ (binarized_fc_layer.base_ s') = a_ (binarized_fc_layer.base_ s) /\
    exists obuf,
      output_ (binarized_fc_layer.base_ s') !! Z.to_nat index = Some obuf /\
      Z.of_nat (length obuf) = osz /\
      forall j, 0 <= j < i ->
        obuf !! Z.to_nat j = Some (binarized_fc_layer.h_ s abuf j)).
  match goal with
  | |- exists s' obuf, for_each ?n ?body ?s0 = _ /\ _ =>
      destruct (for_each_inv Q body n s0)
        as (s' & Hrun & _ & Hs & Ha & obuf & Hob & _ & Hval)
  end.
  - exact Hosz.
  - refine (conj eq_refl (conj (same_shape_refl _) (conj eq_refl _))).
    exists obuf0. refine (conj Hob0 (conj Hol0 _)). intros j Hj. lia.
  - intros i s1 Hi (Hh1 & Hs & Ha & obuf & Hob & Hol & Hval).
    assert (Hio : (Z.to_nat i < length obuf)%nat) by lia.
    eexists. split.
    + erewrite bind_Ok by (unfold gets; reflexivity).
      erewrite bind_Ok by (unfold gets; reflexivity).
      rewrite Ha.
      erewrite bind_Ok by (apply vread_Ok; exact Hab).
      apply lift_Ok. apply (out_write_Ok _ _ _ _ _ Hob Hio).
    + unfold Q. cbn.
      refine (conj Hh1 (conj _ (conj Ha _))).
      * apply same_shape_out_write; assumption.
      * exists (<[Z.to_nat i := binarized_fc_layer.h_ s1 abuf i]> obuf).
        rewrite list_lookup_insert_eq by (now apply lookup_lt_Some in Hob).
        rewrite length_insert.
        refine (conj eq_refl (conj Hol _)).
        intros j Hj.
        destruct (decide (j = i)) as [->|Hne].
        -- rewrite list_lookup_insert_eq by assumption. now rewrite Hh1.
        -- rewrite list_lookup_insert_ne by lia. apply Hval. lia.
  - exists s', obuf.
    refine (conj Hrun (conj Hs (conj Ha (conj Hob Hval)))).
Qed.

(** X23: within the range where the index arithmetic does not wrap,
    [forward_propagation] of the binarized fully-connected layer returns;
    it leaves in [a_[index][i]] the accumulator of column [i] (the
    [float_t] additions, in row order from [0], of [+1] for every row [c]
    whose weight bit [c * out_size_ + i] equals the sign bit of input [c]
    and of [-1] for every other row), and in element [i] of the output
    vector the activation [h_.f(a, i)] of the complete accumulator
    vector. *)
Theorem fc_forward_activations :
  forall (cbits prec emax : Z) (l : binarized_fc_layer.t) (in_ : vec_t)
         (index : Z),
    let isz := in_size_ (binarized_fc_layer.base_ l) in
    let osz := out_size_ (binarized_fc_layer.base_ l) in
    let in_bin := refreshed in_ (replicate (Z.to_nat isz) false) in
    cbits <= 64 ->
    isz < 2 ^ cbits ->
    isz * osz <= 2 ^ cbits ->
    osz <= INT_MAX ->
    Z.of_nat (length (binarized_fc_layer.Wbin_ l)) = isz * osz ->
    Z.of_nat (length in_) <= isz ->
    scratch_ready (binarized_fc_layer.base_ l) index ->
    exists out l' abuf obuf,
      binarized_fc_layer.forward_propagation cbits prec emax in_ index l
        = Ok out l' /\
      a_ (binarized_fc_layer.base_ l') !! Z.to_nat index = Some abuf /\
      output_ (binarized_fc_layer.base_ l') !! Z.to_nat index = Some obuf /\
      (next_ (binarized_fc_layer.base_ l) = None -> out = obuf) /\
      Z.of_nat (length abuf) = osz /\
      forall i,
        0 <= i < osz ->
        abuf !! Z.to_nat i
          = Some (column_acc prec emax (-1) (binarized_fc_layer.Wbin_ l) in_bin
                    osz i (Z.to_nat isz)) /\
        obuf !! Z.to_nat i = Some (binarized_fc_layer.h_ l abuf i).
Proof.
  intros cbits prec emax l in_ index isz osz in_bin
    Hsb Hisz Hfit Hosz Hwb Hin Hready.
  assert (Hi0 : 0 <= isz) by (destruct Hready; assumption).
  assert (Hlen : Z.of_nat (length in_bin) = isz).
  { subst in_bin. rewrite refreshed_length; rewrite length_replicate; lia. }
  destruct (fc_accumulate_values cbits prec emax l in_bin index
              Hsb Hfit Hwb Hlen Hready)
    as (s1 & abuf & Hrun1 & Hh1 & Hs1 & Hab & Hal & Hacc).
  pose proof (same_shape_ready _ _ index Hs1 Hready) as Hready1.
  destruct (fc_activate_values prec emax s1 index abuf Hready1 Hab)
    as (s2 & obuf & Hrun2 & Hs2 & Ha2 & Hob & Hout).
  pose proof Hs1 as (_ & Hso1 & _).
  rewrite Hso1 in Hrun2, Hout. fold osz in Hrun2, Hout.
  exists (match next_ (binarized_fc_layer.base_ s2) with
          | Some f => f obuf index
          | None => obuf
          end), s2, abuf, obuf.
  refine (conj _ (conj _ (conj Hob (conj _ (conj Hal _))))).
  - unfold binarized_fc_layer.forward_propagation.
    erewrite bind_Ok by (unfold gets; reflexivity).
    erewrite bind_Ok by (unfold gets; reflexivity).
    erewrite bind_Ok
      by (apply float2bipolar_refreshed; rewrite length_replicate; lia).
    erewrite bind_Ok by exact Hrun1.
    erewrite bind_Ok by exact Hrun2.
    erewrite bind_Ok by (unfold gets; reflexivity).
    erewrite bind_Ok by (apply vread_Ok; exact Hob).
    erewrite bind_Ok by (unfold gets; reflexivity).
    reflexivity.
  - now rewrite Ha2.
  - intros Hnone.
    destruct (same_shape_trans _ _ _ Hs1 Hs2) as (_ & _ & _ & Hnx & _).
    now rewrite Hnx, Hnone.
  - intros i Hi. split; [now apply Hacc|].
    rewrite <- Hh1. now apply Hout.
Qed.

Lemma fc_forward_activations_witness :
  exists out l' abuf obuf,
    binarized_fc_layer.forward_propagation 32 24 128 example_input 0
      (example_fc identity_activation) = Ok out l' /\
    a_ (binarized_fc_layer.base_ l') !! Z.to_nat 0 = Some abuf /\
    output_ (binarized_fc_layer.base_ l') !! Z.to_nat 0 = Some obuf /\
    (next_ (binarized_fc_layer.base_ (example_fc identity_activation)) = None ->
     out = obuf) /\
    Z.of_nat (length abuf)
      = out_size_ (binarized_fc_layer.base_ (example_fc identity_activation)) /\
    forall i,
      0 <= i < out_size_ (binarized_fc_layer.base_ (example_fc identity_activation)) ->
      abuf !! Z.to_nat i
        = Some (column_acc 24 128 (-1)
                  (binarized_fc_layer.Wbin_ (example_fc identity_activation))
                  (refreshed example_input
                     (replicate
                        (Z.to_nat (in_size_ (binarized_fc_layer.base_
                                               (example_fc identity_activation))))
                        false))
                  (out_size_ (binarized_fc_layer.base_
                                (example_fc identity_activation))) i
                  (Z.to_nat (in_size_ (binarized_fc_layer.base_
                                         (example_fc identity_activation))))) /\
      obuf !! Z.to_nat i
      = Some (binarized_fc_layer.h_ (example_fc identity_activation) abuf i).
Proof.
  apply (fc_forward_activations 32 24 128 (example_fc identity_activation)
           example_input 0); try reflexivity; try (now vm_compute).
  unfold scratch_ready. cbn.
  refine (conj _ (conj _ (conj _ (conj _ _)))); try lia;
    eexists; (split; [reflexivity|reflexivity]).
Defined.
